(** * The V3 project migrator of TeamsFx: a shallow embedding and its properties

    Sources covered:
    - [packages/fx-core/src/core/middleware/projectMigratorV3.ts]
      (the middleware [ProjectMigratorMWV3] with [askUserConfirm], the core
      migration pipeline and its rollback wrapper);
    - the debug-task migrations ([migrateSetUpBot], [migrateSetUpSSO],
      [migrateBackendExtensionsInstall], [migrateBackendWatch],
      [migratePreDebugCheck], [handleProvisionAndDeploy],
      [replaceInDependsOn], [getLabels]);
    - [packages/fx-core/src/component/generator/officeAddin/generator.ts]
      ([getHost]).

    Asynchronous functions are embedded in a state-and-exception monad over an
    explicit world (file system, migration ledger, process environment and a
    log of the calls made to collaborators whose code is not available).
    An [await] is a monadic bind: the continuation starts in the world the
    awaited computation left behind. *)

From Stdlib Require Import Ascii.
From stdpp Require Import gmap strings list pretty.

Set Default Proof Using "Type".
Set Warnings "-register-all".

(** * 1. JavaScript strings *)

Module JsString.

(** [stripPrefix t s] is [Some rest] when [s = t ++ rest]. *)
Fixpoint stripPrefix (t s : string) : option string :=
  match t with
  | EmptyString => Some s
  | String a t' =>
      match s with
      | EmptyString => None
      | String b s' => if Ascii.eqb a b then stripPrefix t' s' else None
      end
  end.

Definition startsWith (s t : string) : bool :=
  match stripPrefix t s with Some _ => true | None => false end.

(** [s.includes(t)] *)
Fixpoint includes (s t : string) : bool :=
  match stripPrefix t s with
  | Some _ => true
  | None => match s with
            | EmptyString => false
            | String _ s' => includes s' t
            end
  end.

(** [s.replace(/pat/g, rep)] for a pattern that is a non-empty literal and a
    replacement without [$]-patterns: the text is scanned from the left, every
    match is replaced and scanning resumes behind the match.  The fuel is the
    length of the text, which bounds the number of scanning steps.  (The empty
    pattern is never used by the migrator; the text is returned as it is.) *)
Fixpoint replaceAll_fuel (fuel : nat) (pat rep s : string) : string :=
  match fuel with
  | O => s
  | S fuel' =>
      match s with
      | EmptyString => EmptyString
      | String c s' =>
          match pat, stripPrefix pat s with
          | String _ _, Some rest => rep +:+ replaceAll_fuel fuel' pat rep rest
          | _, _ => String c (replaceAll_fuel fuel' pat rep s')
          end
      end
  end.

Definition replaceAll (pat rep s : string) : string :=
  replaceAll_fuel (String.length s) pat rep s.

(** The word characters of the class [[a-zA-Z0-9_]]. *)
Definition isWordChar (c : ascii) : bool :=
  let n := nat_of_ascii c in
  ((97 <=? n) && (n <=? 122)) || ((65 <=? n) && (n <=? 90))
  || ((48 <=? n) && (n <=? 57)) || (n =? 95).

(** Longest run of word characters at the head of [s], and what follows. *)
Fixpoint spanWord (s : string) : string * string :=
  match s with
  | EmptyString => (EmptyString, EmptyString)
  | String c s' =>
      if isWordChar c
      then let '(w, rest) := spanWord s' in (String c w, rest)
      else (EmptyString, s)
  end.

(** The four line terminators, which [.] does not match: line feed, carriage
    return, and the line and paragraph separators [U+2028] and [U+2029].  A
    text is kept in UTF-8, where the two separators are the byte sequences
    [E2 80 A8] and [E2 80 A9]. *)
Definition lineFeed : string := String "010"%char EmptyString.
Definition carriageReturn : string := String "013"%char EmptyString.
Definition lineSeparator : string :=
  String "226"%char (String "128"%char (String "168"%char EmptyString)).
Definition paragraphSeparator : string :=
  String "226"%char (String "128"%char (String "169"%char EmptyString)).

Definition hasLineTerminator (s : string) : bool :=
  includes s lineFeed || includes s carriageReturn
  || includes s lineSeparator || includes s paragraphSeparator.

(** [s] without its last character, when that character is [c]. *)
Fixpoint stripLast (c : ascii) (s : string) : option string :=
  match s with
  | EmptyString => None
  | String a EmptyString => if Ascii.eqb a c then Some EmptyString else None
  | String a s' => option_map (String a) (stripLast c s')
  end.

End JsString.

Import JsString.

(** * 2. JavaScript values *)

Module Js.

(** Values of a parsed JSON document (a [CommentJSONValue]: the comments that
    [comment-json] attaches under symbol keys are not observed by the code
    modelled here).  Objects keep their keys in insertion order.  [undefined]
    is the [None] of [option Json]. *)
Inductive Json : Type :=
| JNull
| JBool (b : bool)
| JNum (n : Z)
| JStr (s : string)
| JArr (items : list Json)
| JObj (fields : list (string * Json)).

Fixpoint assocGet (k : string) (fields : list (string * Json)) : option Json :=
  match fields with
  | [] => None
  | (k', v) :: rest => if String.eqb k' k then Some v else assocGet k rest
  end.

(** Assignment keeps the position of an existing key and appends a new one. *)
Fixpoint assocSet (k : string) (v : Json) (fields : list (string * Json))
  : list (string * Json) :=
  match fields with
  | [] => [(k, v)]
  | (k', v') :: rest =>
      if String.eqb k' k then (k', v) :: rest else (k', v') :: assocSet k v rest
  end.

Fixpoint assocDel (k : string) (fields : list (string * Json))
  : list (string * Json) :=
  match fields with
  | [] => []
  | (k', v') :: rest =>
      if String.eqb k' k then assocDel k rest else (k', v') :: assocDel k rest
  end.

(** [o[k]] on a value known to be an object. *)
Definition getProp (o : Json) (k : string) : option Json :=
  match o with JObj fields => assocGet k fields | _ => None end.

(** [o[k] = v] *)
Definition setProp (o : Json) (k : string) (v : Json) : Json :=
  match o with JObj fields => JObj (assocSet k v fields) | _ => o end.

(** [delete o[k]] *)
Definition deleteProp (o : Json) (k : string) : Json :=
  match o with JObj fields => JObj (assocDel k fields) | _ => o end.

(** Truthiness of a value or [undefined]. *)
Definition truthy (v : option Json) : bool :=
  match v with
  | None | Some JNull => false
  | Some (JBool b) => b
  | Some (JNum n) => negb (n =? 0)%Z
  | Some (JStr s) => negb (String.eqb s "")
  | Some (JArr _) | Some (JObj _) => true
  end.

(** [v === s] for a string [s]. *)
Definition isStr (s : string) (v : Json) : bool :=
  match v with JStr t => String.eqb t s | _ => false end.

(** [typeof v === "string"] *)
Definition asString (v : option Json) : option string :=
  match v with Some (JStr s) => Some s | _ => None end.

(** [isCommentObject] of [debugV3MigrationUtils]: an object that is neither
    an array nor [null]. *)
Definition isCommentObject (v : Json) : bool :=
  match v with JObj _ => true | _ => false end.

(** [isCommentArray] *)
Definition isCommentArray (v : option Json) : bool :=
  match v with Some (JArr _) => true | _ => false end.

(** [arr.findIndex(p)]: [None] stands for [-1]. *)
Fixpoint findIndex {A} (p : A -> bool) (l : list A) : option nat :=
  match l with
  | [] => None
  | x :: l' => if p x then Some 0 else option_map S (findIndex p l')
  end.

(** [arr.splice(start, deleteCount, ...items)] as the new contents of the
    array; a [start] beyond the end is clamped to the length. *)
Definition splice {A} (start deleteCount : nat) (items l : list A) : list A :=
  take start l ++ items ++ drop (start + deleteCount) l.

(** Instances of [Error] that are neither [UserError] nor [SystemError]. *)
Record ErrorObj : Type := mkError { errName : string; errMessage : string }.

(** The option bag of the [UserError] and [SystemError] constructors. *)
Record FxErrorInfo : Type := mkFxErrorInfo {
  fxInner : option ErrorObj;
  fxSource : string;
  fxName : string;
  fxMessage : string;
  fxDisplayMessage : string
}.

(** [type FxError = UserError | SystemError] *)
Inductive FxError : Type :=
| UserError (info : FxErrorInfo)
| SystemError (info : FxErrorInfo).

(** The two values that have no properties. *)
Inductive Nullish : Type := Undefined | Null.

Definition nullishText (base : Nullish) : string :=
  match base with Undefined => "undefined" | Null => "null" end.

(** Anything a [throw] (or a rejected promise) can carry.  For a value that is
    not an [Error], [repr] is the result of its [toString()]; [null] and
    [undefined], on which that call itself fails, are [ThrownNullish]. *)
Inductive Thrown : Type :=
| ThrownFx (e : FxError)
| ThrownError (e : ErrorObj)
| ThrownValue (repr : string)
| ThrownNullish (base : Nullish).

(** [error instanceof Error] *)
Definition instanceofError (e : Thrown) : bool :=
  match e with ThrownValue _ | ThrownNullish _ => false | _ => true end.

(** The [TypeError] of a property access on [null] or [undefined]; its
    message names the base. *)
Definition typeError (base : Nullish) (property : string) : Thrown :=
  ThrownError (mkError "TypeError"
    ("Cannot read properties of " +:+ nullishText base
     +:+ " (reading '" +:+ property +:+ "')")).

End Js.

Import Js.

(** * 3. The world: file system, ledger, environment and call log *)

Module World.

(** A path is the list of its segments: [path.join] is concatenation, and
    [".vscode/launch.json"] is [[".vscode"; "launch.json"]]. *)
Abbreviation Path := (list string).

Inductive Entry : Type :=
| File (content : string)
| Dir.

Abbreviation Files := (gmap (list string) Entry).

Fixpoint stripPathPrefix (p k : Path) : option Path :=
  match p with
  | [] => Some k
  | a :: p' =>
      match k with
      | [] => None
      | b :: k' => if String.eqb a b then stripPathPrefix p' k' else None
      end
  end.

(** Copy of the entry at [src] in [from], with everything below it, to [dst]
    in [to]. *)
Definition copyInto (src dst : Path) (from to : Files) : Files :=
  foldr (fun '(k, e) acc =>
           match stripPathPrefix src k with
           | Some rest => <[dst ++ rest := e]> acc
           | None => acc
           end) to (map_to_list from).

(** Names of the entries directly below [dir]. *)
Definition childNames (dir : Path) (files : Files) : list string :=
  omap (fun '(k, _) =>
          match stripPathPrefix dir k with
          | Some [name] => Some name
          | _ => None
          end) (map_to_list files).

(** The members of [TelemetryEvent] used by the migrator. *)
Inductive TelemetryEvent : Type :=
| ProjectMigratorMigrateStartV3
| ProjectMigratorMigrateV3
| ProjectMigratorV3Error.

(** The three clean-up methods of [MigrationContext]. *)
Inductive RollbackPhase : Type :=
| CleanModifiedPaths
| RestoreBackup
| CleanTeamsfx.

(** Calls to collaborators whose effect is observed only as a call. *)
Inductive Event : Type :=
| SendTelemetryEvent (component : string) (event : TelemetryEvent)
    (properties : option (list (string * string)))
| SendTelemetryErrorEvent (component : string) (event : TelemetryEvent)
    (error : FxError) (properties : list (string * string))
| ContextCall (phase : RollbackPhase)
| UpdateLocalEnv (envs : list (string * string)).

(** What a migration works on: the disk and the fields of the
    [MigrationContext] (spec, section 3: project root, modified paths, backup
    paths, telemetry properties), with the private backup area. *)
Record Project : Type := mkProject {
  files : Files;
  backupArea : Files;
  projectPath : Path;
  modifiedPaths : gset (list string);
  backupPaths : gset (list string);
  telemetryProperties : list (string * string);
  processEnv : gmap string string
}.

Record World : Type := mkWorld {
  project : Project;
  log : list Event
}.

Definition withFiles (f : Files) (p : Project) : Project :=
  mkProject f (backupArea p) (projectPath p) (modifiedPaths p)
    (backupPaths p) (telemetryProperties p) (processEnv p).

Definition withBackup (area : Files) (rel : Path) (p : Project) : Project :=
  mkProject (files p) area (projectPath p) (modifiedPaths p)
    ({[ rel ]} ∪ backupPaths p) (telemetryProperties p) (processEnv p).

Definition withModified (rel : Path) (p : Project) : Project :=
  mkProject (files p) (backupArea p) (projectPath p)
    ({[ rel ]} ∪ modifiedPaths p) (backupPaths p) (telemetryProperties p)
    (processEnv p).

(** The entry at a path relative to the project root. *)
Definition entryAt (w : World) (rel : Path) : option Entry :=
  files (project w) !! (projectPath (project w) ++ rel).

(** [rel] is [dir] or lies below it. *)
Definition below (dir rel : Path) : Prop := is_Some (stripPathPrefix dir rel).

(** [w'] differs from [w] at most in the entries at the paths in [touched],
    in their being recorded as modified, and in the backups. *)
Definition changesOnly (touched : Path -> Prop) (w w' : World) : Prop :=
  projectPath (project w') = projectPath (project w) /\
  log w' = log w /\
  (forall rel, ~ touched rel -> entryAt w' rel = entryAt w rel) /\
  (forall rel, ~ touched rel ->
     rel ∈ modifiedPaths (project w') -> rel ∈ modifiedPaths (project w)).

Definition onProject (f : Project -> Project) (w : World) : World :=
  mkWorld (f (project w)) (log w).

Definition emit (e : Event) (w : World) : World :=
  mkWorld (project w) (log w ++ [e]).

(** ** The monad of asynchronous computations *)

Inductive Outcome (A : Type) : Type :=
| Return (a : A)
| Throw (e : Thrown).
Arguments Return {A} a.
Arguments Throw {A} e.

Definition Async (A : Type) : Type := World -> Outcome A * World.

Definition ret {A} (a : A) : Async A := fun w => (Return a, w).

Definition throw {A} (e : Thrown) : Async A := fun w => (Throw e, w).

Definition bind {A B} (m : Async A) (k : A -> Async B) : Async B :=
  fun w =>
    match m w with
    | (Return a, w') => k a w'
    | (Throw e, w') => (Throw e, w')
    end.

(** [try { body } catch (error) { handler(error) }] *)
Definition tryCatch {A} (body : Async A) (handler : Thrown -> Async A)
  : Async A :=
  fun w =>
    match body w with
    | (Return a, w') => (Return a, w')
    | (Throw e, w') => handler e w'
    end.

Definition gets {A} (f : World -> A) : Async A := fun w => (Return (f w), w).

Definition modify (f : World -> World) : Async unit :=
  fun w => (Return tt, f w).

Definition liftOutcome {A} (o : Outcome A) : Async A := fun w => (o, w).

End World.

Import World.

Declare Scope async_scope.
Delimit Scope async_scope with async.
Notation "x <- m ;; k" := (bind m (fun x => k))
  (at level 100, m at next level, right associativity) : async_scope.
Notation "m ;; k" := (bind m (fun _ => k))
  (at level 100, right associativity) : async_scope.
Open Scope async_scope.

(** [for (const x of xs) { await body(x); }] *)
Fixpoint forOf {A} (xs : list A) (body : A -> Async unit) : Async unit :=
  match xs with
  | [] => ret tt
  | x :: xs' => body x ;; forOf xs' body
  end.

(** * 4. Collaborators outside the sources *)

(** [ProjectSettings] of [@microsoft/teamsfx-api]: the project identifier and
    the rest of the document. *)
Record ProjectSettings : Type := mkProjectSettings {
  projectId : string;
  settingsDocument : Json
}.

(** [Result<T, FxError>] *)
Inductive Result (A : Type) : Type :=
| Ok (value : A)
| Err (error : FxError).
Arguments Ok {A} value.
Arguments Err {A} error.

(** [FileType] of [MigrationUtils]. *)
Inductive FileType : Type := STATE | CONFIG | USERDATA.

(** Functions and constants that the sources import from modules that are
    not part of them.  Readers see the project and may fail; they do not
    change it. *)
Class Externals : Type := {
  (* constants of [@microsoft/teamsfx-api], [migrationContext] and
     [component/constants] *)
  SettingsFolderName : string;
  SettingsFileName : string;
  V2TeamsfxFolder : string;
  Component_core : string;
  ErrorConstants_unhandledError : string;
  (* [core/error] *)
  ReadFileError : ErrorObj -> Thrown;
  (* [projectSettingsLoader], [appYmlGenerator], [MigrationUtils],
     [v3MigrationUtils] *)
  loadProjectSettingsByProjectPathV2 : Project -> Path -> Result ProjectSettings;
  JSON_stringify : Json -> string;
  AppYmlGenerator_generateAppYml : ProjectSettings -> string -> Outcome string;
  replacePlaceholdersForV3 : string -> string -> string;
  readStateFile : Project -> Path -> Outcome (option Json);
  readBicepContent : Project -> Outcome string;
  jsonObjectNamesConvertV3 : Json -> string -> FileType -> string -> string;
  (* what the three clean-up methods of [MigrationContext] do to the project *)
  cleanModifiedPaths_effect : Project -> Project;
  restoreBackup_effect : Project -> Project;
  cleanTeamsfx_effect : Project -> Project;
  (* [common/local], [debugV3MigrationUtils], [core/crypto] *)
  TaskCommand_setUpBot : string;
  createResourcesTask : string -> Json;
  setUpLocalProjectsTask : string -> Json;
  includeTab : ProjectSettings -> bool;
  includeBot : ProjectSettings -> bool;
  includeSSO : ProjectSettings -> bool;
  LocalCrypto_encrypt : string -> string -> Result string
}.

(** Constants whose values the sources spell out in their comments and error
    messages ("templates/appPackage does not exist",
    "templates/appPackage/manifest.template.json does not exist"). *)
Definition TemplateFolderName : string := "templates".
Definition AppPackageFolderName : string := "appPackage".
Definition MANIFEST_TEMPLATE_CONSOLIDATE : string := "manifest.template.json".

(** * 5. [fs-extra] and the [MigrationContext] *)

Module Context.

(** [fs.pathExists(path.join(context.projectPath, rel))] *)
Definition pathExists (rel : Path) : Async bool :=
  gets (fun w =>
    bool_decide (is_Some (files (project w) !! (projectPath (project w) ++ rel)))).

Definition enoent : Thrown :=
  ThrownError (mkError "Error" "ENOENT: no such file or directory").

Definition eisdir : Thrown :=
  ThrownError (mkError "Error" "EISDIR: illegal operation on a directory").

Definition enotdir : Thrown :=
  ThrownError (mkError "Error" "ENOTDIR: not a directory").

(** [fs.readFile(path.join(context.projectPath, rel), "utf8")] *)
Definition readFile (rel : Path) : Async string :=
  fun w =>
    match files (project w) !! (projectPath (project w) ++ rel) with
    | Some (File content) => (Return content, w)
    | Some Dir => (Throw eisdir, w)
    | None => (Throw enoent, w)
    end.

(** [fsReadDirSync(context, rel)]: the names in a directory. *)
Definition fsReadDirSync (rel : Path) : Async (list string) :=
  fun w =>
    match files (project w) !! (projectPath (project w) ++ rel) with
    | Some Dir =>
        (Return (childNames (projectPath (project w) ++ rel) (files (project w))), w)
    | Some (File _) => (Throw enotdir, w)
    | None => (Throw enoent, w)
    end.

(** Modelled from the spec: [MigrationContext.backup] is not part of the
    sources.  Section 4.2: "if the path exists, copy it into a private backup
    area keyed by relative path and record it in [backupPaths]; returns
    whether the source existed". *)
Definition backup (rel : Path) : Async bool :=
  fun w =>
    let p := project w in
    match files p !! (projectPath p ++ rel) with
    | Some _ =>
        (Return true,
         onProject (withBackup
           (copyInto (projectPath p ++ rel) rel (files p) (backupArea p)) rel) w)
    | None => (Return false, w)
    end.

(** Modelled from the spec: [MigrationContext.fsPathExists] is not part of
    the sources; it is [pathExists] below the project root. *)
Definition fsPathExists (rel : Path) : Async bool := pathExists rel.

(** Modelled from the spec: [MigrationContext.fsEnsureDir], [fsWriteFile],
    [fsCreateFile] and [fsCopy] are not part of the sources.  Section 4.2:
    "each records the target relative path in [modifiedPaths] before
    performing the write".  A directory or file that exists is left as it is
    by [fsEnsureDir] and [fsCreateFile]. *)
Definition fsEnsureDir (rel : Path) : Async unit :=
  modify (onProject (fun p =>
    let p' := withModified rel p in
    match files p' !! (projectPath p' ++ rel) with
    | Some _ => p'
    | None => withFiles (<[projectPath p' ++ rel := Dir]> (files p')) p'
    end)).

Definition fsWriteFile (rel : Path) (content : string) : Async unit :=
  modify (onProject (fun p =>
    let p' := withModified rel p in
    withFiles (<[projectPath p' ++ rel := File content]> (files p')) p')).

Definition fsCreateFile (rel : Path) : Async unit :=
  modify (onProject (fun p =>
    let p' := withModified rel p in
    match files p' !! (projectPath p' ++ rel) with
    | Some _ => p'
    | None => withFiles (<[projectPath p' ++ rel := File ""]> (files p')) p'
    end)).

Definition fsCopy (src dst : Path) : Async unit :=
  modify (onProject (fun p =>
    let p' := withModified dst p in
    withFiles (copyInto (projectPath p' ++ src) (projectPath p' ++ dst)
                 (files p') (files p')) p')).

Section CleanUp.
Context `{Externals}.

(** The clean-up methods: the call is logged, the effect is the
    collaborator's. *)
Definition cleanModifiedPaths : Async unit :=
  modify (fun w => emit (ContextCall CleanModifiedPaths)
                     (onProject cleanModifiedPaths_effect w)).

Definition restoreBackup : Async unit :=
  modify (fun w => emit (ContextCall RestoreBackup)
                     (onProject restoreBackup_effect w)).

Definition cleanTeamsfx : Async unit :=
  modify (fun w => emit (ContextCall CleanTeamsfx)
                     (onProject cleanTeamsfx_effect w)).

End CleanUp.

Definition sendTelemetryEvent (component : string) (event : TelemetryEvent)
  (properties : option (list (string * string))) : Async unit :=
  modify (emit (SendTelemetryEvent component event properties)).

Definition sendTelemetryErrorEvent (component : string) (event : TelemetryEvent)
  (error : FxError) (properties : list (string * string)) : Async unit :=
  modify (emit (SendTelemetryErrorEvent component event error properties)).

End Context.

Import Context.

(** * 6. [projectMigratorV3.ts]: the core migration pipeline *)

Module ProjectMigratorV3.

Definition MigrationVersion : string := "2.1.0".

(** [Constants]; the leading [./] of [provisionBicepPath] disappears in
    [path.join]. *)
Definition provisionBicepPath : Path := ["templates"; "azure"; "provision.bicep"].
Definition launchJsonPath : Path := [".vscode"; "launch.json"].
Definition appYmlName : string := "app.yml".

(** [type Migration = (context: MigrationContext) => Promise<void>] *)
Definition Migration : Type := Async unit.

(** [fileRegex.exec(fileName)] reduced to its second group, for the
    expression with the three groups: the literal [state.], a greedy run of
    word characters (letters, digits, underscore), the literal [.json].  At a
    given start the run has to be the longest one: a dot is not a word
    character, so after a shorter run the third group meets a word
    character. *)
Definition matchStateFileAt (s : string) : option string :=
  match stripPrefix "state." s with
  | Some afterState =>
      let '(envName, rest) := spanWord afterState in
      match stripPrefix ".json" rest with
      | Some _ => Some envName
      | None => None
      end
  | None => None
  end.

(** The leftmost start at which the expression matches. *)
Fixpoint execStateFileRegex (fileName : string) : option string :=
  match matchStateFileAt fileName with
  | Some envName => Some envName
  | None =>
      match fileName with
      | EmptyString => None
      | String _ rest => execStateFileRegex rest
      end
  end.

(** The three chained [replace] calls of [updateLaunchJson]. *)
Definition rewriteLaunchJson (launchJsonContent : string) : string :=
  replaceAll "${localTeamsAppInternalId}" "${local:teamsAppInternalId}"
    (replaceAll "${localTeamsAppId}" "${local:teamsAppId}"
       (replaceAll "${teamsAppId}" "${dev:teamsAppId}" launchJsonContent)).

Section Pipeline.
Context `{Externals}.

Definition preMigration : Migration :=
  _ <- backup [V2TeamsfxFolder] ;; ret tt.

Definition loadProjectSettings : Async ProjectSettings :=
  fun w =>
    match loadProjectSettingsByProjectPathV2 (project w) (projectPath (project w)) with
    | Ok value => (Return value, w)
    | Err error => (Throw (ThrownFx error), w)
    end.

Definition generateSettingsJson : Migration :=
  oldProjectSettings <- loadProjectSettings ;;
  let content := JObj [("version", JStr "3.0.0");
                       ("trackingId", JStr (projectId oldProjectSettings))] in
  fsEnsureDir [SettingsFolderName] ;;
  fsWriteFile [SettingsFolderName; SettingsFileName] (JSON_stringify content).

Definition generateAppYml : Migration :=
  bicepContent <- readFile provisionBicepPath ;;
  oldProjectSettings <- loadProjectSettings ;;
  appYmlString <-
    liftOutcome (AppYmlGenerator_generateAppYml oldProjectSettings bicepContent) ;;
  fsWriteFile [SettingsFolderName; appYmlName] appYmlString.

Definition updateLaunchJson : Migration :=
  launchJsonExists <- pathExists launchJsonPath ;;
  if launchJsonExists : bool then
    (_ <- backup launchJsonPath ;;
     launchJsonContent <- readFile launchJsonPath ;;
     fsWriteFile launchJsonPath (rewriteLaunchJson launchJsonContent))
  else ret tt.

Definition oldAppPackageFolderPath : Path :=
  [TemplateFolderName; AppPackageFolderName].
Definition oldResourceFolderPath : Path :=
  oldAppPackageFolderPath ++ ["resources"].
Definition oldBicepFilePath : Path :=
  [TemplateFolderName; "azure"; "provision.bicep"].
Definition oldManifestPath : Path :=
  oldAppPackageFolderPath ++ [MANIFEST_TEMPLATE_CONSOLIDATE].
Definition oldAadManifestPath : Path :=
  oldAppPackageFolderPath ++ ["aad.template.json"].
Definition manifestPath : Path :=
  [AppPackageFolderName; MANIFEST_TEMPLATE_CONSOLIDATE].
Definition aadManifestPath : Path := ["aad.manifest.template.json"].

Definition replacePlaceholderForManifests : Migration :=
  oldAppPackageFolderBackupRes <- backup oldAppPackageFolderPath ;;
  if negb oldAppPackageFolderBackupRes then
    throw (ReadFileError (mkError "Error" "templates/appPackage does not exist"))
  else
    fsEnsureDir [AppPackageFolderName] ;;
    oldResourceFolderExists <- pathExists oldResourceFolderPath ;;
    (if oldResourceFolderExists : bool
     then fsCopy oldResourceFolderPath [AppPackageFolderName; "resources"]
     else ret tt) ;;
    oldBicepFileExists <- pathExists oldBicepFilePath ;;
    if negb oldBicepFileExists then
      throw (ReadFileError
               (mkError "Error" "templates/azure/provision.bicep does not exist"))
    else
      bicepContent <- readFile oldBicepFilePath ;;
      oldManifestExists <- pathExists oldManifestPath ;;
      (if oldManifestExists : bool then
         (oldManifest <- readFile oldManifestPath ;;
          fsWriteFile manifestPath (replacePlaceholdersForV3 oldManifest bicepContent))
       else
         throw (ReadFileError
                  (mkError "Error"
                     "templates/appPackage/manifest.template.json does not exist"))) ;;
      oldAadManifestExists <- pathExists oldAadManifestPath ;;
      if oldAadManifestExists : bool then
        (oldAadManifest <- readFile oldAadManifestPath ;;
         fsWriteFile aadManifestPath
           (replacePlaceholdersForV3 oldAadManifest bicepContent))
      else ret tt.

Definition statesFolder : Path := [".fx"; "states"].

(** The body of the loop of [statesMigration]. *)
Definition migrateStateFile (fileName : string) : Async unit :=
  match execStateFileRegex fileName with
  | Some envName =>
      fsEnsureDir [SettingsFolderName] ;;
      fsCreateFile [SettingsFolderName; ".env." +:+ envName] ;;
      obj <- (fun w =>
                (readStateFile (project w)
                   (statesFolder ++ ["state." +:+ envName +:+ ".json"]), w)) ;;
      match obj with
      | Some stateObject =>
          if truthy obj then
            (bicepContent <- (fun w => (readBicepContent (project w), w)) ;;
             let envData :=
               jsonObjectNamesConvertV3 stateObject "state." STATE bicepContent in
             fsWriteFile [SettingsFolderName; ".env." +:+ envName] envData)
          else ret tt
      | None => ret tt
      end
  | None => ret tt
  end.

Definition statesMigration : Migration :=
  statesFolderExists <- fsPathExists statesFolder ;;
  if statesFolderExists : bool then
    (fileNames <- fsReadDirSync statesFolder ;;
     forOf fileNames migrateStateFile)
  else ret tt.

Definition subMigrations : list Migration :=
  [ preMigration;
    generateSettingsJson;
    generateAppYml;
    replacePlaceholderForManifests;
    statesMigration;
    updateLaunchJson ].

Definition migrate : Async unit :=
  forOf subMigrations (fun subMigration => subMigration).

Definition rollbackMigration : Async unit :=
  cleanModifiedPaths ;;
  restoreBackup ;;
  cleanTeamsfx.

Definition showSummaryReport : Async unit := ret tt.

(** [new SystemError({ error, source: Component.core,
    name: ErrorConstants.unhandledError, message: error.message,
    displayMessage: error.message })] *)
Definition unhandledError (error : ErrorObj) : FxError :=
  SystemError (mkFxErrorInfo (Some error) Component_core
                 ErrorConstants_unhandledError (errMessage error)
                 (errMessage error)).

(** The first statements of the [catch] block: the value of [error] after
    them, and [fxError].  [error.toString()] on [null] or [undefined] throws. *)
Definition classify (error : Thrown) : Outcome (Thrown * FxError) :=
  match error with
  | ThrownFx fxError => Return (error, fxError)
  | ThrownError e => Return (error, unhandledError e)
  | ThrownValue repr =>
      let e := mkError "Error" repr in
      Return (ThrownError e, unhandledError e)
  | ThrownNullish base => Throw (typeError base "toString")
  end.

Definition wrapRunMigration (exec : Async unit) : Async unit :=
  tryCatch
    (sendTelemetryEvent Component_core ProjectMigratorMigrateStartV3 None ;;
     exec ;;
     showSummaryReport ;;
     properties <- gets (fun w => telemetryProperties (project w)) ;;
     sendTelemetryEvent Component_core ProjectMigratorMigrateV3 (Some properties))
    (fun caught =>
       classified <- liftOutcome (classify caught) ;;
       let '(error, fxError) := classified in
       properties <- gets (fun w => telemetryProperties (project w)) ;;
       sendTelemetryErrorEvent Component_core ProjectMigratorV3Error fxError
         properties ;;
       rollbackMigration ;;
       throw error).

End Pipeline.

End ProjectMigratorV3.

(** * 7. The debug-task migrations *)

Module TaskMigrations.

Record PlaceholderMapping : Type := mkPlaceholderMapping {
  tabDomain : string;
  tabEndpoint : string;
  botDomain : string;
  botEndpoint : string
}.

(** [DebugMigrationContext]: the wrapped migration context (with the world it
    acts on), the task array, the accumulated [AppYmlConfig] (a plain object),
    the legacy settings, the placeholder table and the labels generated in
    this run. *)
Record DebugMigrationContext : Type := mkDebugContext {
  migrationContext : World;
  tasks : list Json;
  appYmlConfig : Json;
  oldProjectSettings : ProjectSettings;
  placeholderMapping : PlaceholderMapping;
  generatedLabels : list string
}.

Definition withWorld (w : World) (c : DebugMigrationContext) :=
  mkDebugContext w (tasks c) (appYmlConfig c) (oldProjectSettings c)
    (placeholderMapping c) (generatedLabels c).

Definition withTasks (ts : list Json) (c : DebugMigrationContext) :=
  mkDebugContext (migrationContext c) ts (appYmlConfig c) (oldProjectSettings c)
    (placeholderMapping c) (generatedLabels c).

Definition withAppYmlConfig (cfg : Json) (c : DebugMigrationContext) :=
  mkDebugContext (migrationContext c) (tasks c) cfg (oldProjectSettings c)
    (placeholderMapping c) (generatedLabels c).

Definition withGeneratedLabels (ls : list string) (c : DebugMigrationContext) :=
  mkDebugContext (migrationContext c) (tasks c) (appYmlConfig c)
    (oldProjectSettings c) (placeholderMapping c) ls.

(** [task[k] === s] *)
Definition propIs (task : Json) (k s : string) : bool :=
  match getProp task k with
  | Some v => isStr s v
  | None => false
  end.

(** [if (!o[k]) { o[k] = {}; }] *)
Definition ensureObject (k : string) (o : Json) : Json :=
  if truthy (getProp o k) then o else setProp o k (JObj []).

(** [o.k1.k2 ... kn = v], every object on the way being present. *)
Fixpoint setPath (path : list string) (v : Json) (o : Json) : Json :=
  match path with
  | [] => v
  | k :: rest =>
      match rest, getProp o k with
      | [], _ => setProp o k v
      | _, Some inner => setProp o k (setPath rest v inner)
      | _, None => o
      end
  end.

(** [envs[k] = v] on a string-to-string object. *)
Fixpoint envSet (k v : string) (envs : list (string * string))
  : list (string * string) :=
  match envs with
  | [] => [(k, v)]
  | (k', v') :: rest =>
      if String.eqb k' k then (k', v) :: rest else (k', v') :: envSet k v rest
  end.

Fixpoint envGet (k : string) (envs : list (string * string)) : option string :=
  match envs with
  | [] => None
  | (k', v) :: rest => if String.eqb k' k then Some v else envGet k rest
  end.

(** [s.match(envReferencePattern)] reduced to its group: the text is the
    literal [${env:], a run without line terminators, and a closing brace at
    the very end. *)
Definition envReference (s : string) : option string :=
  match stripPrefix "${env:" s with
  | Some rest =>
      match stripLast "}"%char rest with
      | Some name => if hasLineTerminator name then None else Some name
      | None => None
      end
  | None => None
  end.

Fixpoint getLabels (tasks : list Json) : list string :=
  match tasks with
  | [] => []
  | task :: rest =>
      if isCommentObject task then
        match asString (getProp task "label") with
        | Some label => label :: getLabels rest
        | None => getLabels rest
        end
      else getLabels rest
  end.

(** The array branch of [replaceInDependsOn]: the contents of the array after
    the [splice], and [None] when the label is not in the array. *)
Definition replaceInArray (label : string) (replacements : list string)
  (dependsOn : list Json) : option (list Json) :=
  match findIndex (isStr label) dependsOn with
  | Some index =>
      match replacements with
      | first :: _ =>
          if negb (existsb (isStr first) dependsOn)
          then Some (splice index 1 (JStr <$> replacements) dependsOn)
          else Some (splice index 1 [] dependsOn)
      | [] => Some (splice index 1 [] dependsOn)
      end
  | None => None
  end.

(** The body of the loop of [replaceInDependsOn]: what becomes of one task. *)
Definition replaceInTask (label : string) (replacements : list string)
  (task : Json) : Json :=
  if isCommentObject task && truthy (getProp task "dependsOn") then
    match getProp task "dependsOn" with
    | Some (JStr dependsOn) =>
        if String.eqb dependsOn label then
          if 0 <? length replacements
          then setProp task "dependsOn" (JArr (JStr <$> replacements))
          else deleteProp task "dependsOn"
        else task
    | Some (JArr dependsOn) =>
        match replaceInArray label replacements dependsOn with
        | Some dependsOn' => setProp task "dependsOn" (JArr dependsOn')
        | None => task
        end
    | _ => task
    end
  else task.

Definition replaceInDependsOn (label : string) (tasks : list Json)
  (replacements : list string) : list Json :=
  replaceInTask label replacements <$> tasks.

(** How often the label [s] occurs in an array. *)
Fixpoint occurrences (s : string) (arr : list Json) : nat :=
  match arr with
  | [] => 0
  | v :: arr' => (if isStr s v then 1 else 0) + occurrences s arr'
  end.

(** An array without the first occurrence of the label [s]. *)
Fixpoint withoutFirst (s : string) (arr : list Json) : list Json :=
  match arr with
  | [] => []
  | v :: arr' => if isStr s v then arr' else v :: withoutFirst s arr'
  end.

(** Modelled from the spec: [generateLabel] of [debugV3MigrationUtils] is not
    part of the sources.  Section 4.4: "any synthesized label must not collide
    with an existing label; generation appends a numeric/string disambiguator
    deterministically", section 8: "e.g. suffix #2".  The candidates are the
    base name, then the base name with the suffixes #2, #3, ...; the first
    candidate that is not an existing label is the result.  One of the first
    [length existing + 1] candidates is free. *)
Definition labelCandidate (base : string) (n : nat) : string :=
  match n with
  | O => base
  | S _ => base +:+ "#" +:+ pretty (S n)
  end.

Fixpoint generateLabel_from (fuel n : nat) (base : string)
  (existingLabels : list string) : string :=
  match fuel with
  | O => labelCandidate base n
  | S fuel' =>
      if bool_decide (labelCandidate base n ∈ existingLabels)
      then generateLabel_from fuel' (S n) base existingLabels
      else labelCandidate base n
  end.

Definition generateLabel (base : string) (existingLabels : list string) : string :=
  generateLabel_from (length existingLabels) 0 base existingLabels.

Section Migrations.
Context `{Externals}.

Definition handleProvisionAndDeploy (context : DebugMigrationContext)
  (index : nat) (label : string) : DebugMigrationContext * nat :=
  let tasks1 := splice index 1 [] (tasks context) in
  let existingLabels := getLabels tasks1 in
  let generatedBefore :=
    find (fun value => startsWith value "Create resources")
      (generatedLabels context) in
  let createResourcesLabel :=
    match generatedBefore with
    | Some value => value
    | None => generateLabel "Create resources" existingLabels
    end in
  let setUpLocalProjectsLabel :=
    match find (fun value => startsWith value "Set up local projects")
            (generatedLabels context) with
    | Some value => value
    | None => generateLabel "Set up local projects" existingLabels
    end in
  let '(tasks2, generated2, index2) :=
    match generatedBefore with
    | Some _ => (tasks1, generatedLabels context, index)
    | None =>
        (splice (index + 1) 0 [setUpLocalProjectsTask setUpLocalProjectsLabel]
           (splice index 0 [createResourcesTask createResourcesLabel] tasks1),
         generatedLabels context ++ [createResourcesLabel; setUpLocalProjectsLabel],
         index + 2)
    end in
  (withGeneratedLabels generated2
     (withTasks
        (replaceInDependsOn label tasks2
           [createResourcesLabel; setUpLocalProjectsLabel]) context),
   index2).

Definition isSetUpBotTask (task : Json) : bool :=
  isCommentObject task && propIs task "type" "teamsfx"
  && propIs task "command" TaskCommand_setUpBot.

(** A bot set-up task that [migrateSetUpBot] handles (the type and command
    match, the label is a string), with its [args]. *)
Definition botSetUpTask (task : Json) (args : option Json) : Prop :=
  isSetUpBotTask task = true /\
  is_Some (asString (getProp task "label")) /\
  getProp task "args" = args.

(** The messaging endpoint built from the placeholder of the bot endpoint. *)
Definition botMessagingEndpoint (mapping : PlaceholderMapping) (path : string)
  : string :=
  "${{" +:+ botEndpoint mapping +:+ "}}" +:+ path.

(** The [envs] object that [migrateSetUpBot] fills from the arguments of one
    task and hands to [updateLocalEnv]. *)
Definition setUpBotEnvs (env : gmap string string) (projectId : string)
  (args : option Json) : list (string * string) :=
  match args with
  | Some (JObj fields) =>
      let envs1 :=
        match assocGet "botId" fields with
        | Some (JStr botId) =>
            if truthy (Some (JStr botId)) then envSet "BOT_ID" botId [] else []
        | _ => []
        end in
      match assocGet "botPassword" fields with
      | Some (JStr password) =>
          if truthy (Some (JStr password)) then
            let botPassword :=
              match envReference password with
              | Some name => env !! name
              | None => Some password
              end in
            match botPassword with
            | Some secret =>
                if negb (String.eqb secret "") then
                  match LocalCrypto_encrypt projectId secret with
                  | Ok value => envSet "SECRET_BOT_PASSWORD" value envs1
                  | Err _ => envs1
                  end
                else envs1
            | None => envs1
            end
          else envs1
      | _ => envs1
      end
  | _ => []
  end.

(** What one matching task does to [appYmlConfig]. *)
Definition setUpBotConfig (mapping : PlaceholderMapping) (args : option Json)
  (config : Json) : Json :=
  let config1 := ensureObject "provision" config in
  let config2 :=
    setPath ["provision"; "bot"]
      (JObj [("messagingEndpoint",
              JStr (botMessagingEndpoint mapping "/api/messages"))]) config1 in
  let config3 := ensureObject "deploy" config2 in
  let config4 := setPath ["deploy"; "bot"] (JBool true) config3 in
  match args with
  | Some (JObj fields) =>
      match assocGet "botMessagingEndpoint" fields with
      | Some (JStr endpoint) =>
          if truthy (Some (JStr endpoint)) then
            if startsWith endpoint "http" then
              setPath ["provision"; "bot"; "messagingEndpoint"] (JStr endpoint)
                config4
            else if startsWith endpoint "/" then
              setPath ["provision"; "bot"; "messagingEndpoint"]
                (JStr (botMessagingEndpoint mapping endpoint)) config4
            else config4
          else config4
      | _ => config4
      end
  | _ => config4
  end.

(** [updateLocalEnv(context.migrationContext, envs)] *)
Definition updateLocalEnv (envs : list (string * string))
  (context : DebugMigrationContext) : DebugMigrationContext :=
  withWorld (emit (UpdateLocalEnv envs) (migrationContext context)) context.

(** The [while] loop of [migrateSetUpBot].  Every round brings [index] one
    task closer to the end of the array, so the initial length of the array is
    enough fuel. *)
Fixpoint migrateSetUpBot_loop (fuel index : nat) (context : DebugMigrationContext)
  : DebugMigrationContext :=
  match fuel with
  | O => context
  | S fuel' =>
      match tasks context !! index with
      | None => context
      | Some task =>
          if negb (isSetUpBotTask task) then
            migrateSetUpBot_loop fuel' (S index) context
          else
            match asString (getProp task "label") with
            | None => migrateSetUpBot_loop fuel' (S index) context
            | Some label =>
                let args := getProp task "args" in
                let context1 :=
                  withAppYmlConfig
                    (setUpBotConfig (placeholderMapping context) args
                       (appYmlConfig context)) context in
                let envs :=
                  setUpBotEnvs (processEnv (project (migrationContext context)))
                    (projectId (oldProjectSettings context)) args in
                let context2 := updateLocalEnv envs context1 in
                let '(context3, index') :=
                  handleProvisionAndDeploy context2 index label in
                migrateSetUpBot_loop fuel' index' context3
            end
      end
  end.

Definition migrateSetUpBot (context : DebugMigrationContext)
  : DebugMigrationContext :=
  migrateSetUpBot_loop (length (tasks context)) 0 context.

Definition commandIncludes (task : Json) (marker : string) : bool :=
  match getProp task "command" with
  | Some (JStr command) => includes command marker
  | _ => false
  end.

Definition isPreDebugCheckTask (task : Json) : bool :=
  isCommentObject task && propIs task "type" "shell"
  && commandIncludes task "${command:fx-extension.pre-debug-check}".

Definition isValidateLocalPrerequisitesTask (task : Json) : bool :=
  isCommentObject task && propIs task "type" "shell"
  && commandIncludes task "${command:fx-extension.validate-local-prerequisites}".

(** What [migratePreDebugCheck] does to [appYmlConfig]. *)
Definition preDebugCheckConfig (context : DebugMigrationContext) : Json :=
  let settings := oldProjectSettings context in
  let on (condition : bool) (f : Json -> Json) (o : Json) : Json :=
    if condition then f o else o in
  let config1 := ensureObject "registerApp" (appYmlConfig context) in
  let config2 :=
    on (includeSSO settings) (setPath ["registerApp"; "aad"] (JBool true)) config1 in
  let config3 := setPath ["registerApp"; "teamsApp"] (JBool true) config2 in
  let config4 :=
    on (includeBot settings)
      (fun o =>
         setPath ["provision"; "bot"]
           (JObj [("messagingEndpoint",
                   JStr (botMessagingEndpoint (placeholderMapping context)
                           "/api/messages"))])
           (ensureObject "provision" o)) config3 in
  let config5 := ensureObject "configureApp" config4 in
  let config6 :=
    on (includeTab settings)
      (setPath ["configureApp"; "tab"]
         (JObj [("domain", JStr "localhost:53000");
                ("endpoint", JStr "https://localhost:53000")])) config5 in
  let config7 :=
    on (includeSSO settings) (setPath ["configureApp"; "aad"] (JBool true)) config6 in
  let config8 :=
    match getProp config7 "configureApp" with
    | Some configureApp =>
        setProp config7 "configureApp" (ensureObject "teamsApp" configureApp)
    | None => config7
    end in
  match find isValidateLocalPrerequisitesTask (tasks context) with
  | Some _ =>
      let config9 := ensureObject "deploy" config8 in
      let config10 :=
        on (includeTab settings)
          (setPath ["deploy"; "tab"] (JObj [("port", JNum 53000)])) config9 in
      let config11 :=
        on (includeBot settings) (setPath ["deploy"; "bot"] (JBool true)) config10 in
      on (includeSSO settings) (setPath ["deploy"; "sso"] (JBool true)) config11
  | None => config8
  end.

(** [migratePreDebugCheck]: the loop skips the tasks that do not match and
    stops after the first one that does. *)
Definition migratePreDebugCheck (context : DebugMigrationContext)
  : DebugMigrationContext :=
  match findIndex isPreDebugCheckTask (tasks context) with
  | None => context
  | Some index =>
      match tasks context !! index with
      | None => context
      | Some task =>
          let config := preDebugCheckConfig context in
          let existingLabels := getLabels (tasks context) in
          let createResourcesLabel :=
            generateLabel "Create resources" existingLabels in
          let setUpLocalProjectsLabel :=
            generateLabel "Set up local projects" existingLabels in
          let task1 :=
            setProp task "dependsOn"
              (JArr [JStr createResourcesLabel; JStr setUpLocalProjectsLabel]) in
          let task2 := setProp task1 "dependsOrder" (JStr "sequence") in
          let task3 :=
            deleteProp (deleteProp (deleteProp task2 "type") "command")
              "presentation" in
          let tasks1 :=
            splice (index + 1) 0 [createResourcesTask createResourcesLabel]
              (<[index := task3]> (tasks context)) in
          let tasks2 :=
            splice (index + 2) 0 [setUpLocalProjectsTask setUpLocalProjectsLabel]
              tasks1 in
          withTasks tasks2 (withAppYmlConfig config context)
      end
  end.

End Migrations.

End TaskMigrations.

(** * 8. [generator.ts]: the host of an imported add-in manifest *)

Module OfficeAddinGenerator.

(** [base.k] for a named property [k]: an error on [null] and [undefined],
    [undefined] on values without such a property. *)
Definition member (base : option Json) (k : string) : Outcome (option Json) :=
  match base with
  | None => Throw (typeError Undefined k)
  | Some JNull => Throw (typeError Null k)
  | Some (JObj fields) => Return (assocGet k fields)
  | Some _ => Return None
  end.

(** [base[0]] on a value that is neither [null] nor [undefined]. *)
Definition first (base : option Json) : option Json :=
  match base with
  | Some (JArr (x :: _)) => Some x
  | Some (JStr (String c _)) => Some (JStr (String c EmptyString))
  | Some (JObj fields) => assocGet "0" fields
  | _ => None
  end.

Definition nullish (v : option Json) : bool :=
  match v with
  | None | Some JNull => true
  | _ => false
  end.

(** [addinManifest.extensions?.[0].requirements?.scopes?.[0]]: each [?.] ends
    the whole chain with [undefined] when its base is [null] or [undefined];
    the plain [.requirements] does not. *)
Definition firstScope (addinManifest : Json) : Outcome (option Json) :=
  match member (Some addinManifest) "extensions" with
  | Throw e => Throw e
  | Return extensions =>
      if nullish extensions then Return None
      else
        match member (first extensions) "requirements" with
        | Throw e => Throw e
        | Return requirements =>
            if nullish requirements then Return None
            else
              match member requirements "scopes" with
              | Throw e => Throw e
              | Return scopes =>
                  if nullish scopes then Return None else Return (first scopes)
              end
        end
  end.

(** The [switch]: its only case assigns the value [host] already has. *)
Definition hostOfScope (scope : option Json) : string :=
  let host := "Outlook" in
  match scope with
  | Some (JStr s) => if String.eqb s "mail" then "Outlook" else host
  | _ => host
  end.

Section GetHost.
(** [ManifestUtil.loadFromPath] *)
Variable loadFromPath : string -> Outcome Json.

Definition getHost (addinManifestPath : string) : Outcome string :=
  match loadFromPath addinManifestPath with
  | Throw e => Throw e
  | Return addinManifest =>
      match firstScope addinManifest with
      | Throw e => Throw e
      | Return scope => Return (hostOfScope scope)
      end
  end.

End GetHost.

End OfficeAddinGenerator.

(** * 9. The token table of the launch configuration, as the spec words it *)

Module LaunchJsonSpec.

(** The fixed table of section 6: each token and what it becomes. *)
Definition tokenTable : list (string * string) :=
  [ ("${teamsAppId}", "${dev:teamsAppId}");
    ("${localTeamsAppId}", "${local:teamsAppId}");
    ("${localTeamsAppInternalId}", "${local:teamsAppInternalId}") ].

(** The first entry of the table whose token starts the text, with the text
    behind the token. *)
Fixpoint tokenAt (table : list (string * string)) (s : string)
  : option (string * string) :=
  match table with
  | [] => None
  | (token, replacement) :: table' =>
      match token, stripPrefix token s with
      | String _ _, Some rest => Some (replacement, rest)
      | _, _ => tokenAt table' s
      end
  end.

(** One scan of the text: an occurrence of a token is replaced by its
    counterpart, any other character is copied. *)
Fixpoint substituteTokens_fuel (fuel : nat) (table : list (string * string))
  (s : string) : string :=
  match fuel with
  | O => s
  | S fuel' =>
      match s with
      | EmptyString => EmptyString
      | String c s' =>
          match tokenAt table s with
          | Some (replacement, rest) =>
              replacement +:+ substituteTokens_fuel fuel' table rest
          | None => String c (substituteTokens_fuel fuel' table s')
          end
      end
  end.

Definition substituteTokens (table : list (string * string)) (s : string)
  : string :=
  substituteTokens_fuel (String.length s) table s.

End LaunchJsonSpec.

(** * 10. A sample project *)

Module Sample.

(** Collaborators for evaluating the embedding on concrete projects: the
    identity where a text is rewritten, a state reader that parses nothing but
    tells a present file from an absent one, an encryption that always
    succeeds. *)
Definition externals : Externals := {|
  SettingsFolderName := "teamsfx";
  SettingsFileName := "settings.json";
  V2TeamsfxFolder := ".fx";
  Component_core := "core";
  ErrorConstants_unhandledError := "UnhandledError";
  ReadFileError := fun e =>
    ThrownFx (SystemError (mkFxErrorInfo (Some e) "core" "ReadFileError"
                             (errMessage e) (errMessage e)));
  loadProjectSettingsByProjectPathV2 := fun _ _ =>
    Ok (mkProjectSettings "00000000-0000" (JObj []));
  JSON_stringify := fun _ => "{}";
  AppYmlGenerator_generateAppYml := fun _ _ => Return "version: 1.0.0";
  replacePlaceholdersForV3 := fun content _ => content;
  readStateFile := fun p rel =>
    match files p !! (projectPath p ++ rel) with
    | Some (File _) => Return (Some (JObj []))
    | _ => Return None
    end;
  readBicepContent := fun _ => Return "";
  jsonObjectNamesConvertV3 := fun _ _ _ _ => "";
  cleanModifiedPaths_effect := fun p => p;
  restoreBackup_effect := fun p => p;
  cleanTeamsfx_effect := fun p => p;
  TaskCommand_setUpBot := "debug-set-up-bot";
  createResourcesTask := fun label =>
    JObj [("label", JStr label); ("type", JStr "teamsfx");
          ("command", JStr "provision")];
  setUpLocalProjectsTask := fun label =>
    JObj [("label", JStr label); ("type", JStr "teamsfx");
          ("command", JStr "deploy")];
  includeTab := fun _ => true;
  includeBot := fun _ => true;
  includeSSO := fun _ => false;
  LocalCrypto_encrypt := fun _ secret => Ok ("crypto_" +:+ secret)
|}.

(** A world with the given entries below the project root [/work/app]. *)
Definition root : Path := ["work"; "app"].

Definition world (entries : list (Path * Entry)) : World :=
  mkWorld
    (mkProject (list_to_map ((fun '(rel, e) => (root ++ rel, e)) <$> entries))
       ∅ root ∅ ∅ [] ∅)
    [].

(** A plain [Error]. *)
Definition boom : ErrorObj := mkError "Error" "boom".

(** A legacy states folder that holds nothing but the backup copy of a state
    file. *)
Definition strayStates : World :=
  world [ ([".fx"], Dir);
          ([".fx"; "states"], Dir);
          ([".fx"; "states"; "state.dev.json.bak"], File "{}") ].

(** A project with the application manifest and the infrastructure template,
    and without the manifest of the identity application. *)
Definition withoutAadManifest : World :=
  world [ (["templates"], Dir);
          (["templates"; "appPackage"], Dir);
          (["templates"; "appPackage"; "manifest.template.json"],
           File "{ manifest }");
          (["templates"; "azure"], Dir);
          (["templates"; "azure"; "provision.bicep"], File "bicep") ].

(** A project with a launch configuration. *)
Definition withLaunchJson : World :=
  world [ ([".vscode"], Dir);
          ([".vscode"; "launch.json"],
           File "url: ${teamsAppId} / ${localTeamsAppId} / ${other}") ].

(** A bot set-up task with the given password argument. *)
Definition botTask (botPassword : string) : Json :=
  JObj [ ("label", JStr "Set up bot");
         ("type", JStr "teamsfx");
         ("command", JStr "debug-set-up-bot");
         ("args", JObj [ ("botId", JStr "bot-id");
                         ("botPassword", JStr botPassword) ]) ].

(** A task of the older generation that runs the pre-debug check. *)
Definition preDebugCheckTask : Json :=
  JObj [ ("label", JStr "Pre debug check");
         ("type", JStr "shell");
         ("command", JStr "echo ${command:fx-extension.pre-debug-check}") ].

Definition debugContext (tasks : list Json) : TaskMigrations.DebugMigrationContext :=
  TaskMigrations.mkDebugContext (world []) tasks (JObj [])
    (mkProjectSettings "00000000-0000" (JObj []))
    (TaskMigrations.mkPlaceholderMapping
       "PROVISIONOUTPUT__TAB__DOMAIN" "PROVISIONOUTPUT__TAB__ENDPOINT"
       "PROVISIONOUTPUT__BOT__DOMAIN" "PROVISIONOUTPUT__BOT__ENDPOINT")
    [].

(** A manifest whose first extension asks for the workbook scope. *)
Definition workbookManifest : Json :=
  JObj [ ("extensions",
          JArr [ JObj [ ("requirements",
                         JObj [ ("scopes", JArr [JStr "workbook"]) ]) ] ]) ].

(** A task that depends on another one, in the two forms of [dependsOn]. *)
Definition dependentTask (dependsOn : Json) : Json :=
  JObj [ ("label", JStr "B"); ("dependsOn", dependsOn) ].

End Sample.

(** * 10.1 Predicates used in the statements *)

Module Predicates.

(** A text made of word characters only (the empty text included). *)
Fixpoint isWord (s : string) : bool :=
  match s with
  | EmptyString => true
  | String c s' => isWordChar c && isWord s'
  end.

(** [o.k1.k2 ... kn], [None] when a property on the way is missing. *)
Fixpoint getPath (path : list string) (o : Json) : option Json :=
  match path with
  | [] => Some o
  | k :: rest =>
      match getProp o k with
      | Some inner => getPath rest inner
      | None => None
      end
  end.

(** The legacy tokens of the launch configuration. *)
Definition legacyTokens : list string := LaunchJsonSpec.tokenTable.*1.

(** A property of the accumulated configuration that is either missing or an
    object, as the type [AppYmlConfig] has it. *)
Definition absentOrObject (o : Json) (k : string) : Prop :=
  getProp o k = None \/ exists fields, getProp o k = Some (JObj fields).

(** Every entry of [w] is still there in [w'], with whatever content. *)
Definition keepsEntries (w w' : World) : Prop :=
  projectPath (project w') = projectPath (project w) /\
  forall rel, is_Some (entryAt w rel) -> is_Some (entryAt w' rel).

(** The world a computation leaves is related to the one it started in,
    whether it returns or throws. *)
Definition always {A} (R : World -> World -> Prop) (m : Async A) : Prop :=
  forall w, R w (m w).2.

End Predicates.

(** * 10.2 More of the debug-task migrations *)

(** Further constants and functions that these migrations import from
    [common/local] and [debugV3MigrationUtils]. *)
Class TaskExternals : Type := {
  TaskCommand_setUpSSO : string;
  FolderName_Function : string;
  watchBackendTask : string -> Json
}.

Module MoreTaskMigrations.
Import TaskMigrations.

(** The test of the loops that look for a task depending on a legacy task:
    [dependsOn] is the label as a string, or an array that includes it. *)
Definition dependsOnLabel (task : Json) (label : string) : bool :=
  isCommentObject task &&
  match getProp task "dependsOn" with
  | Some (JStr dependsOn) => String.eqb dependsOn label
  | Some (JArr dependsOn) => existsb (isStr label) dependsOn
  | _ => false
  end.

Section Migrations.
Context `{Externals} `{TaskExternals}.

Definition isSetUpSSOTask (task : Json) : bool :=
  isCommentObject task && propIs task "type" "teamsfx"
  && propIs task "command" TaskCommand_setUpSSO.

(** The [envs] object that [migrateSetUpSSO] fills from the arguments of one
    task. *)
Definition setUpSSOEnvs (env : gmap string string) (projectId : string)
  (args : option Json) : list (string * string) :=
  match args with
  | Some (JObj fields) =>
      let envs1 :=
        match assocGet "objectId" fields with
        | Some (JStr objectId) =>
            if truthy (Some (JStr objectId))
            then envSet "AAD_APP_OBJECT_ID" objectId [] else []
        | _ => []
        end in
      let envs2 :=
        match assocGet "clientId" fields with
        | Some (JStr clientId) =>
            if truthy (Some (JStr clientId))
            then envSet "AAD_APP_CLIENT_ID" clientId envs1 else envs1
        | _ => envs1
        end in
      let envs3 :=
        match assocGet "clientSecret" fields with
        | Some (JStr secretArg) =>
            if truthy (Some (JStr secretArg)) then
              let clientSecret :=
                match envReference secretArg with
                | Some name => env !! name
                | None => Some secretArg
                end in
              match clientSecret with
              | Some secret =>
                  if negb (String.eqb secret "") then
                    match LocalCrypto_encrypt projectId secret with
                    | Ok value => envSet "SECRET_AAD_APP_CLIENT_SECRET" value envs2
                    | Err _ => envs2
                    end
                  else envs2
              | None => envs2
              end
            else envs2
        | _ => envs2
        end in
      match assocGet "accessAsUserScopeId" fields with
      | Some (JStr scopeId) =>
          if truthy (Some (JStr scopeId))
          then envSet "AAD_APP_ACCESS_AS_USER_PERMISSION_ID" scopeId envs3
          else envs3
      | _ => envs3
      end
  | _ => []
  end.

(** What one matching task does to [appYmlConfig]. *)
Definition setUpSSOConfig (config : Json) : Json :=
  let config1 := ensureObject "registerApp" config in
  let config2 := setPath ["registerApp"; "aad"] (JBool true) config1 in
  let config3 := ensureObject "configureApp" config2 in
  let config4 := setPath ["configureApp"; "aad"] (JBool true) config3 in
  let config5 := ensureObject "deploy" config4 in
  setPath ["deploy"; "sso"] (JBool true) config5.

(** The [while] loop of [migrateSetUpSSO]; as in [migrateSetUpBot], the
    initial length of the array is enough fuel. *)
Fixpoint migrateSetUpSSO_loop (fuel index : nat) (context : DebugMigrationContext)
  : DebugMigrationContext :=
  match fuel with
  | O => context
  | S fuel' =>
      match tasks context !! index with
      | None => context
      | Some task =>
          if negb (isSetUpSSOTask task) then
            migrateSetUpSSO_loop fuel' (S index) context
          else
            match asString (getProp task "label") with
            | None => migrateSetUpSSO_loop fuel' (S index) context
            | Some label =>
                let args := getProp task "args" in
                let context1 :=
                  withAppYmlConfig (setUpSSOConfig (appYmlConfig context)) context in
                let envs :=
                  setUpSSOEnvs (processEnv (project (migrationContext context)))
                    (projectId (oldProjectSettings context)) args in
                let context2 := updateLocalEnv envs context1 in
                let '(context3, index') :=
                  handleProvisionAndDeploy context2 index label in
                migrateSetUpSSO_loop fuel' index' context3
            end
      end
  end.

Definition migrateSetUpSSO (context : DebugMigrationContext)
  : DebugMigrationContext :=
  migrateSetUpSSO_loop (length (tasks context)) 0 context.

(** The loop that [migrateSetUpBot] and [migrateSetUpSSO] have in common, with
    what differs between the two as parameters: the test for the task, the
    environment entries and the change of the configuration. *)
Fixpoint localEnvLoop (isTask : Json -> bool)
  (envsOf : gmap string string -> string -> option Json -> list (string * string))
  (configOf : PlaceholderMapping -> option Json -> Json -> Json)
  (fuel index : nat) (context : DebugMigrationContext) : DebugMigrationContext :=
  match fuel with
  | O => context
  | S fuel' =>
      match tasks context !! index with
      | None => context
      | Some task =>
          if negb (isTask task) then
            localEnvLoop isTask envsOf configOf fuel' (S index) context
          else
            match asString (getProp task "label") with
            | None => localEnvLoop isTask envsOf configOf fuel' (S index) context
            | Some label =>
                let args := getProp task "args" in
                let context1 :=
                  withAppYmlConfig
                    (configOf (placeholderMapping context) args
                       (appYmlConfig context)) context in
                let envs :=
                  envsOf (processEnv (project (migrationContext context)))
                    (projectId (oldProjectSettings context)) args in
                let context2 := updateLocalEnv envs context1 in
                let '(context3, index') :=
                  handleProvisionAndDeploy context2 index label in
                localEnvLoop isTask envsOf configOf fuel' index' context3
            end
      end
  end.

(** A task that the loop handles: the test holds and the label is a
    string. *)
Definition handled (isTask : Json -> bool) (task : Json) : Prop :=
  isTask task = true /\ is_Some (asString (getProp task "label")).

(** The three switches that [migrateSetUpSSO] turns on. *)
Definition hasSSOSwitches (config : Json) : Prop :=
  Predicates.getPath ["registerApp"; "aad"] config = Some (JBool true) /\
  Predicates.getPath ["configureApp"; "aad"] config = Some (JBool true) /\
  Predicates.getPath ["deploy"; "sso"] config = Some (JBool true).

Definition isBackendExtensionsInstallTask (task : Json) : bool :=
  isCommentObject task && propIs task "type" "shell"
  && commandIncludes task "${command:fx-extension.backend-extensions-install}".

(** [context.appYmlConfig.deploy.dotnetCommand] as
    [migrateBackendExtensionsInstall] sets it. *)
Definition dotnetCommand : Json :=
  JObj [ ("args", JStr "build extensions.csproj -o ./bin --ignore-failed-sources");
         ("workingDirectory", JStr ("./" +:+ FolderName_Function));
         ("execPath", JStr "${{DOTNET_PATH}}") ].

(** The [while] loop of [migrateBackendExtensionsInstall]: a round either
    moves [index] on or removes a task, so the initial length of the array is
    enough fuel. *)
Fixpoint migrateBackendExtensionsInstall_loop (fuel index : nat)
  (context : DebugMigrationContext) : DebugMigrationContext :=
  match fuel with
  | O => context
  | S fuel' =>
      match tasks context !! index with
      | None => context
      | Some task =>
          if negb (isBackendExtensionsInstallTask task) then
            migrateBackendExtensionsInstall_loop fuel' (S index) context
          else
            let config :=
              setPath ["deploy"; "dotnetCommand"] dotnetCommand
                (ensureObject "deploy" (appYmlConfig context)) in
            let tasks1 :=
              match asString (getProp task "label") with
              | Some label => replaceInDependsOn label (tasks context) []
              | None => tasks context
              end in
            migrateBackendExtensionsInstall_loop fuel' index
              (withTasks (splice index 1 [] tasks1)
                 (withAppYmlConfig config context))
      end
  end.

Definition migrateBackendExtensionsInstall (context : DebugMigrationContext)
  : DebugMigrationContext :=
  migrateBackendExtensionsInstall_loop (length (tasks context)) 0 context.

(** What the removal of one task does to the tasks that stay: they are
    relabelled for its label when that is a string. *)
Definition relabelRemoved (task : Json) : Json -> Json :=
  match asString (getProp task "label") with
  | Some label => replaceInTask label []
  | None => fun other => other
  end.

(** The configuration with the build command of the function extensions. *)
Definition hasDotnetCommand (config : Json) : Prop :=
  Predicates.getPath ["deploy"; "dotnetCommand"] config = Some dotnetCommand.

(** [migrateBackendWatch]: the loop skips the tasks that do not depend on the
    legacy task and stops after the first one that does. *)
Definition migrateBackendWatch (context : DebugMigrationContext)
  : DebugMigrationContext :=
  match findIndex (fun task => dependsOnLabel task "teamsfx: backend watch")
          (tasks context) with
  | None => context
  | Some index =>
      let newLabel := generateLabel "Watch backend" (getLabels (tasks context)) in
      let newTask := watchBackendTask newLabel in
      let tasks1 := splice (index + 1) 0 [newTask] (tasks context) in
      withTasks (replaceInDependsOn "teamsfx: backend watch" tasks1 [newLabel])
        context
  end.

End Migrations.

End MoreTaskMigrations.
(** * 10.3 The middleware in front of the pipeline *)

(** [ProjectMigratorStatus] *)
Inductive ProjectMigratorStatus : Type := StatusOK | StatusCancel.

(** What the middleware imports from modules that are not part of the sources
    and what its caller brings: the label of the upgrade button, the error of
    a cancelled upgrade, the two checks of [projectMigrator] on the hook
    context, the answer of [TOOLS.ui.showMessage] ([None] when [TOOLS] is
    undefined, a thrown value when the promise is rejected) and
    [MigrationContext.create]. *)
Class HookExternals : Type := {
  upgradeButton : string;
  UpgradeCanceledError : FxError;
  checkMethod : bool;
  checkUserTasks : bool;
  showMessage : option (Outcome (Result (option string)));
  MigrationContext_create : World -> Outcome World
}.

Module ProjectMigratorMW.
Import ProjectMigratorV3.

(** Calls of the middleware that are observed as calls: the two telemetry
    events of the notification, the message box, the cancel message, the
    creation of the migration context and the next middleware. *)
Inductive HookCall : Type :=
| NotificationStart
| ShowMessage
| Notification (status : ProjectMigratorStatus)
| OutputCancelMessage
| CreateMigrationContext
| Next.

(** The hook context as far as the middleware uses it ([ctx.result]), with the
    calls made so far and the world that the migration context is created
    from. *)
Record HookState : Type := mkHookState {
  hookResult : option (Result unit);
  hookCalls : list HookCall;
  hookWorld : World
}.

Definition call (c : HookCall) (s : HookState) : HookState :=
  mkHookState (hookResult s) (hookCalls s ++ [c]) (hookWorld s).

Definition setResult (r : Result unit) (s : HookState) : HookState :=
  mkHookState (Some r) (hookCalls s) (hookWorld s).

Definition setWorld (w : World) (s : HookState) : HookState :=
  mkHookState (hookResult s) (hookCalls s) w.

Definition getProjectVersion : string := "2.1.0".

Definition checkVersionForMigration : bool :=
  String.eqb getProjectVersion MigrationVersion.

Section Middleware.
Context `{Externals} `{HookExternals}.

Definition askUserConfirm (s : HookState) : Outcome bool * HookState :=
  let s1 := call NotificationStart s in
  match showMessage with
  | Some (Throw e) => (Throw e, call ShowMessage s1)
  | res =>
      let s2 := match res with Some _ => call ShowMessage s1 | None => s1 end in
      let answer :=
        match res with
        | Some (Return (Ok value)) => value
        | _ => None
        end in
      match answer with
      | Some text =>
          (* [!answer] on a string is its being empty *)
          if String.eqb text "" || negb (String.eqb text upgradeButton)
          then
            (Return false,
             call OutputCancelMessage
               (setResult (Err UpgradeCanceledError)
                  (call (Notification StatusCancel) s2)))
          else (Return true, call (Notification StatusOK) s2)
      | None =>
          (Return false,
           call OutputCancelMessage
             (setResult (Err UpgradeCanceledError)
                (call (Notification StatusCancel) s2)))
      end
  end.

Definition ProjectMigratorMWV3 (s : HookState) : Outcome unit * HookState :=
  if checkVersionForMigration && checkMethod then
    if negb checkUserTasks then (Return tt, setResult (Ok tt) s)
    else
      match askUserConfirm s with
      | (Throw e, s1) => (Throw e, s1)
      | (Return false, s1) => (Return tt, s1)
      | (Return true, s1) =>
          let s2 := call CreateMigrationContext s1 in
          match MigrationContext_create (hookWorld s2) with
          | Throw e => (Throw e, s2)
          | Return migrationContext =>
              match wrapRunMigration migrate migrationContext with
              | (Throw e, w) => (Throw e, setWorld w s2)
              | (Return _, w) => (Return tt, setResult (Ok tt) (setWorld w s2))
              end
          end
      end
  else (Return tt, call Next s).

End Middleware.

End ProjectMigratorMW.

(** * 10.4 More sample projects *)

Module MoreSamples.

(** A project with the state file of the environment [dev]. *)
Definition withStates : World :=
  Sample.world [ ([".fx"], Dir);
                 ([".fx"; "states"], Dir);
                 ([".fx"; "states"; "state.dev.json"], File "{}") ].

(** A project with the two manifests and the infrastructure template. *)
Definition withAadManifest : World :=
  Sample.world [ (["templates"], Dir);
                 (["templates"; "appPackage"], Dir);
                 (["templates"; "appPackage"; "manifest.template.json"],
                  File "{ manifest }");
                 (["templates"; "appPackage"; "aad.template.json"],
                  File "{ aad }");
                 (["templates"; "azure"], Dir);
                 (["templates"; "azure"; "provision.bicep"], File "bicep") ].

(** Values for the further constants of the task migrations. *)
Definition taskExternals : TaskExternals := {|
  TaskCommand_setUpSSO := "debug-set-up-sso";
  FolderName_Function := "api";
  watchBackendTask := fun label =>
    JObj [("label", JStr label); ("type", JStr "shell");
          ("command", JStr "tsc --watch")]
|}.

(** A user who presses the upgrade button, on a project whose method and
    tasks call for the upgrade. *)
Definition confirming : HookExternals := {|
  upgradeButton := "Upgrade";
  UpgradeCanceledError :=
    UserError (mkFxErrorInfo None "core" "UserCancel" "cancelled" "cancelled");
  checkMethod := true;
  checkUserTasks := true;
  showMessage := Some (Return (Ok (Some "Upgrade")));
  MigrationContext_create := fun w => Return w
|}.

(** The debug context of the sample project, with the variable [FOO] set in
    the environment of the process. *)
Definition debugContextWithFoo (value : string) (tasks : list Json)
  : TaskMigrations.DebugMigrationContext :=
  TaskMigrations.withWorld
    (mkWorld (mkProject ∅ ∅ Sample.root ∅ ∅ [] {[ "FOO" := value ]}) [])
    (Sample.debugContext tasks).


End MoreSamples.

(** * 11. Facts about strings *)

Section StringFacts.

Lemma string_app_cons (a : ascii) (s t : string) :
  String a s +:+ t = String a (s +:+ t).
Proof. reflexivity. Qed.

Lemma string_app_nil_l (t : string) : "" +:+ t = t.
Proof. reflexivity. Qed.

Lemma stripPrefix_cons (a b : ascii) (t s : string) :
  stripPrefix (String a t) (String b s) =
  if Ascii.eqb a b then stripPrefix t s else None.
Proof. reflexivity. Qed.

Lemma stripPrefix_app (t x : string) : stripPrefix t (t +:+ x) = Some x.
Proof.
  induction t as [|a t IH]; [reflexivity|].
  rewrite string_app_cons. simpl. by rewrite Ascii.eqb_refl.
Qed.

Lemma stripPrefix_Some (t s rest : string) :
  stripPrefix t s = Some rest -> s = t +:+ rest.
Proof.
  revert s. induction t as [|a t IH]; intros s Hs; simpl in *.
  - by injection Hs as ->.
  - destruct s as [|b s]; [discriminate|].
    destruct (Ascii.eqb a b) eqn:Hab; [|discriminate].
    apply Ascii.eqb_eq in Hab as ->. rewrite string_app_cons. f_equal.
    by apply IH.
Qed.

Lemma string_length_app (s t : string) :
  String.length (s +:+ t) = String.length s + String.length t.
Proof.
  induction s as [|a s IH]; [reflexivity|].
  rewrite string_app_cons. simpl. by rewrite IH.
Qed.

Lemma stripPrefix_length (t s rest : string) :
  stripPrefix t s = Some rest ->
  String.length s = String.length t + String.length rest.
Proof. intros Hs. apply stripPrefix_Some in Hs as ->. apply string_length_app. Qed.

Lemma string_app_assoc (a b c : string) : (a +:+ b) +:+ c = a +:+ (b +:+ c).
Proof.
  induction a as [|x a IH]; [reflexivity|].
  rewrite !string_app_cons. by rewrite IH.
Qed.

Lemma replaceAll_fuel_step (n : nat) (p0 : ascii) (pat rep : string)
  (c : ascii) (s : string) :
  replaceAll_fuel (S n) (String p0 pat) rep (String c s) =
  match stripPrefix (String p0 pat) (String c s) with
  | Some rest => rep +:+ replaceAll_fuel n (String p0 pat) rep rest
  | None => String c (replaceAll_fuel n (String p0 pat) rep s)
  end.
Proof. reflexivity. Qed.

(** Any fuel from the length of the text on gives the same result. *)
Lemma replaceAll_fuel_enough (pat rep : string) (fuel : nat) :
  forall s, String.length s <= fuel ->
    replaceAll_fuel fuel pat rep s = replaceAll pat rep s.
Proof.
  unfold replaceAll.
  assert (Hboth : forall n m s, String.length s <= n -> String.length s <= m ->
            replaceAll_fuel n pat rep s = replaceAll_fuel m pat rep s).
  { induction n as [|n IH]; intros m s Hn Hm.
    - destruct s; simpl in *; [by destruct m|lia].
    - destruct m as [|m]; [destruct s; simpl in *; [done|lia]|].
      destruct s as [|c s]; [done|].
      change (String.length (String c s)) with (S (String.length s)) in *.
      destruct pat as [|p0 pat'].
      + cbn [replaceAll_fuel]. f_equal. apply IH; lia.
      + rewrite !replaceAll_fuel_step.
        destruct (stripPrefix (String p0 pat') (String c s)) as [rest|] eqn:Hstrip.
        * f_equal. apply stripPrefix_length in Hstrip.
          change (String.length (String c s)) with (S (String.length s)) in *.
          change (String.length (String p0 pat')) with (S (String.length pat')) in *.
          apply IH; lia.
        * f_equal. apply IH; lia. }
  intros s Hs. by apply Hboth.
Qed.

(** A character that does not start a match is copied. *)
Lemma replaceAll_copy (pat rep : string) (c : ascii) (s : string) :
  stripPrefix pat (String c s) = None ->
  replaceAll pat rep (String c s) = String c (replaceAll pat rep s).
Proof.
  intros Hnone. unfold replaceAll at 1.
  change (String.length (String c s)) with (S (String.length s)).
  destruct pat as [|p0 pat'].
  - reflexivity.
  - by rewrite replaceAll_fuel_step, Hnone.
Qed.

Lemma replaceAll_empty_pattern (rep : string) (c : ascii) (s : string) :
  replaceAll "" rep (String c s) = String c (replaceAll "" rep s).
Proof. reflexivity. Qed.

(** A match is replaced and the scan resumes behind it. *)
Lemma replaceAll_match (p0 : ascii) (pat rep rest : string) :
  replaceAll (String p0 pat) rep (String p0 pat +:+ rest) =
  rep +:+ replaceAll (String p0 pat) rep rest.
Proof.
  unfold replaceAll at 1. rewrite string_length_app.
  pose proof (stripPrefix_app (String p0 pat) rest) as Happ.
  rewrite string_app_cons in *.
  change (String.length (String p0 pat)) with (S (String.length pat)).
  cbn [Nat.add]. rewrite replaceAll_fuel_step, Happ. f_equal.
  apply replaceAll_fuel_enough. lia.
Qed.

End StringFacts.

(** * 12. The launch configuration: three replacements are one scan *)

Section LaunchJsonFacts.
Import LaunchJsonSpec ProjectMigratorV3.

Lemma tokenAt_shorter (table : list (string * string)) (s replacement rest : string) :
  tokenAt table s = Some (replacement, rest) ->
  String.length rest < String.length s.
Proof.
  induction table as [|[token r] table IH]; [discriminate|].
  cbn [tokenAt]. destruct token as [|t0 token]; [exact IH|].
  destruct (stripPrefix (String t0 token) s) as [rest'|] eqn:Hstrip; [|exact IH].
  intros [= <- <-]. apply stripPrefix_length in Hstrip.
  change (String.length (String t0 token)) with (S (String.length token)) in *.
  lia.
Qed.

Lemma substituteTokens_fuel_enough (table : list (string * string)) (fuel : nat) :
  forall s, String.length s <= fuel ->
    substituteTokens_fuel fuel table s = substituteTokens table s.
Proof.
  unfold substituteTokens.
  assert (Hboth : forall n m s, String.length s <= n -> String.length s <= m ->
            substituteTokens_fuel n table s = substituteTokens_fuel m table s).
  { induction n as [|n IH]; intros m s Hn Hm.
    - destruct s; simpl in *; [by destruct m|lia].
    - destruct m as [|m]; [destruct s; simpl in *; [done|lia]|].
      destruct s as [|c s]; [done|]. cbn [substituteTokens_fuel].
      change (String.length (String c s)) with (S (String.length s)) in *.
      destruct (tokenAt table (String c s)) as [[r rest]|] eqn:Htok.
      + f_equal. apply tokenAt_shorter in Htok.
        change (String.length (String c s)) with (S (String.length s)) in *.
        apply IH; lia.
      + f_equal. apply IH; lia. }
  intros s Hs. by apply Hboth.
Qed.

Lemma substituteTokens_copy (table : list (string * string)) (c : ascii) (s : string) :
  tokenAt table (String c s) = None ->
  substituteTokens table (String c s) = String c (substituteTokens table s).
Proof.
  intros Hnone. unfold substituteTokens at 1.
  change (String.length (String c s)) with (S (String.length s)).
  cbn [substituteTokens_fuel]. by rewrite Hnone.
Qed.

Lemma substituteTokens_token (table : list (string * string))
  (s replacement rest : string) :
  tokenAt table s = Some (replacement, rest) ->
  substituteTokens table s = replacement +:+ substituteTokens table rest.
Proof.
  intros Htok. pose proof (tokenAt_shorter _ _ _ _ Htok) as Hlen.
  destruct s as [|c s]; [simpl in Hlen; lia|].
  unfold substituteTokens at 1.
  change (String.length (String c s)) with (S (String.length s)) in *.
  cbn [substituteTokens_fuel]. rewrite Htok. f_equal.
  apply substituteTokens_fuel_enough. lia.
Qed.

(** A replacement that starts with a dollar cannot complete a text without
    dollars: what the replaced text starts with, the original started with. *)
Lemma stripPrefix_replaceAll_None (u pat rep' : string) :
  includes u "$" = false ->
  forall s, stripPrefix u s = None ->
    stripPrefix u (replaceAll pat (String "$" rep') s) = None.
Proof.
  induction u as [|a u IH]; intros Hu s Hs; [discriminate|].
  cbn [includes stripPrefix] in Hu.
  destruct (Ascii.eqb "$" a) eqn:Ha; [discriminate|].
  destruct s as [|c s]; [reflexivity|].
  destruct (stripPrefix pat (String c s)) as [rest|] eqn:Hpat.
  - destruct pat as [|p0 pat].
    + rewrite replaceAll_empty_pattern.
      rewrite stripPrefix_cons in *. destruct (Ascii.eqb a c); [by apply IH|done].
    + apply stripPrefix_Some in Hpat as ->.
      rewrite replaceAll_match, string_app_cons, stripPrefix_cons.
      rewrite Ascii.eqb_sym in Ha. by rewrite Ha.
  - rewrite replaceAll_copy by done.
    rewrite stripPrefix_cons in *. destruct (Ascii.eqb a c); [by apply IH|done].
Qed.

Local Abbreviation A1 := (replaceAll "${teamsAppId}" "${dev:teamsAppId}").
Local Abbreviation A2 := (replaceAll "${localTeamsAppId}" "${local:teamsAppId}").
Local Abbreviation A3 :=
  (replaceAll "${localTeamsAppInternalId}" "${local:teamsAppInternalId}").

Local Ltac copy_through :=
  repeat rewrite string_app_cons; rewrite ?string_app_nil_l;
  repeat (rewrite replaceAll_copy by reflexivity); reflexivity.

Lemma A2_over_r1 x : A2 ("${dev:teamsAppId}" +:+ x) = "${dev:teamsAppId}" +:+ A2 x.
Proof. copy_through. Qed.

Lemma A3_over_r1 x : A3 ("${dev:teamsAppId}" +:+ x) = "${dev:teamsAppId}" +:+ A3 x.
Proof. copy_through. Qed.

Lemma A3_over_r2 x : A3 ("${local:teamsAppId}" +:+ x) = "${local:teamsAppId}" +:+ A3 x.
Proof. copy_through. Qed.

Lemma A1_over_t2 x : A1 ("${localTeamsAppId}" +:+ x) = "${localTeamsAppId}" +:+ A1 x.
Proof. copy_through. Qed.

Lemma A1_over_t3 x :
  A1 ("${localTeamsAppInternalId}" +:+ x) = "${localTeamsAppInternalId}" +:+ A1 x.
Proof. copy_through. Qed.

Lemma A2_over_t3 x :
  A2 ("${localTeamsAppInternalId}" +:+ x) = "${localTeamsAppInternalId}" +:+ A2 x.
Proof. copy_through. Qed.

(** A character at which no token starts survives the three replacements. *)
Lemma rewriteLaunchJson_copy (c : ascii) (s : string) :
  tokenAt tokenTable (String c s) = None ->
  rewriteLaunchJson (String c s) = String c (rewriteLaunchJson s).
Proof.
  unfold tokenTable. cbn [tokenAt]. intros Hnone.
  destruct (stripPrefix "${teamsAppId}" (String c s)) eqn:H1; [discriminate|].
  destruct (stripPrefix "${localTeamsAppId}" (String c s)) eqn:H2; [discriminate|].
  destruct (stripPrefix "${localTeamsAppInternalId}" (String c s)) eqn:H3;
    [discriminate|].
  unfold rewriteLaunchJson.
  rewrite (replaceAll_copy _ _ _ _ H1).
  rewrite stripPrefix_cons in H2, H3.
  destruct (Ascii.eqb "$" c) eqn:Hc.
  - rewrite replaceAll_copy.
    2:{ rewrite stripPrefix_cons, Hc. by apply stripPrefix_replaceAll_None. }
    rewrite replaceAll_copy; [reflexivity|].
    rewrite stripPrefix_cons, Hc.
    apply stripPrefix_replaceAll_None; [reflexivity|].
    by apply stripPrefix_replaceAll_None.
  - rewrite replaceAll_copy by (by rewrite stripPrefix_cons, Hc).
    rewrite replaceAll_copy by (by rewrite stripPrefix_cons, Hc).
    reflexivity.
Qed.

(** The chained replacements of the code are the single scan of the spec. *)
Lemma rewriteLaunchJson_substituteTokens (s : string) :
  rewriteLaunchJson s = substituteTokens tokenTable s.
Proof.
  remember (String.length s) as n eqn:Hn. revert s Hn.
  induction n as [n IH] using lt_wf_ind. intros s ->.
  destruct s as [|c s]; [reflexivity|].
  destruct (tokenAt tokenTable (String c s)) as [[r rest]|] eqn:Htok.
  - rewrite (substituteTokens_token _ _ _ _ Htok).
    pose proof (tokenAt_shorter _ _ _ _ Htok) as Hlen.
    rewrite <- (IH _ Hlen rest eq_refl).
    unfold tokenTable in Htok. cbn [tokenAt] in Htok.
    destruct (stripPrefix "${teamsAppId}" (String c s)) eqn:H1.
    { injection Htok as <- <-. apply stripPrefix_Some in H1 as ->.
      unfold rewriteLaunchJson.
      by rewrite replaceAll_match, A2_over_r1, A3_over_r1. }
    destruct (stripPrefix "${localTeamsAppId}" (String c s)) eqn:H2.
    { injection Htok as <- <-. apply stripPrefix_Some in H2 as ->.
      unfold rewriteLaunchJson.
      by rewrite A1_over_t2, replaceAll_match, A3_over_r2. }
    destruct (stripPrefix "${localTeamsAppInternalId}" (String c s)) eqn:H3;
      [|discriminate].
    injection Htok as <- <-. apply stripPrefix_Some in H3 as ->.
    unfold rewriteLaunchJson.
    by rewrite A1_over_t3, A2_over_t3, replaceAll_match.
  - rewrite (substituteTokens_copy _ _ _ Htok), (rewriteLaunchJson_copy _ _ Htok).
    f_equal. apply (IH (String.length s)); [simpl; lia|reflexivity].
Qed.

End LaunchJsonFacts.

(** * 13. Running the operations of the context *)

Section ContextFacts.

Lemma bind_Return {A B} (m : Async A) (k : A -> Async B) (w w' : World) (a : A) :
  m w = (Return a, w') -> bind m k w = k a w'.
Proof. unfold bind. by intros ->. Qed.

Lemma bind_Throw {A B} (m : Async A) (k : A -> Async B) (w w' : World) (e : Thrown) :
  m w = (Throw e, w') -> bind m k w = (Throw e, w').
Proof. unfold bind. by intros ->. Qed.

Lemma root_app_inj (root a b : Path) : root ++ a = root ++ b -> a = b.
Proof. apply app_inv_head. Qed.

Lemma entryAt_onProject_files (f : Project -> Project) (w : World) (rel : Path) :
  files (f (project w)) = files (project w) ->
  projectPath (f (project w)) = projectPath (project w) ->
  entryAt (onProject f w) rel = entryAt w rel.
Proof. unfold entryAt, onProject. simpl. by intros -> ->. Qed.

Lemma pathExists_run (rel : Path) (w : World) :
  pathExists rel w = (Return (bool_decide (is_Some (entryAt w rel))), w).
Proof. reflexivity. Qed.

Lemma pathExists_Some (rel : Path) (w : World) (e : Entry) :
  entryAt w rel = Some e -> pathExists rel w = (Return true, w).
Proof.
  intros He. rewrite pathExists_run, He. by rewrite bool_decide_eq_true_2.
Qed.

Lemma pathExists_None (rel : Path) (w : World) :
  entryAt w rel = None -> pathExists rel w = (Return false, w).
Proof.
  intros He. rewrite pathExists_run, He.
  rewrite bool_decide_eq_false_2; [done|]. by intros [? ?].
Qed.

Lemma readFile_File (rel : Path) (w : World) (content : string) :
  entryAt w rel = Some (File content) -> readFile rel w = (Return content, w).
Proof. unfold entryAt, readFile. by intros ->. Qed.

Lemma backup_None (rel : Path) (w : World) :
  entryAt w rel = None -> backup rel w = (Return false, w).
Proof. unfold entryAt, backup. by intros ->. Qed.

Lemma backup_Some (rel : Path) (w : World) (e : Entry) :
  entryAt w rel = Some e ->
  exists w', backup rel w = (Return true, w') /\
    files (project w') = files (project w) /\
    projectPath (project w') = projectPath (project w) /\
    modifiedPaths (project w') = modifiedPaths (project w) /\
    log w' = log w.
Proof.
  unfold entryAt, backup. intros ->. eexists. split; [reflexivity|]. by simpl.
Qed.

Lemma fsWriteFile_run (rel : Path) (content : string) (w : World) :
  exists w', fsWriteFile rel content w = (Return tt, w') /\
    files (project w') =
      <[projectPath (project w) ++ rel := File content]> (files (project w)) /\
    projectPath (project w') = projectPath (project w) /\
    modifiedPaths (project w') = {[ rel ]} ∪ modifiedPaths (project w) /\
    log w' = log w.
Proof. eexists. split; [reflexivity|]. by simpl. Qed.

Lemma stripPathPrefix_app (p r : Path) : stripPathPrefix p (p ++ r) = Some r.
Proof.
  induction p as [|a p IH]; [reflexivity|]. simpl. by rewrite String.eqb_refl.
Qed.

Lemma stripPathPrefix_root (root p k : Path) :
  stripPathPrefix (root ++ p) (root ++ k) = stripPathPrefix p k.
Proof.
  induction root as [|a root IH]; [reflexivity|]. simpl.
  by rewrite String.eqb_refl.
Qed.

Lemma below_app (dir rest : Path) : below dir (dir ++ rest).
Proof. unfold below. rewrite stripPathPrefix_app. by eexists. Qed.

Lemma below_refl (dir : Path) : below dir dir.
Proof. rewrite <- (app_nil_r dir) at 2. apply below_app. Qed.

Lemma copyInto_outside (src dst : Path) (from to : Files) (k : Path) :
  stripPathPrefix dst k = None -> copyInto src dst from to !! k = to !! k.
Proof.
  intros Hk. unfold copyInto.
  induction (map_to_list from) as [|[k' e] l IH]; [reflexivity|]. simpl.
  destruct (stripPathPrefix src k') as [rest|]; [|exact IH].
  rewrite lookup_insert_ne; [exact IH|].
  intros <-. by rewrite stripPathPrefix_app in Hk.
Qed.

Lemma changesOnly_refl (touched : Path -> Prop) (w : World) :
  changesOnly touched w w.
Proof. by repeat split. Qed.

Lemma changesOnly_trans (t1 t2 touched : Path -> Prop) (w1 w2 w3 : World) :
  changesOnly t1 w1 w2 -> changesOnly t2 w2 w3 ->
  (forall rel, t1 rel -> touched rel) -> (forall rel, t2 rel -> touched rel) ->
  changesOnly touched w1 w3.
Proof.
  intros (Hp1 & Hl1 & He1 & Hm1) (Hp2 & Hl2 & He2 & Hm2) H1 H2.
  repeat split.
  - by rewrite Hp2.
  - by rewrite Hl2.
  - intros rel Hrel. rewrite He2, He1; naive_solver.
  - intros rel Hrel Hin. apply Hm1; [naive_solver|]. apply Hm2; naive_solver.
Qed.

Lemma backup_run (rel : Path) (w : World) :
  exists w', backup rel w = (Return (bool_decide (is_Some (entryAt w rel))), w') /\
    changesOnly (fun _ => False) w w'.
Proof.
  unfold backup, entryAt.
  destruct (files (project w) !! (projectPath (project w) ++ rel)) eqn:He.
  - eexists. split; [by rewrite bool_decide_eq_true_2|]. by repeat split.
  - eexists. split; [rewrite bool_decide_eq_false_2; [done|by intros [? ?]]|].
    apply changesOnly_refl.
Qed.

Lemma fsEnsureDir_run (rel : Path) (w : World) :
  exists w', fsEnsureDir rel w = (Return tt, w') /\
    changesOnly (eq rel) w w' /\ is_Some (entryAt w' rel).
Proof.
  eexists. split; [reflexivity|]. unfold changesOnly, entryAt. simpl.
  destruct (files (project w) !! (projectPath (project w) ++ rel)) eqn:He; simpl.
  - repeat split; [|by rewrite He]. intros r Hr Hin. apply elem_of_union in Hin as [Hin|Hin]; [|done].
      apply elem_of_singleton in Hin. by destruct Hr.
  - repeat split.
    + intros r Hr. apply lookup_insert_ne. intros Heq.
      by apply root_app_inj in Heq.
    + intros r Hr Hin. apply elem_of_union in Hin as [Hin|Hin]; [|done].
      apply elem_of_singleton in Hin. by destruct Hr.
    + by rewrite lookup_insert_eq.
Qed.

Lemma fsCreateFile_run (rel : Path) (w : World) :
  exists w', fsCreateFile rel w = (Return tt, w') /\
    changesOnly (eq rel) w w' /\
    entryAt w' rel = Some (default (File "") (entryAt w rel)).
Proof.
  eexists. split; [reflexivity|]. unfold changesOnly, entryAt. simpl.
  destruct (files (project w) !! (projectPath (project w) ++ rel)) eqn:He; simpl.
  - repeat split; [|by rewrite He]. intros r Hr Hin. apply elem_of_union in Hin as [Hin|Hin]; [|done].
      apply elem_of_singleton in Hin. by destruct Hr.
  - repeat split.
    + intros r Hr. apply lookup_insert_ne. intros Heq.
      by apply root_app_inj in Heq.
    + intros r Hr Hin. apply elem_of_union in Hin as [Hin|Hin]; [|done].
      apply elem_of_singleton in Hin. by destruct Hr.
    + by rewrite lookup_insert_eq.
Qed.

Lemma fsWriteFile_changes (rel : Path) (content : string) (w : World) :
  exists w', fsWriteFile rel content w = (Return tt, w') /\
    changesOnly (eq rel) w w' /\ entryAt w' rel = Some (File content).
Proof.
  eexists. split; [reflexivity|]. unfold changesOnly, entryAt. simpl.
  repeat split.
  - intros r Hr. apply lookup_insert_ne. intros Heq. by apply root_app_inj in Heq.
  - intros r Hr Hin. apply elem_of_union in Hin as [Hin|Hin]; [|done].
      apply elem_of_singleton in Hin. by destruct Hr.
  - by rewrite lookup_insert_eq.
Qed.

Lemma fsCopy_run (src dst : Path) (w : World) :
  exists w', fsCopy src dst w = (Return tt, w') /\ changesOnly (below dst) w w'.
Proof.
  eexists. split; [reflexivity|]. unfold changesOnly, entryAt, below. simpl.
  repeat split.
  - intros r Hr. apply copyInto_outside. rewrite stripPathPrefix_root.
    destruct (stripPathPrefix dst r); [|done]. by destruct Hr.
  - intros r Hr Hin. apply elem_of_union in Hin as [Hin|Hin]; [|done].
    apply elem_of_singleton in Hin as ->. destruct Hr.
    rewrite <- (app_nil_r dst) at 2. by rewrite stripPathPrefix_app.
Qed.

End ContextFacts.

(** * 14. The launch-configuration step *)

Section UpdateLaunchJson.
Import ProjectMigratorV3 LaunchJsonSpec.

(** C8.  The step [updateLaunchJson], by the state of [.vscode/launch.json]:
    when the file exists, the step succeeds and the file then holds the old
    text in which every occurrence of the three tokens of the table has been
    replaced by its counterpart and every other character is kept, no other
    path of the project changes and nothing is logged; when the path does not
    exist, the step succeeds and leaves the world as it is. (On a directory of
    that name the read fails.) *)
Theorem updateLaunchJson_rewrites_tokens (w : World) :
  match entryAt w launchJsonPath with
  | Some (File content) =>
      exists w',
        updateLaunchJson w = (Return tt, w') /\
        entryAt w' launchJsonPath
          = Some (File (substituteTokens tokenTable content)) /\
        (forall rel, rel <> launchJsonPath -> entryAt w' rel = entryAt w rel) /\
        log w' = log w
  | Some Dir => exists w', updateLaunchJson w = (Throw eisdir, w')
  | None => updateLaunchJson w = (Return tt, w)
  end.
Proof.
  destruct (entryAt w launchJsonPath) as [[content|]|] eqn:Hentry.
  - destruct (backup_Some _ _ _ Hentry) as (w1 & Hb & Hf1 & Hp1 & _ & Hl1).
    assert (Hentry1 : entryAt w1 launchJsonPath = Some (File content)).
    { unfold entryAt in *. by rewrite Hf1, Hp1. }
    destruct (fsWriteFile_run launchJsonPath (rewriteLaunchJson content) w1)
      as (w2 & Hw & Hf2 & Hp2 & _ & Hl2).
    exists w2. split; [|split; [|split]].
    + unfold updateLaunchJson.
      rewrite (bind_Return _ _ _ _ _ (pathExists_Some _ _ _ Hentry)).
      rewrite (bind_Return _ _ _ _ _ Hb).
      by rewrite (bind_Return _ _ _ _ _ (readFile_File _ _ _ Hentry1)).
    + unfold entryAt. rewrite Hf2, Hp2, lookup_insert_eq.
      by rewrite rewriteLaunchJson_substituteTokens.
    + intros rel Hrel. unfold entryAt. rewrite Hf2, Hp2, Hf1, Hp1.
      apply lookup_insert_ne. intros Heq. by apply root_app_inj in Heq.
    + by rewrite Hl2, Hl1.
  - unfold updateLaunchJson.
    rewrite (bind_Return _ _ _ _ _ (pathExists_Some _ _ _ Hentry)).
    destruct (backup_Some _ _ _ Hentry) as (w1 & Hb & Hf1 & Hp1 & _ & Hl1).
    rewrite (bind_Return _ _ _ _ _ Hb). exists w1.
    apply bind_Throw. unfold readFile. unfold entryAt in Hentry.
    by rewrite Hf1, Hp1, Hentry.
  - unfold updateLaunchJson.
    by rewrite (bind_Return _ _ _ _ _ (pathExists_None _ _ Hentry)).
Qed.

End UpdateLaunchJson.

(** * 15. The manifest step: required and optional files *)

Section ManifestFacts.
Import ProjectMigratorV3.
Context `{Externals}.

Local Ltac not_below :=
  let Hx := fresh in intros [? Hx]; vm_compute in Hx; discriminate Hx.

Local Ltac step_with Hrun := rewrite (bind_Return _ _ _ _ _ Hrun).

(** The step up to the check of the infrastructure template: the backup of
    [templates/appPackage], the new [appPackage] folder and the copy of the
    resources change nothing outside [appPackage]. *)
Lemma manifests_resources_copied (w : World) :
  is_Some (entryAt w oldAppPackageFolderPath) ->
  exists w3,
    changesOnly (below [AppPackageFolderName]) w w3 /\
    forall (k : Async unit),
      (oldAppPackageFolderBackupRes <- backup oldAppPackageFolderPath ;;
       if negb oldAppPackageFolderBackupRes then
         throw (ReadFileError (mkError "Error" "templates/appPackage does not exist"))
       else
         fsEnsureDir [AppPackageFolderName] ;;
         oldResourceFolderExists <- pathExists oldResourceFolderPath ;;
         (if oldResourceFolderExists : bool
          then fsCopy oldResourceFolderPath [AppPackageFolderName; "resources"]
          else ret tt) ;;
         k) w = k w3.
Proof.
  intros Happ.
  destruct (backup_run oldAppPackageFolderPath w) as (w1 & Hb & Hc1).
  rewrite bool_decide_eq_true_2 in Hb by done.
  destruct (fsEnsureDir_run [AppPackageFolderName] w1) as (w2 & He & Hc2 & _).
  pose proof (pathExists_run oldResourceFolderPath w2) as Hr.
  set (b := bool_decide (is_Some (entryAt w2 oldResourceFolderPath))) in Hr.
  assert (Hcopy : exists w3,
    (if b then fsCopy oldResourceFolderPath [AppPackageFolderName; "resources"]
     else ret tt) w2 = (Return tt, w3) /\
    changesOnly (below [AppPackageFolderName]) w2 w3).
  { destruct b.
    - destruct (fsCopy_run oldResourceFolderPath
                  [AppPackageFolderName; "resources"] w2) as (w3 & Hcp & Hc3).
      exists w3. split; [done|].
      apply (changesOnly_trans (below [AppPackageFolderName; "resources"])
               (fun _ => False) _ w2 w3 w3);
        [exact Hc3|apply changesOnly_refl| |done].
      intros rel [rest Hrest]. unfold below, AppPackageFolderName in *.
      destruct rel as [|a rel]; [done|]. cbn [stripPathPrefix] in *.
      destruct (String.eqb "appPackage" a); [by eexists|done].
    - exists w2. split; [done|apply changesOnly_refl]. }
  destruct Hcopy as (w3 & Hcp & Hc3).
  exists w3. split.
  - apply (changesOnly_trans (below [AppPackageFolderName])
             (below [AppPackageFolderName]) _ w w2 w3); [|exact Hc3|done|done].
    apply (changesOnly_trans (fun _ => False) (eq [AppPackageFolderName])
             _ w w1 w2); [exact Hc1|exact Hc2|done|].
    intros rel <-. apply below_refl.
  - intros k. step_with Hb. cbn [negb]. step_with He. step_with Hr.
    by step_with Hcp.
Qed.

(** C4.  The step [replacePlaceholderForManifests]:
    - without [templates/appPackage] it throws the read-file error of that
      folder and changes nothing;
    - with the folder and without [templates/azure/provision.bicep] it throws
      the read-file error of the template;
    - without [templates/appPackage/manifest.template.json] it throws, whatever
      else is there, and with the folder and the template it throws the
      read-file error of the manifest;
    - with these three and without [aad.template.json] it succeeds, writes the
      rewritten application manifest, leaves [aad.manifest.template.json] as
      it was and does not record it as modified;
    - once the three steps before it have succeeded, an error of this step is
      the error of [migrate], in the world the step left: the two steps after
      it do not run. *)
Theorem replacePlaceholderForManifests_required_and_optional (w : World) :
  (entryAt w oldAppPackageFolderPath = None ->
   replacePlaceholderForManifests w =
     (Throw (ReadFileError (mkError "Error" "templates/appPackage does not exist")),
      w)) /\
  (is_Some (entryAt w oldAppPackageFolderPath) ->
   entryAt w oldBicepFilePath = None ->
   exists w',
     replacePlaceholderForManifests w =
       (Throw (ReadFileError
                 (mkError "Error" "templates/azure/provision.bicep does not exist")),
        w')) /\
  (entryAt w oldManifestPath = None ->
   exists e w', replacePlaceholderForManifests w = (Throw e, w')) /\
  (forall bicepContent,
   is_Some (entryAt w oldAppPackageFolderPath) ->
   entryAt w oldBicepFilePath = Some (File bicepContent) ->
   entryAt w oldManifestPath = None ->
   exists w',
     replacePlaceholderForManifests w =
       (Throw (ReadFileError
                 (mkError "Error"
                    "templates/appPackage/manifest.template.json does not exist")),
        w')) /\
  (forall bicepContent oldManifest,
   is_Some (entryAt w oldAppPackageFolderPath) ->
   entryAt w oldBicepFilePath = Some (File bicepContent) ->
   entryAt w oldManifestPath = Some (File oldManifest) ->
   entryAt w oldAadManifestPath = None ->
   exists w',
     replacePlaceholderForManifests w = (Return tt, w') /\
     entryAt w' manifestPath =
       Some (File (replacePlaceholdersForV3 oldManifest bicepContent)) /\
     entryAt w' aadManifestPath = entryAt w aadManifestPath /\
     (aadManifestPath ∈ modifiedPaths (project w') ->
      aadManifestPath ∈ modifiedPaths (project w))) /\
  (forall w0 wa wb e w',
   preMigration w0 = (Return tt, wa) ->
   generateSettingsJson wa = (Return tt, wb) ->
   generateAppYml wb = (Return tt, w) ->
   replacePlaceholderForManifests w = (Throw e, w') ->
   migrate w0 = (Throw e, w')).
Proof.
  assert (Hbicep : ~ below [AppPackageFolderName] oldBicepFilePath) by not_below.
  assert (Hman : ~ below [AppPackageFolderName] oldManifestPath) by not_below.
  assert (Hoaad : ~ below [AppPackageFolderName] oldAadManifestPath) by not_below.
  assert (Haad : ~ below [AppPackageFolderName] aadManifestPath) by not_below.
  (* what happens from the check of the template on, in a world [w3] that
     differs from [w] only below [appPackage] *)
  assert (Hrest : is_Some (entryAt w oldAppPackageFolderPath) ->
    exists w3, changesOnly (below [AppPackageFolderName]) w w3 /\
      replacePlaceholderForManifests w =
      (oldBicepFileExists <- pathExists oldBicepFilePath ;;
       if negb oldBicepFileExists then
         throw (ReadFileError
                  (mkError "Error" "templates/azure/provision.bicep does not exist"))
       else
         bicepContent <- readFile oldBicepFilePath ;;
         oldManifestExists <- pathExists oldManifestPath ;;
         (if oldManifestExists : bool then
            (oldManifest <- readFile oldManifestPath ;;
             fsWriteFile manifestPath
               (replacePlaceholdersForV3 oldManifest bicepContent))
          else
            throw (ReadFileError
                     (mkError "Error"
                        "templates/appPackage/manifest.template.json does not exist"))) ;;
         oldAadManifestExists <- pathExists oldAadManifestPath ;;
         if oldAadManifestExists : bool then
           (oldAadManifest <- readFile oldAadManifestPath ;;
            fsWriteFile aadManifestPath
              (replacePlaceholdersForV3 oldAadManifest bicepContent))
         else ret tt) w3).
  { intros Happ. destruct (manifests_resources_copied w Happ) as (w3 & Hc & Hk).
    exists w3. split; [done|]. unfold replacePlaceholderForManifests.
    by rewrite Hk. }
  split; [|split; [|split; [|split; [|split]]]].
  - intros Happ. unfold replacePlaceholderForManifests.
    by step_with (backup_None _ _ Happ).
  - intros Happ Hb. destruct (Hrest Happ) as (w3 & (_ & _ & He & _) & ->).
    exists w3. rewrite <- (He _ Hbicep) in Hb.
    by step_with (pathExists_None _ _ Hb).
  - intros Hm. destruct (entryAt w oldAppPackageFolderPath) as [pkg|] eqn:Happ.
    + destruct (Hrest (ltac:(by eexists))) as (w3 & (_ & _ & He & _) & ->).
      rewrite <- (He _ Hman) in Hm.
      destruct (entryAt w3 oldBicepFilePath) as [[bicepContent|]|] eqn:Hb.
      * do 2 eexists. step_with (pathExists_Some _ _ _ Hb). cbn [negb].
        step_with (readFile_File _ _ _ Hb).
        step_with (pathExists_None _ _ Hm). reflexivity.
      * do 2 eexists. step_with (pathExists_Some _ _ _ Hb). cbn [negb].
        apply bind_Throw. unfold readFile. unfold entryAt in Hb. by rewrite Hb.
      * do 2 eexists. by step_with (pathExists_None _ _ Hb).
    + do 2 eexists. unfold replacePlaceholderForManifests.
      by step_with (backup_None _ _ Happ).
  - intros bicepContent Happ Hb Hm.
    destruct (Hrest Happ) as (w3 & (_ & _ & He & _) & ->).
    rewrite <- (He _ Hbicep) in Hb. rewrite <- (He _ Hman) in Hm.
    exists w3. step_with (pathExists_Some _ _ _ Hb). cbn [negb].
    step_with (readFile_File _ _ _ Hb).
    by step_with (pathExists_None _ _ Hm).
  - intros bicepContent oldManifest Happ Hb Hm Ha.
    destruct (Hrest Happ) as (w3 & Hc3 & ->).
    pose proof Hc3 as (_ & _ & He & _).
    rewrite <- (He _ Hbicep) in Hb. rewrite <- (He _ Hman) in Hm.
    rewrite <- (He _ Hoaad) in Ha.
    destruct (fsWriteFile_changes manifestPath
                (replacePlaceholdersForV3 oldManifest bicepContent) w3)
      as (w4 & Hw & Hc4 & Hwritten).
    assert (Hc : changesOnly (below [AppPackageFolderName]) w w4).
    { apply (changesOnly_trans (below [AppPackageFolderName]) (eq manifestPath)
               _ w w3 w4); [exact Hc3|exact Hc4|done|].
      intros rel <-. apply (below_app [AppPackageFolderName]). }
    pose proof Hc4 as (_ & _ & He4 & _).
    assert (Ha4 : entryAt w4 oldAadManifestPath = None).
    { rewrite He4; [done|]. by intros [=]. }
    exists w4. split; [|split; [done|]].
    + step_with (pathExists_Some _ _ _ Hb). cbn [negb].
      step_with (readFile_File _ _ _ Hb).
      step_with (pathExists_Some _ _ _ Hm).
      assert (Hinner :
        (oldManifest0 <- readFile oldManifestPath ;;
         fsWriteFile manifestPath
           (replacePlaceholdersForV3 oldManifest0 bicepContent)) w3
        = (Return tt, w4)).
      { by step_with (readFile_File _ _ _ Hm). }
      step_with Hinner.
      by step_with (pathExists_None _ _ Ha4).
    + destruct Hc as (_ & _ & He' & Hm'). split; [by apply He'|by apply Hm'].
  - intros w0 wa wb e w' H1 H2 H3 H4. unfold migrate, subMigrations.
    cbn [forOf]. step_with H1. step_with H2. step_with H3.
    by rewrite (bind_Throw _ _ _ _ _ H4).
Qed.

End ManifestFacts.

(** * 16. The pipeline and its rollback wrapper *)

Section PipelineFacts.
Import ProjectMigratorV3.
Context `{Externals}.

Lemma bind_ret_unit (m : Async unit) (w : World) : (m ;; ret tt) w = m w.
Proof. unfold bind, ret. by destruct (m w) as [[[]|e] w']. Qed.

(** A [for ... of] loop with an [await] in its body runs the body on the
    elements in order: the body starts on an element in the world left by the
    bodies of all elements before it, all of which have returned, and an
    element whose body throws ends the loop. *)
Lemma forOf_split {A} (body : A -> Async unit) (pre post : list A) (x : A)
  (w : World) :
  forOf (pre ++ x :: post) body w =
  match forOf pre body w with
  | (Return _, w1) =>
      match body x w1 with
      | (Return _, w2) => forOf post body w2
      | (Throw e, w2) => (Throw e, w2)
      end
  | (Throw e, w1) => (Throw e, w1)
  end.
Proof.
  revert w. induction pre as [|y pre IH]; intros w; cbn [app forOf].
  - unfold bind, ret. by destruct (body x w) as [[[]|e] w2].
  - unfold bind. destruct (body y w) as [[[]|e] w1]; [apply IH|done].
Qed.

(** C3.  [subMigrations] lists exactly six steps: the backup before the
    migration, the settings, [app.yml], the manifest placeholders, the states
    and the launch configuration, in this order.  [migrate] is their
    sequential composition on the one shared world, and for the step at any
    position [n]: it starts in the world in which the [n] steps before it have
    all returned, it does not run when one of them has thrown, and the steps
    behind it start only after it has returned. *)
Theorem migrate_six_steps_in_order :
  subMigrations =
    [ preMigration; generateSettingsJson; generateAppYml;
      replacePlaceholderForManifests; statesMigration; updateLaunchJson ] /\
  length subMigrations = 6 /\
  (forall w,
     migrate w =
     (preMigration ;; generateSettingsJson ;; generateAppYml ;;
      replacePlaceholderForManifests ;; statesMigration ;; updateLaunchJson) w) /\
  (forall n step w,
     subMigrations !! n = Some step ->
     migrate w =
     match forOf (take n subMigrations) (fun subMigration => subMigration) w with
     | (Return _, w1) =>
         match step w1 with
         | (Return _, w2) =>
             forOf (drop (S n) subMigrations) (fun subMigration => subMigration) w2
         | (Throw e, w2) => (Throw e, w2)
         end
     | (Throw e, w1) => (Throw e, w1)
     end).
Proof.
  split; [reflexivity|]. split; [reflexivity|]. split.
  - intros w. unfold migrate, subMigrations. cbn [forOf].
    unfold bind at 1 7. destruct (preMigration w) as [[[]|e] w1]; [|done].
    unfold bind at 1 6. destruct (generateSettingsJson w1) as [[[]|e] w2]; [|done].
    unfold bind at 1 5. destruct (generateAppYml w2) as [[[]|e] w3]; [|done].
    unfold bind at 1 4.
    destruct (replacePlaceholderForManifests w3) as [[[]|e] w4]; [|done].
    unfold bind at 1 3. destruct (statesMigration w4) as [[[]|e] w5]; [|done].
    apply bind_ret_unit.
  - intros n step w Hn. unfold migrate.
    rewrite <- (take_drop_middle _ _ _ Hn) at 1. apply forOf_split.
Qed.

(** The [catch] block of [wrapRunMigration], for a migration that throws. *)
Lemma wrapRunMigration_catch (exec : Async unit) (w w1 : World) (caught : Thrown) :
  exec (emit (SendTelemetryEvent Component_core ProjectMigratorMigrateStartV3 None) w)
    = (Throw caught, w1) ->
  wrapRunMigration exec w =
  match classify caught with
  | Return (error, fxError) =>
      (Throw error,
       mkWorld
         (cleanTeamsfx_effect
            (restoreBackup_effect (cleanModifiedPaths_effect (project w1))))
         (log w1 ++
          [ SendTelemetryErrorEvent Component_core ProjectMigratorV3Error fxError
              (telemetryProperties (project w1));
            ContextCall CleanModifiedPaths;
            ContextCall RestoreBackup;
            ContextCall CleanTeamsfx ]))
  | Throw e => (Throw e, w1)
  end.
Proof.
  intros Hexec.
  assert (Hbody :
    (sendTelemetryEvent Component_core ProjectMigratorMigrateStartV3 None ;;
     exec ;;
     showSummaryReport ;;
     properties <- gets (fun w => telemetryProperties (project w)) ;;
     sendTelemetryEvent Component_core ProjectMigratorMigrateV3 (Some properties)) w
    = (Throw caught, w1)).
  { unfold bind at 1. unfold sendTelemetryEvent, modify.
    by rewrite (bind_Throw _ _ _ _ _ Hexec). }
  unfold wrapRunMigration, tryCatch. rewrite Hbody.
  destruct caught as [fx|e|repr|base]; [| | |reflexivity].
  all: unfold bind, liftOutcome, gets, sendTelemetryErrorEvent,
         rollbackMigration, cleanModifiedPaths, restoreBackup, cleanTeamsfx,
         modify, throw, emit, onProject;
       simpl; rewrite <- ?app_assoc; reflexivity.
Qed.

(** C1 (amended).  When the migration run by [wrapRunMigration] throws a value
    that has a usable [toString] (anything but [null] and [undefined]), then
    the error event is sent with the classified error, the three clean-up
    methods are called in the order [cleanModifiedPaths], [restoreBackup],
    [cleanTeamsfx] on the project the migration left, and only then the
    caller receives an error.  The classified error is the thrown one when it
    is a [UserError] or [SystemError], and a [SystemError] with the name of
    the unhandled error and the message of the thrown value otherwise; it goes
    to telemetry.  The error the caller receives is the thrown value itself
    when it is an [Error] of any class, and a plain [Error] with the text of
    the value otherwise. *)
Theorem wrapRunMigration_rolls_back_then_rethrows (exec : Async unit)
  (w w1 : World) (caught : Thrown) :
  exec (emit (SendTelemetryEvent Component_core ProjectMigratorMigrateStartV3 None) w)
    = (Throw caught, w1) ->
  (forall base, caught <> ThrownNullish base) ->
  exists error fxError w',
    wrapRunMigration exec w = (Throw error, w') /\
    log w' =
      log w1 ++
      [ SendTelemetryErrorEvent Component_core ProjectMigratorV3Error fxError
          (telemetryProperties (project w1));
        ContextCall CleanModifiedPaths;
        ContextCall RestoreBackup;
        ContextCall CleanTeamsfx ] /\
    project w' =
      cleanTeamsfx_effect
        (restoreBackup_effect (cleanModifiedPaths_effect (project w1))) /\
    match caught with
    | ThrownFx fx => error = caught /\ fxError = fx
    | ThrownError e => error = caught /\ fxError = unhandledError e
    | ThrownValue repr =>
        error = ThrownError (mkError "Error" repr) /\
        fxError = unhandledError (mkError "Error" repr)
    | ThrownNullish _ => False
    end.
Proof.
  intros Hexec Hcaught. rewrite (wrapRunMigration_catch _ _ _ _ Hexec).
  destruct caught as [fx|e|repr|base]; [| | |by destruct (Hcaught base)].
  all: do 3 eexists; split; [reflexivity|]; by repeat split.
Qed.

(** The same for the pipeline: when the step at some position of
    [subMigrations] throws after the steps before it have returned, [migrate]
    throws what the step threw, in the world the step left, and
    [wrapRunMigration] rolls back from there. *)
Lemma wrapRunMigration_migrate_step_throws (n : nat) (step : Migration)
  (w w0 w1 : World) (caught : Thrown) :
  subMigrations !! n = Some step ->
  forOf (take n subMigrations) (fun subMigration => subMigration)
    (emit (SendTelemetryEvent Component_core ProjectMigratorMigrateStartV3 None) w)
    = (Return tt, w0) ->
  step w0 = (Throw caught, w1) ->
  wrapRunMigration migrate w =
  match classify caught with
  | Return (error, fxError) =>
      (Throw error,
       mkWorld
         (cleanTeamsfx_effect
            (restoreBackup_effect (cleanModifiedPaths_effect (project w1))))
         (log w1 ++
          [ SendTelemetryErrorEvent Component_core ProjectMigratorV3Error fxError
              (telemetryProperties (project w1));
            ContextCall CleanModifiedPaths;
            ContextCall RestoreBackup;
            ContextCall CleanTeamsfx ]))
  | Throw e => (Throw e, w1)
  end.
Proof.
  intros Hn Hbefore Hstep. apply wrapRunMigration_catch.
  unfold migrate. rewrite <- (take_drop_middle _ _ _ Hn) at 1.
  by rewrite forOf_split, Hbefore, Hstep.
Qed.

(** A thrown [null] or [undefined] makes the [catch] block itself fail on
    [error.toString()]: the clean-up methods are not reached. *)
Lemma wrapRunMigration_nullish (exec : Async unit) (w w1 : World)
  (base : Nullish) :
  exec (emit (SendTelemetryEvent Component_core ProjectMigratorMigrateStartV3 None) w)
    = (Throw (ThrownNullish base), w1) ->
  wrapRunMigration exec w = (Throw (typeError base "toString"), w1).
Proof. intros Hexec. by rewrite (wrapRunMigration_catch _ _ _ _ Hexec). Qed.

End PipelineFacts.

(** * 17. Relabelling the references between tasks *)

Section RelabelFacts.
Import TaskMigrations.

Lemma assocGet_assocSet (k : string) (v : Json) (fields : list (string * Json)) :
  assocGet k (assocSet k v fields) = Some v.
Proof.
  induction fields as [|[k' v'] fields IH]; simpl.
  - by rewrite String.eqb_refl.
  - destruct (String.eqb k' k) eqn:Hk; simpl; by rewrite Hk.
Qed.

Lemma assocGet_assocSet_ne (k k' : string) (v : Json) (fields : list (string * Json)) :
  k <> k' -> assocGet k' (assocSet k v fields) = assocGet k' fields.
Proof.
  intros Hne. induction fields as [|[k0 v0] fields IH]; simpl.
  - destruct (String.eqb_spec k k'); [done|reflexivity].
  - destruct (String.eqb_spec k0 k) as [->|Hk0]; simpl.
    + by destruct (String.eqb_spec k k').
    + by rewrite IH.
Qed.

Lemma assocGet_assocDel (k : string) (fields : list (string * Json)) :
  assocGet k (assocDel k fields) = None.
Proof.
  induction fields as [|[k' v'] fields IH]; simpl; [reflexivity|].
  destruct (String.eqb k' k) eqn:Hk; simpl; [done|by rewrite Hk].
Qed.

Lemma assocGet_assocDel_ne (k k' : string) (fields : list (string * Json)) :
  k <> k' -> assocGet k' (assocDel k fields) = assocGet k' fields.
Proof.
  intros Hne. induction fields as [|[k0 v0] fields IH]; simpl; [reflexivity|].
  destruct (String.eqb_spec k0 k) as [->|Hk0]; simpl.
  - rewrite IH. by destruct (String.eqb_spec k k').
  - by rewrite IH.
Qed.

Lemma isStr_true (s : string) (v : Json) : isStr s v = true <-> v = JStr s.
Proof.
  destruct v; simpl; try (split; [discriminate|intros [=]]).
  rewrite String.eqb_eq. split; [by intros ->|by intros [= ->]].
Qed.

Lemma findIndex_lookup {A} (p : A -> bool) (l : list A) (i : nat) :
  findIndex p l = Some i -> exists x, l !! i = Some x /\ p x = true.
Proof.
  revert i. induction l as [|x l IH]; intros i; simpl; [discriminate|].
  destruct (p x) eqn:Hp.
  - intros [= <-]. by exists x.
  - destruct (findIndex p l) as [j|]; [|discriminate].
    intros [= <-]. by apply IH.
Qed.

Lemma findIndex_withoutFirst (label : string) (arr : list Json) (i : nat) :
  findIndex (isStr label) arr = Some i ->
  splice i 1 [] arr = withoutFirst label arr.
Proof.
  revert i. induction arr as [|v arr IH]; intros i; simpl; [discriminate|].
  destruct (isStr label v).
  - intros [= <-]. unfold splice. simpl. by rewrite drop_0.
  - destruct (findIndex (isStr label) arr) as [j|]; [|discriminate].
    intros [= <-]. unfold splice in *. simpl. f_equal. by apply IH.
Qed.

Lemma findIndex_None_occurrences (label : string) (arr : list Json) :
  findIndex (isStr label) arr = None <-> occurrences label arr = 0.
Proof.
  induction arr as [|v arr IH]; simpl; [done|].
  destruct (isStr label v); [split; [discriminate|lia]|].
  destruct (findIndex (isStr label) arr); simpl.
  - split; [discriminate|]. intros Hz. by apply IH in Hz.
  - split; [|done]. intros _. by apply IH.
Qed.

Lemma existsb_occurrences (s : string) (arr : list Json) :
  existsb (isStr s) arr = false <-> occurrences s arr = 0.
Proof.
  induction arr as [|v arr IH]; simpl; [done|].
  destruct (isStr s v); simpl; [split; [discriminate|lia]|exact IH].
Qed.

Lemma occurrences_app (s : string) (a b : list Json) :
  occurrences s (a ++ b) = occurrences s a + occurrences s b.
Proof. induction a as [|v a IH]; simpl; [reflexivity|]. rewrite IH. lia. Qed.

Lemma occurrences_withoutFirst_same (s : string) (arr : list Json) :
  occurrences s (withoutFirst s arr) = occurrences s arr - 1.
Proof.
  induction arr as [|v arr IH]; simpl; [reflexivity|].
  destruct (isStr s v) eqn:Hv; simpl; [lia|]. by rewrite Hv.
Qed.

Lemma occurrences_withoutFirst_le (s label : string) (arr : list Json) :
  occurrences s (withoutFirst label arr) <= occurrences s arr.
Proof.
  induction arr as [|v arr IH]; simpl; [lia|].
  destruct (isStr label v); simpl; lia.
Qed.

(** The array after a replacement: the part before the label, the
    replacements, the part behind the label. *)
Lemma findIndex_splice (label : string) (items arr : list Json) (i : nat) :
  findIndex (isStr label) arr = Some i ->
  exists before after,
    arr = before ++ JStr label :: after /\
    occurrences label before = 0 /\
    splice i 1 items arr = before ++ items ++ after.
Proof.
  revert i. induction arr as [|v arr IH]; intros i; simpl; [discriminate|].
  destruct (isStr label v) eqn:Hv.
  - intros [= <-]. apply isStr_true in Hv as ->.
    exists [], arr. unfold splice. simpl. by rewrite drop_0.
  - destruct (findIndex (isStr label) arr) as [j|]; [|discriminate].
    intros [= <-]. destruct (IH j eq_refl) as (before & after & -> & Hb & Hs).
    exists (v :: before), after. simpl. rewrite Hv.
    split; [done|]. split; [done|]. unfold splice in *. simpl. by rewrite Hs.
Qed.

Lemma occurrences_fmap_JStr (s : string) (l : list string) :
  s ∉ l -> occurrences s (JStr <$> l) = 0.
Proof.
  induction l as [|x l IH]; simpl; [done|]. intros Hnotin.
  apply not_elem_of_cons in Hnotin as [Hne Hnotin].
  destruct (String.eqb_spec x s); [by subst|]. by apply IH.
Qed.

Lemma replaceInDependsOn_lookup (label : string) (replacements : list string)
  (tasks : list Json) (i : nat) :
  replaceInDependsOn label tasks replacements !! i =
  replaceInTask label replacements <$> tasks !! i.
Proof. unfold replaceInDependsOn. apply list_lookup_fmap. Qed.

(** C2 (amended).  Relabelling a non-empty label maps every task of the list
    on its own.  For a task object:
    - a [dependsOn] that is the label as a single string becomes the array of
      the replacements in their order when there are any, and the key is
      deleted when there are none;
    - a [dependsOn] that is the array of the label and one other label loses
      the label when there are no replacements;
    - a [dependsOn] that is the array of the label alone becomes the empty
      array when there are no replacements: the key stays;
    - the key is absent afterwards only when it was absent before or in the
      single-string case without replacements. *)
Theorem replaceInDependsOn_relabels (label : string) (replacements : list string)
  (tasks : list Json) (i : nat) (fields : list (string * Json)) :
  label <> "" ->
  tasks !! i = Some (JObj fields) ->
  exists task',
    length (replaceInDependsOn label tasks replacements) = length tasks /\
    replaceInDependsOn label tasks replacements !! i = Some task' /\
    (assocGet "dependsOn" fields = Some (JStr label) ->
     getProp task' "dependsOn" =
       match replacements with
       | [] => None
       | _ => Some (JArr (JStr <$> replacements))
       end) /\
    (forall other, other <> label ->
     assocGet "dependsOn" fields = Some (JArr [JStr label; JStr other]) ->
     replacements = [] ->
     getProp task' "dependsOn" = Some (JArr [JStr other])) /\
    (assocGet "dependsOn" fields = Some (JArr [JStr label]) ->
     replacements = [] ->
     getProp task' "dependsOn" = Some (JArr [])) /\
    (getProp task' "dependsOn" = None ->
     assocGet "dependsOn" fields = None \/
     (assocGet "dependsOn" fields = Some (JStr label) /\ replacements = [])).
Proof.
  intros Hlabel Htask. exists (replaceInTask label replacements (JObj fields)).
  split; [unfold replaceInDependsOn; by rewrite length_fmap|].
  split; [by rewrite replaceInDependsOn_lookup, Htask|].
  assert (Htruthy : truthy (Some (JStr label)) = true).
  { simpl. by destruct (String.eqb_spec label ""). }
  unfold replaceInTask. cbn [isCommentObject andb getProp].
  split; [|split; [|split]].
  - intros ->. rewrite Htruthy, String.eqb_refl.
    destruct replacements as [|first rest]; simpl.
    + apply assocGet_assocDel.
    + apply assocGet_assocSet.
  - intros other Hother -> ->. cbn [truthy].
    unfold replaceInArray. simpl. rewrite String.eqb_refl. simpl.
    apply assocGet_assocSet.
  - intros -> ->. cbn [truthy].
    unfold replaceInArray. simpl. rewrite String.eqb_refl. simpl.
    apply assocGet_assocSet.
  - destruct (assocGet "dependsOn" fields) as [dependsOn|] eqn:Hd; [|by left].
    destruct (truthy (Some dependsOn)) eqn:Ht.
    2:{ cbn [getProp]. by rewrite Hd. }
    destruct dependsOn as [| | |s|arr|]; cbn [getProp]; try by rewrite Hd.
    + destruct (String.eqb_spec s label) as [->|Hs]; [|cbn; by rewrite Hd].
      destruct replacements as [|first rest]; simpl.
      * intros _. by right.
      * by rewrite assocGet_assocSet.
    + destruct (replaceInArray label replacements arr); cbn [getProp setProp].
      * by rewrite assocGet_assocSet.
      * by rewrite Hd.
Qed.

(** What [replaceInTask] does to a task object whose [dependsOn] is an
    array. *)
Lemma replaceInTask_array (label : string) (replacements : list string)
  (fields : list (string * Json)) (arr : list Json) :
  assocGet "dependsOn" fields = Some (JArr arr) ->
  replaceInTask label replacements (JObj fields) =
  match replaceInArray label replacements arr with
  | Some arr' => JObj (assocSet "dependsOn" (JArr arr') fields)
  | None => JObj fields
  end.
Proof.
  intros Hd. unfold replaceInTask. cbn [isCommentObject andb getProp].
  by rewrite Hd.
Qed.

(** C10 (amended).  For a task object whose [dependsOn] is an array, relabelled
    with at least one replacement:
    - when the array holds both the old label and the first replacement, the
      first occurrence of the old label is removed and nothing is inserted;
    - when the first replacement is not repeated among the replacements, the
      array afterwards holds it at most once, or at most as often as before;
    - when the old label occurs at most once in the array and is not one of
      the replacements, relabelling a second time changes nothing. *)
Theorem replaceInTask_array_no_duplicate (label first : string)
  (rest : list string) (fields : list (string * Json)) (arr : list Json) :
  assocGet "dependsOn" fields = Some (JArr arr) ->
  (0 < occurrences label arr -> 0 < occurrences first arr ->
   getProp (replaceInTask label (first :: rest) (JObj fields)) "dependsOn" =
     Some (JArr (withoutFirst label arr))) /\
  (first ∉ rest ->
   forall arr',
     getProp (replaceInTask label (first :: rest) (JObj fields)) "dependsOn" =
       Some (JArr arr') ->
     occurrences first arr' <= Nat.max 1 (occurrences first arr)) /\
  (occurrences label arr <= 1 -> label ∉ first :: rest ->
   replaceInTask label (first :: rest)
     (replaceInTask label (first :: rest) (JObj fields)) =
   replaceInTask label (first :: rest) (JObj fields)).
Proof.
  intros Hd. rewrite (replaceInTask_array _ _ _ _ Hd).
  unfold replaceInArray.
  destruct (findIndex (isStr label) arr) as [i|] eqn:Hi.
  - destruct (findIndex_splice label (JStr <$> first :: rest) arr i Hi)
      as (before & after & Harr & Hbefore & Hsplice).
    pose proof (findIndex_withoutFirst _ _ _ Hi) as Hwithout.
    destruct (existsb (isStr first) arr) eqn:Hfirst; cbn [negb].
    + (* the first replacement is there: the label is removed *)
      rewrite Hwithout. cbn [getProp]. rewrite assocGet_assocSet.
      split; [done|]. split.
      * intros _ arr' [= <-].
        pose proof (occurrences_withoutFirst_le first label arr). lia.
      * intros Hone _.
        rewrite (replaceInTask_array _ _ _ (withoutFirst label arr))
          by apply assocGet_assocSet.
        unfold replaceInArray.
        assert (Hgone : findIndex (isStr label) (withoutFirst label arr) = None).
        { apply findIndex_None_occurrences.
          rewrite occurrences_withoutFirst_same. lia. }
        by rewrite Hgone.
    + (* it is not: the replacements take the place of the label *)
      apply existsb_occurrences in Hfirst as Hzero.
      rewrite Hsplice. cbn [getProp]. rewrite assocGet_assocSet.
      split; [intros _ Hpos; lia|]. split.
      * intros Hrest arr' [= <-].
        rewrite Harr, occurrences_app in Hzero. simpl in Hzero.
        rewrite occurrences_app. cbn [occurrences isStr].
        rewrite String.eqb_refl, occurrences_app.
        change (list_fmap string Json JStr rest) with (JStr <$> rest).
        rewrite (occurrences_fmap_JStr _ _ Hrest). lia.
      * intros Hone Hnotin.
        rewrite (replaceInTask_array _ _ _ (before ++ (JStr <$> first :: rest) ++ after))
          by apply assocGet_assocSet.
        unfold replaceInArray.
        assert (Hgone : findIndex (isStr label)
                          (before ++ (JStr <$> first :: rest) ++ after) = None).
        { apply findIndex_None_occurrences.
          rewrite !occurrences_app, (occurrences_fmap_JStr _ _ Hnotin), Hbefore.
          rewrite Harr, occurrences_app in Hone. simpl in Hone.
          rewrite String.eqb_refl in Hone. lia. }
        by rewrite Hgone.
  - apply findIndex_None_occurrences in Hi as Hzero.
    split; [intros Hpos; lia|]. split.
    + intros _ arr'. cbn [getProp]. rewrite Hd. intros [= <-]. lia.
    + intros _ _. rewrite (replaceInTask_array _ _ _ _ Hd).
      unfold replaceInArray. by rewrite Hi.
Qed.

End RelabelFacts.

(** * 18. The host of an imported manifest *)

Section GetHostFacts.
Import OfficeAddinGenerator.

Lemma Json_null_or_not (v : Json) : v = JNull \/ v <> JNull.
Proof. destruct v; (by left) || (by right). Qed.

Lemma hostOfScope_Outlook (scope : option Json) : hostOfScope scope = "Outlook".
Proof.
  destruct scope as [[| | |s| |]|]; simpl; try reflexivity.
  by destruct (String.eqb s "mail").
Qed.

(** The scope expression on a manifest that is not [null]: it fails exactly
    when [extensions] is there and has no first element, or [null] as its
    first element. *)
Lemma firstScope_cases (addinManifest : Json) :
  addinManifest <> JNull ->
  let extensions := getProp addinManifest "extensions" in
  if nullish extensions then firstScope addinManifest = Return None
  else
    match first extensions with
    | None =>
        firstScope addinManifest = Throw (typeError Undefined "requirements")
    | Some JNull =>
        firstScope addinManifest = Throw (typeError Null "requirements")
    | Some _ => exists scope, firstScope addinManifest = Return scope
    end.
Proof.
  intros Hnull extensions. unfold firstScope.
  assert (Hmember : member (Some addinManifest) "extensions" = Return extensions)
    by (by destruct addinManifest).
  rewrite Hmember.
  destruct (nullish extensions); [reflexivity|].
  destruct (first extensions) as [[| | | | |extension]|]; cbn [member nullish];
    try reflexivity; try (by eexists).
  destruct (nullish (assocGet "requirements" extension)) eqn:Hreq;
    [by eexists|].
  destruct (assocGet "requirements" extension) as [[| | | | |requirements]|];
    cbn [member nullish] in *; try discriminate; try (by eexists).
  destruct (nullish (assocGet "scopes" requirements)); by eexists.
Qed.

(** C9 (amended).  The [switch] of [getHost] has one effective result:
    whatever the scope expression yields (the string [mail], any other string,
    any other value, [undefined]), the host is [Outlook], and [getHost] never
    returns any other host.  It does not return for every manifest, though:
    for a manifest that loads, [getHost] returns (and then [Outlook]) exactly
    when the manifest is not [null] and its [extensions] are [undefined] or
    [null] or have a first element that is neither [undefined] nor [null]. *)
Theorem getHost_single_host (loadFromPath : string -> Outcome Json)
  (addinManifestPath : string) :
  (forall scope, hostOfScope scope = "Outlook") /\
  (forall host,
     getHost loadFromPath addinManifestPath = Return host -> host = "Outlook") /\
  (forall addinManifest,
     loadFromPath addinManifestPath = Return addinManifest ->
     (getHost loadFromPath addinManifestPath = Return "Outlook" <->
      addinManifest <> JNull /\
      (nullish (getProp addinManifest "extensions") = true \/
       nullish (first (getProp addinManifest "extensions")) = false))).
Proof.
  split; [exact hostOfScope_Outlook|]. unfold getHost. split.
  - intros host. destruct (loadFromPath addinManifestPath) as [m|e]; [|done].
    destruct (firstScope m) as [scope|e]; [|done].
    intros [= <-]. apply hostOfScope_Outlook.
  - intros m ->.
    destruct (Json_null_or_not m) as [->|Hnull]; [by split; [|intros [? _]]|].
    pose proof (firstScope_cases m Hnull) as Hcases. cbn zeta in Hcases.
    destruct (nullish (getProp m "extensions")).
    { rewrite Hcases, hostOfScope_Outlook. split; [|done]. intros _. by split; [|left]. }
    destruct (first (getProp m "extensions")) as [[| | | | |]|].
    1, 7: rewrite Hcases; split; [done|]; by intros [_ [|]].
    all: destruct Hcases as [scope ->]; rewrite hostOfScope_Outlook;
      split; [intros _; by split; [|right]|done].
Qed.

(** A manifest with an empty list of extensions: the scope expression fails
    on [.requirements] before the [switch] is reached.  The message of the
    error names the base that was read. *)
Example firstScope_empty_extensions :
  firstScope (JObj [("extensions", JArr [])])
    = Throw (typeError Undefined "requirements") /\
  firstScope (JObj [("extensions", JArr [JNull])])
    = Throw (ThrownError
               (mkError "TypeError"
                  "Cannot read properties of null (reading 'requirements')")) /\
  firstScope (JObj []) = Return None /\
  firstScope Sample.workbookManifest = Return (Some (JStr "workbook")).
Proof. by repeat split. Qed.

End GetHostFacts.

(** * 19. Synthesized labels *)

Section LabelFacts.
Import TaskMigrations.

Lemma string_app_length_ne (base suffix : string) :
  suffix <> "" -> base +:+ suffix <> base.
Proof.
  intros Hsuffix Heq.
  assert (Hlen : String.length (base +:+ suffix) = String.length base)
    by by rewrite Heq.
  rewrite string_length_app in Hlen. destruct suffix; [done|simpl in Hlen; lia].
Qed.

Lemma labelCandidate_inj (base : string) (n m : nat) :
  labelCandidate base n = labelCandidate base m -> n = m.
Proof.
  destruct n as [|n], m as [|m]; simpl; [done| | |].
  - intros Heq. symmetry in Heq. by apply string_app_length_ne in Heq.
  - intros Heq. by apply string_app_length_ne in Heq.
  - intros Heq. apply String.app_inj in Heq.
    rewrite !string_app_cons, !string_app_nil_l in Heq. injection Heq as Heq.
    apply (inj pretty) in Heq. lia.
Qed.

(** While the search goes on, the candidates left behind are all existing
    labels; there are no more of them than existing labels, so the search
    ends on a free candidate before the fuel is used up. *)
Lemma generateLabel_from_fresh (base : string) (existingLabels : list string)
  (fuel n : nat) :
  (forall k, k < n -> labelCandidate base k ∈ existingLabels) ->
  n + fuel = length existingLabels ->
  generateLabel_from fuel n base existingLabels ∉ existingLabels.
Proof.
  revert n. induction fuel as [|fuel IH]; intros n Hbelow Hfuel; simpl.
  - intros Hin.
    assert (Hsub : labelCandidate base <$> seq 0 (S n) ⊆+ existingLabels).
    { apply NoDup_submseteq.
      - apply NoDup_fmap_2_strong; [|apply NoDup_seq].
        intros ? ? _ _. apply labelCandidate_inj.
      - intros x Hx. apply list_elem_of_fmap in Hx as (k & -> & Hk).
        apply elem_of_seq in Hk. destruct (decide (k = n)) as [->|Hne]; [done|].
        apply Hbelow. lia. }
    apply submseteq_length in Hsub. rewrite length_fmap, length_seq in Hsub. lia.
  - case_bool_decide as Hin; [|done].
    apply IH; [|lia]. intros k Hk.
    destruct (decide (k = n)) as [->|Hne]; [done|]. apply Hbelow. lia.
Qed.

(** A generated label is not an existing label. *)
Lemma generateLabel_fresh (base : string) (existingLabels : list string) :
  generateLabel base existingLabels ∉ existingLabels.
Proof. apply generateLabel_from_fresh; [lia|reflexivity]. Qed.

End LabelFacts.

(** * 20. The bot set-up migration *)

Section SetUpBotFacts.
Import TaskMigrations.
Context `{Externals}.

Lemma replaceInTask_getProp_other (label : string) (replacements : list string)
  (task : Json) (k : string) :
  k <> "dependsOn" ->
  getProp (replaceInTask label replacements task) k = getProp task k.
Proof.
  intros Hk. unfold replaceInTask.
  destruct task as [| | | | |fields]; try reflexivity.
  cbn [isCommentObject andb].
  destruct (truthy (getProp (JObj fields) "dependsOn")); [|reflexivity].
  destruct (getProp (JObj fields) "dependsOn") as [[| | |s|arr|]|]; try reflexivity.
  - destruct (String.eqb s label); [|reflexivity].
    destruct (0 <? length replacements); cbn [getProp setProp deleteProp].
    + by apply assocGet_assocSet_ne.
    + by apply assocGet_assocDel_ne.
  - destruct (replaceInArray label replacements arr); [|reflexivity].
    cbn [getProp setProp]. by apply assocGet_assocSet_ne.
Qed.

Lemma replaceInTask_isCommentObject (label : string) (replacements : list string)
  (task : Json) :
  isCommentObject (replaceInTask label replacements task) = isCommentObject task.
Proof.
  unfold replaceInTask. destruct task as [| | | | |fields]; try reflexivity.
  cbn [isCommentObject andb].
  destruct (truthy (getProp (JObj fields) "dependsOn")); [|reflexivity].
  destruct (getProp (JObj fields) "dependsOn") as [[| | |s|arr|]|]; try reflexivity.
  - destruct (String.eqb s label); [|reflexivity].
    by destruct (0 <? length replacements).
  - by destruct (replaceInArray label replacements arr).
Qed.

Lemma replaceInTask_isSetUpBotTask (label : string) (replacements : list string)
  (task : Json) :
  isSetUpBotTask (replaceInTask label replacements task) = isSetUpBotTask task.
Proof.
  unfold isSetUpBotTask, propIs.
  rewrite replaceInTask_isCommentObject.
  by rewrite !replaceInTask_getProp_other.
Qed.

Lemma splice_remove_insert_two {A} (l : list A) (i : nat) (a b : A) :
  i < length l ->
  splice (i + 1) 0 [b] (splice i 0 [a] (splice i 1 [] l)) =
  take i l ++ [a; b] ++ drop (S i) l.
Proof.
  intros Hi. unfold splice. rewrite !Nat.add_0_r, Nat.add_1_r. cbn [app].
  assert (Hlen : length (take i l) = i) by (rewrite length_take; lia).
  rewrite (take_app_length' (take i l)) by done.
  rewrite (drop_app_length' (take i l)) by done.
  change (take i l ++ a :: drop (S i) l)
    with (take i l ++ [a] ++ drop (S i) l).
  rewrite (app_assoc (take i l) [a]).
  assert (Hlen' : length (take i l ++ [a]) = S i)
    by (rewrite length_app; simpl; lia).
  rewrite (take_app_length' (take i l ++ [a])) by done.
  rewrite (drop_app_length' (take i l ++ [a])) by done.
  by rewrite <- app_assoc.
Qed.

(** What [handleProvisionAndDeploy] does to the task array: the task at
    [index] is removed, no task or the two helper tasks are put in its place,
    every task is relabelled, and the returned index is the one behind the
    inserted tasks.  The world and the legacy settings stay as they are. *)
Lemma handleProvisionAndDeploy_tasks (context : DebugMigrationContext)
  (index : nat) (label : string) :
  index < length (tasks context) ->
  exists inserted replacements,
    tasks (handleProvisionAndDeploy context index label).1 =
      replaceInTask label replacements <$>
        (take index (tasks context) ++ inserted ++ drop (S index) (tasks context)) /\
    (handleProvisionAndDeploy context index label).2 = index + length inserted /\
    length inserted <= 2 /\
    migrationContext (handleProvisionAndDeploy context index label).1 =
      migrationContext context /\
    oldProjectSettings (handleProvisionAndDeploy context index label).1 =
      oldProjectSettings context.
Proof.
  intros Hindex. unfold handleProvisionAndDeploy.
  destruct (find (fun value => startsWith value "Create resources")
              (generatedLabels context)) as [before|].
  - exists []. eexists. cbn [fst snd length tasks withTasks
      withGeneratedLabels migrationContext oldProjectSettings app].
    split; [|split; [lia|split; [lia|done]]].
    unfold replaceInDependsOn, splice. by rewrite Nat.add_1_r.
  - eexists [_; _]. eexists. cbn [fst snd length tasks withTasks
      withGeneratedLabels migrationContext oldProjectSettings].
    split; [|split; [lia|split; [lia|done]]].
    unfold replaceInDependsOn. f_equal.
    by apply splice_remove_insert_two.
Qed.

Lemma botSetUpTask_relabelled (label : string) (replacements : list string)
  (task : Json) (args : option Json) :
  botSetUpTask task args ->
  botSetUpTask (replaceInTask label replacements task) args.
Proof.
  intros (Hbot & Hlabel & Hargs). unfold botSetUpTask.
  rewrite replaceInTask_isSetUpBotTask.
  by rewrite !replaceInTask_getProp_other.
Qed.

(** The loop only adds to the log. *)
Lemma migrateSetUpBot_loop_log (fuel index : nat) (context : DebugMigrationContext) :
  exists later,
    log (migrationContext (migrateSetUpBot_loop fuel index context)) =
    log (migrationContext context) ++ later.
Proof.
  revert index context. induction fuel as [|fuel IH]; intros index context.
  { exists []. by rewrite app_nil_r. }
  cbn [migrateSetUpBot_loop].
  destruct (tasks context !! index) as [task|] eqn:Htask;
    [|exists []; by rewrite app_nil_r].
  destruct (isSetUpBotTask task); cbn [negb]; [|apply IH].
  destruct (asString (getProp task "label")) as [label|]; [|apply IH].
  set (context2 := updateLocalEnv _ _).
  assert (Hindex : index < length (tasks context2))
    by (apply lookup_lt_is_Some; by eexists).
  destruct (handleProvisionAndDeploy_tasks context2 index label Hindex)
    as (inserted & replacements & _ & _ & _ & Hworld & _).
  destruct (handleProvisionAndDeploy context2 index label) as [context3 index'].
  destruct (IH index' context3) as [later Hlater].
  rewrite Hlater. simpl in Hworld. rewrite Hworld. simpl.
  eexists. by rewrite <- app_assoc.
Qed.

(** Every bot set-up task from [index] on is reached by the loop, and its
    environment entries are handed to [updateLocalEnv]. *)
Lemma migrateSetUpBot_loop_emits (fuel : nat) :
  forall (context : DebugMigrationContext) (index j : nat) (task : Json)
    (args : option Json),
    length (tasks context) - index <= fuel ->
    index <= j ->
    tasks context !! j = Some task ->
    botSetUpTask task args ->
    exists before after,
      log (migrationContext (migrateSetUpBot_loop fuel index context)) =
      before ++
      UpdateLocalEnv
        (setUpBotEnvs (processEnv (project (migrationContext context)))
           (projectId (oldProjectSettings context)) args) :: after.
Proof.
  induction fuel as [|fuel IH]; intros context index j task args Hfuel Hj Htask Hbot.
  { apply lookup_lt_Some in Htask. lia. }
  cbn [migrateSetUpBot_loop].
  destruct (tasks context !! index) as [task0|] eqn:Htask0.
  2:{ apply lookup_ge_None in Htask0. apply lookup_lt_Some in Htask. lia. }
  assert (Hskip : j <> index ->
    exists before after,
      log (migrationContext (migrateSetUpBot_loop fuel (S index) context)) =
      before ++
      UpdateLocalEnv
        (setUpBotEnvs (processEnv (project (migrationContext context)))
           (projectId (oldProjectSettings context)) args) :: after).
  { intros Hne. apply (IH context (S index) j task args); [lia|lia|done|done]. }
  destruct Hbot as (Hisbot & Hlabel & Hargs).
  destruct (isSetUpBotTask task0) eqn:Hbot0; cbn [negb].
  2:{ apply Hskip. intros ->. congruence. }
  destruct (asString (getProp task0 "label")) as [label|] eqn:Hlabel0.
  2:{ apply Hskip. intros ->. rewrite Htask0 in Htask. injection Htask as ->.
      rewrite Hlabel0 in Hlabel. by destruct Hlabel. }
  set (context2 := updateLocalEnv _ _).
  assert (Hindex : index < length (tasks context2))
    by (apply lookup_lt_is_Some; by eexists).
  destruct (handleProvisionAndDeploy_tasks context2 index label Hindex)
    as (inserted & replacements & Htasks3 & Hindex' & _ & Hworld & Hsettings).
  destruct (handleProvisionAndDeploy context2 index label) as [context3 index'].
  cbn [fst snd] in *.
  destruct (decide (j = index)) as [->|Hne].
  - (* the task of this round *)
    rewrite Htask0 in Htask. injection Htask as ->.
    destruct (migrateSetUpBot_loop_log fuel index' context3) as [later ->].
    rewrite Hworld. subst context2. cbn. rewrite Hargs.
    eexists _, later. by rewrite <- app_assoc.
  - (* a task behind it: relabelled and moved, it is still a bot set-up task *)
    assert (Htask3 : tasks context3 !! (index' + (j - S index)) =
                     Some (replaceInTask label replacements task)).
    { rewrite Htasks3, list_lookup_fmap.
      assert (Hlen : length (take index (tasks context)) = index).
      { rewrite length_take. apply lookup_lt_Some in Htask0. lia. }
      rewrite lookup_app_r by (subst context2; cbn; lia).
      rewrite lookup_app_r by (subst context2; cbn; lia).
      subst context2. cbn [tasks updateLocalEnv withWorld withAppYmlConfig].
      rewrite lookup_drop.
      replace (S index + (index' + (j - S index) - length (take index (tasks context))
                 - length inserted)) with j by lia.
      by rewrite Htask. }
    destruct (IH context3 index' (index' + (j - S index))
                (replaceInTask label replacements task) args)
      as (before & after & Hlog).
    + rewrite Htasks3, length_fmap, !length_app, length_take, length_drop.
      subst context2. cbn [tasks updateLocalEnv withWorld withAppYmlConfig].
      apply lookup_lt_Some in Htask0. lia.
    + lia.
    + exact Htask3.
    + apply botSetUpTask_relabelled. by repeat split.
    + rewrite Hlog, Hworld, Hsettings. subst context2. cbn. by eexists _, _.
Qed.

Lemma envGet_envSet (k v : string) (envs : list (string * string)) :
  envGet k (envSet k v envs) = Some v.
Proof.
  induction envs as [|[k' v'] envs IH]; simpl.
  - by rewrite String.eqb_refl.
  - destruct (String.eqb k' k) eqn:Hk; simpl; by rewrite Hk.
Qed.

Lemma envGet_envSet_ne (k k' v : string) (envs : list (string * string)) :
  k <> k' -> envGet k' (envSet k v envs) = envGet k' envs.
Proof.
  intros Hne. induction envs as [|[k0 v0] envs IH]; simpl.
  - by destruct (String.eqb_spec k k').
  - destruct (String.eqb_spec k0 k) as [->|Hk0]; simpl.
    + by destruct (String.eqb_spec k k').
    + by rewrite IH.
Qed.

Lemma stripLast_app (c : ascii) (name : string) :
  stripLast c (name +:+ String c "") = Some name.
Proof.
  induction name as [|a name IH].
  - rewrite string_app_nil_l. cbn [stripLast]. by rewrite Ascii.eqb_refl.
  - rewrite string_app_cons. cbn [stripLast].
    destruct (name +:+ String c "") eqn:Hname.
    + destruct name; discriminate Hname.
    + by rewrite IH.
Qed.

(** The expression for references to the environment reads back what was
    written in that form. *)
Lemma envReference_of_name (name : string) :
  hasLineTerminator name = false ->
  envReference ("${env:" +:+ name +:+ "}") = Some name.
Proof.
  intros Hname. unfold envReference.
  rewrite stripPrefix_app, stripLast_app. by rewrite Hname.
Qed.




(** Texts that are no references: a text with a line terminator of any of the
    four kinds between the braces, and a text without the closing brace. *)
Example envReference_line_terminators :
  envReference ("${env:A" +:+ lineSeparator +:+ "B}") = None /\
  envReference ("${env:A" +:+ paragraphSeparator +:+ "B}") = None /\
  envReference ("${env:A" +:+ lineFeed +:+ "B}") = None /\
  envReference ("${env:A" +:+ carriageReturn +:+ "B}") = None /\
  envReference "${env:FOO" = None /\
  envReference "${env:FOO}" = Some "FOO".
Proof. by repeat split. Qed.


(** When the labels of the two helper tasks have been generated before,
    [handleProvisionAndDeploy] inserts no task and uses the cached labels. *)
Lemma handleProvisionAndDeploy_cached (context : DebugMigrationContext)
  (index : nat) (label createResourcesLabel setUpLocalProjectsLabel : string) :
  find (fun value => startsWith value "Create resources")
    (generatedLabels context) = Some createResourcesLabel ->
  find (fun value => startsWith value "Set up local projects")
    (generatedLabels context) = Some setUpLocalProjectsLabel ->
  handleProvisionAndDeploy context index label =
  (withGeneratedLabels (generatedLabels context)
     (withTasks
        (replaceInDependsOn label (splice index 1 [] (tasks context))
           [createResourcesLabel; setUpLocalProjectsLabel]) context),
   index).
Proof. unfold handleProvisionAndDeploy. by intros -> ->. Qed.

End SetUpBotFacts.

(** * 21. The states step *)

Section StatesFacts.
Import ProjectMigratorV3.

(** Without the legacy states folder the step succeeds and changes
    nothing. *)
Lemma statesMigration_without_states_folder `{Externals} (w : World) :
  entryAt w statesFolder = None -> statesMigration w = (Return tt, w).
Proof.
  intros Hnone. unfold statesMigration, fsPathExists.
  by rewrite (bind_Return _ _ _ _ _ (pathExists_None _ _ Hnone)).
Qed.

(** The expression is not anchored: it matches inside a longer name. *)
Lemma execStateFileRegex_inside_name :
  execStateFileRegex "state.dev.json" = Some "dev" /\
  execStateFileRegex "state.dev.json.bak" = Some "dev" /\
  execStateFileRegex "state.my-env.json" = None.
Proof. by vm_compute. Qed.

Lemma forOf_singleton {A} (body : A -> Async unit) (x : A) (w : World) :
  forOf [x] body w = body x w.
Proof. cbn [forOf]. apply bind_ret_unit. Qed.

(** C5 at a states folder that holds only [state.dev.json.bak]: there is no
    state file of the environment [dev] and no [.env.dev] in the settings
    folder, and after the step, whatever the collaborators do and whether the
    step returns or throws, [.env.dev] exists in the settings folder. *)
Theorem statesMigration_stray_file_name `{Externals} :
  let result := statesMigration Sample.strayStates in
  entryAt Sample.strayStates (statesFolder ++ ["state.dev.json"]) = None /\
  entryAt Sample.strayStates [SettingsFolderName; ".env.dev"] = None /\
  is_Some (entryAt result.2 [SettingsFolderName; ".env.dev"]).
Proof.
  cbv zeta. split; [vm_compute; reflexivity|]. split.
  { unfold entryAt, Sample.strayStates, Sample.world. simpl.
    rewrite !lookup_insert_ne by (intros [=]). apply lookup_empty. }
  unfold statesMigration, fsPathExists.
  assert (Hexists : pathExists statesFolder Sample.strayStates
                    = (Return true, Sample.strayStates))
    by (vm_compute; reflexivity).
  assert (Hnames : fsReadDirSync statesFolder Sample.strayStates
                   = (Return ["state.dev.json.bak"], Sample.strayStates))
    by (vm_compute; reflexivity).
  rewrite (bind_Return _ _ _ _ _ Hexists), (bind_Return _ _ _ _ _ Hnames).
  rewrite forOf_singleton. unfold migrateStateFile.
  replace (execStateFileRegex "state.dev.json.bak") with (Some "dev")
    by (vm_compute; reflexivity).
  change (".env." +:+ "dev") with ".env.dev".
  destruct (fsEnsureDir_run [SettingsFolderName] Sample.strayStates)
    as (w1 & Hensure & _ & _).
  destruct (fsCreateFile_run [SettingsFolderName; ".env.dev"] w1)
    as (w2 & Hcreate & _ & Hcreated).
  rewrite (bind_Return _ _ _ _ _ Hensure), (bind_Return _ _ _ _ _ Hcreate).
  assert (Hw2 : is_Some (entryAt w2 [SettingsFolderName; ".env.dev"]))
    by (rewrite Hcreated; by eexists).
  unfold bind at 1.
  destruct (readStateFile (project w2) _) as [[stateObject|]|e]; [|done|done].
  destruct (truthy (Some stateObject)); [|done].
  unfold bind at 1.
  destruct (readBicepContent (project w2)) as [bicepContent|e]; [|done].
  destruct (fsWriteFile_changes [SettingsFolderName; ".env.dev"]
              (jsonObjectNamesConvertV3 stateObject "state." STATE bicepContent) w2)
    as (w3 & Hwrite & _ & Hwritten).
  rewrite Hwrite. cbn [snd]. rewrite Hwritten. by eexists.
Qed.

End StatesFacts.

(** * 22. The helper tasks of one run *)

Section HelperTaskFacts.
Import TaskMigrations.

(** C6 at a task list with a bot set-up task and a pre-debug-check task: the
    bot set-up migration generates the helper tasks [Create resources] and
    [Set up local projects] and caches their labels; the pre-debug-check
    migration of the same run asks for the same helper tasks, does not look
    into the cache, and generates a second pair under other labels. *)
Theorem helper_tasks_generated_twice :
  let context :=
    migratePreDebugCheck (H := Sample.externals)
      (migrateSetUpBot (H := Sample.externals)
         (Sample.debugContext [Sample.botTask "secret"; Sample.preDebugCheckTask])) in
  getLabels (tasks context) =
    [ "Create resources"; "Set up local projects"; "Pre debug check";
      "Create resources#2"; "Set up local projects#2" ] /\
  generatedLabels context = [ "Create resources"; "Set up local projects" ].
Proof. by vm_compute. Qed.

End HelperTaskFacts.

(** * 23. The statements at concrete inputs *)

Section Instances.
Import ProjectMigratorV3 TaskMigrations OfficeAddinGenerator LaunchJsonSpec.

(** C1, as the claim states it, fails: a plain [Error] thrown by the
    migration reaches the caller as it was thrown, and not as a classified
    error; the classified one went to telemetry. *)
Lemma wrapRunMigration_rethrows_unclassified :
  let result :=
    wrapRunMigration (H := Sample.externals) (throw (ThrownError Sample.boom))
      (Sample.world []) in
  result.1 = Throw (ThrownError Sample.boom) /\
  (forall fxError, result.1 <> Throw (ThrownFx fxError)) /\
  In (SendTelemetryErrorEvent "core" ProjectMigratorV3Error
        (SystemError (mkFxErrorInfo (Some Sample.boom) "core" "UnhandledError"
                        "boom" "boom")) [])
     (log result.2).
Proof. vm_compute. split; [done|]. split; [done|tauto]. Qed.

Lemma wrapRunMigration_rolls_back_then_rethrows_witness :
  exists error fxError w',
    wrapRunMigration (H := Sample.externals) (throw (ThrownError Sample.boom))
      (Sample.world []) = (Throw error, w') /\
    log w' =
      [ SendTelemetryEvent "core" ProjectMigratorMigrateStartV3 None ] ++
      [ SendTelemetryErrorEvent "core" ProjectMigratorV3Error fxError [];
        ContextCall CleanModifiedPaths;
        ContextCall RestoreBackup;
        ContextCall CleanTeamsfx ] /\
    project w' = project (Sample.world []) /\
    error = ThrownError Sample.boom /\
    fxError = unhandledError (H := Sample.externals) Sample.boom.
Proof.
  apply (wrapRunMigration_rolls_back_then_rethrows (H := Sample.externals)
           (throw (ThrownError Sample.boom)) (Sample.world [])
           (emit (SendTelemetryEvent "core" ProjectMigratorMigrateStartV3 None)
              (Sample.world []))
           (ThrownError Sample.boom)); [reflexivity|discriminate].
Defined.

(** C2, as the claim states it, fails: the array that held only the label is
    empty after a relabelling without replacements, and the key is still
    there. *)
Lemma replaceInDependsOn_keeps_empty_array :
  replaceInDependsOn "A" [Sample.dependentTask (JArr [JStr "A"])] [] =
    [Sample.dependentTask (JArr [])] /\
  getProp (Sample.dependentTask (JArr [])) "dependsOn" <> None.
Proof. split; [reflexivity|discriminate]. Qed.

Lemma replaceInDependsOn_relabels_witness :
  exists task',
    replaceInDependsOn "A" [Sample.dependentTask (JStr "A")] ["X"; "Y"] !! 0
      = Some task' /\
    getProp task' "dependsOn" = Some (JArr [JStr "X"; JStr "Y"]).
Proof.
  destruct (replaceInDependsOn_relabels "A" ["X"; "Y"]
              [Sample.dependentTask (JStr "A")] 0
              [("label", JStr "B"); ("dependsOn", JStr "A")])
    as (task' & _ & Htask' & Hstring & _); [discriminate|reflexivity|].
  exists task'. split; [exact Htask'|]. apply Hstring. reflexivity.
Defined.

(** C10, as the claim states it, fails: in an array that holds the old label
    twice, the second relabelling removes the second occurrence. *)
Lemma replaceInTask_twice_differs :
  let task := Sample.dependentTask (JArr [JStr "A"; JStr "A"; JStr "X"]) in
  replaceInTask "A" ["X"] task = Sample.dependentTask (JArr [JStr "A"; JStr "X"]) /\
  replaceInTask "A" ["X"] (replaceInTask "A" ["X"] task)
    = Sample.dependentTask (JArr [JStr "X"]) /\
  replaceInTask "A" ["X"] (replaceInTask "A" ["X"] task)
    <> replaceInTask "A" ["X"] task.
Proof. split; [reflexivity|]. split; [reflexivity|discriminate]. Qed.

Lemma replaceInTask_array_no_duplicate_witness :
  let task := Sample.dependentTask (JArr [JStr "A"; JStr "X"]) in
  getProp (replaceInTask "A" ["X"; "Y"] task) "dependsOn" = Some (JArr [JStr "X"]) /\
  replaceInTask "A" ["X"; "Y"] (replaceInTask "A" ["X"; "Y"] task)
    = replaceInTask "A" ["X"; "Y"] task.
Proof.
  destruct (replaceInTask_array_no_duplicate "A" "X" ["Y"]
              [("label", JStr "B"); ("dependsOn", JArr [JStr "A"; JStr "X"])]
              [JStr "A"; JStr "X"] eq_refl) as (Hremoved & _ & Htwice).
  split.
  - apply Hremoved; simpl; lia.
  - apply Htwice; [simpl; lia|].
    intros Hin. apply elem_of_cons in Hin as [[=]|Hin].
    apply elem_of_cons in Hin as [[=]|Hin]. by apply elem_of_nil in Hin.
Defined.



(** C9, as the claim states it, fails: for a manifest with an empty list of
    extensions [getHost] returns no host at all; it throws the [TypeError] of
    reading [requirements] of [undefined]. *)
Lemma getHost_throws_on_empty_extensions :
  let result :=
    getHost (fun _ => Return (JObj [("extensions", JArr [])])) "manifest.json" in
  result = Throw (ThrownError
                    (mkError "TypeError"
                       "Cannot read properties of undefined (reading 'requirements')")) /\
  result <> Return "Outlook".
Proof. split; [reflexivity|discriminate]. Qed.

Lemma getHost_single_host_witness :
  getHost (fun _ => Return Sample.workbookManifest) "manifest.json"
    = Return "Outlook".
Proof.
  apply (proj2 (proj2 (getHost_single_host
                         (fun _ => Return Sample.workbookManifest) "manifest.json"))
           Sample.workbookManifest eq_refl).
  split; [discriminate|]. right. reflexivity.
Defined.

Lemma replacePlaceholderForManifests_witness :
  exists w',
    replacePlaceholderForManifests (H := Sample.externals) Sample.withoutAadManifest
      = (Return tt, w') /\
    entryAt w' manifestPath = Some (File "{ manifest }") /\
    entryAt w' aadManifestPath = entryAt Sample.withoutAadManifest aadManifestPath /\
    (aadManifestPath ∈ modifiedPaths (project w') ->
     aadManifestPath ∈ modifiedPaths (project Sample.withoutAadManifest)).
Proof.
  apply (proj1 (proj2 (proj2 (proj2 (proj2
           (replacePlaceholderForManifests_required_and_optional
              (H := Sample.externals) Sample.withoutAadManifest)))))
           "bicep" "{ manifest }").
  - by eexists.
  - reflexivity.
  - reflexivity.
  - reflexivity.
Defined.

(** The launch configuration of the sample project after the step. *)
Example updateLaunchJson_sample :
  let result := updateLaunchJson Sample.withLaunchJson in
  result.1 = Return tt /\
  entryAt result.2 launchJsonPath =
    Some (File "url: ${dev:teamsAppId} / ${local:teamsAppId} / ${other}").
Proof. vm_compute. split; reflexivity. Qed.

End Instances.

(** * 24. The launch configuration after the step *)

Section LaunchJsonAfter.
Import ProjectMigratorV3 LaunchJsonSpec Predicates.

Lemma includes_cons (c : ascii) (s t : string) :
  includes (String c s) t =
  match stripPrefix t (String c s) with
  | Some _ => true
  | None => includes s t
  end.
Proof. reflexivity. Qed.

Lemma includes_cons_false (c : ascii) (s t : string) :
  includes (String c s) t = false ->
  stripPrefix t (String c s) = None /\ includes s t = false.
Proof.
  rewrite includes_cons. by destruct (stripPrefix t (String c s)).
Qed.

(** A pattern that does not occur is not replaced. *)
Lemma replaceAll_absent (pat rep s : string) :
  includes s pat = false -> replaceAll pat rep s = s.
Proof.
  induction s as [|c s IH]; [reflexivity|]. intros Hs.
  apply includes_cons_false in Hs as [Hhere Hlater].
  rewrite replaceAll_copy by done. by rewrite IH.
Qed.

(** What does not start with a legacy token before the three replacements
    does not start with one after them. *)
Lemma legacyToken_not_completed (token : string) (c : ascii) (s : string) :
  token ∈ legacyTokens ->
  stripPrefix token (String c s) = None ->
  stripPrefix token (String c (rewriteLaunchJson s)) = None.
Proof.
  intros Hin Hnone. unfold rewriteLaunchJson.
  assert (Hcases : token = "${teamsAppId}" \/ token = "${localTeamsAppId}"
                   \/ token = "${localTeamsAppInternalId}").
  { unfold legacyTokens, tokenTable in Hin. cbn in Hin.
    repeat (apply elem_of_cons in Hin as [->|Hin]; [tauto|]).
    by apply elem_of_nil in Hin. }
  destruct Hcases as [->|[->| ->]];
    rewrite stripPrefix_cons in *;
    (destruct (Ascii.eqb "$" c); [|done]);
    repeat (apply stripPrefix_replaceAll_None; [reflexivity|]); done.
Qed.

Lemma tokenAt_None_inv (c : ascii) (s : string) :
  tokenAt tokenTable (String c s) = None ->
  forall token, token ∈ legacyTokens -> stripPrefix token (String c s) = None.
Proof.
  unfold tokenTable. cbn [tokenAt]. intros Hnone token Hin.
  destruct (stripPrefix "${teamsAppId}" (String c s)) eqn:H1; [discriminate|].
  destruct (stripPrefix "${localTeamsAppId}" (String c s)) eqn:H2; [discriminate|].
  destruct (stripPrefix "${localTeamsAppInternalId}" (String c s)) eqn:H3;
    [discriminate|].
  unfold legacyTokens, tokenTable in Hin. cbn in Hin.
  repeat (apply elem_of_cons in Hin as [->|Hin]; [done|]).
  by apply elem_of_nil in Hin.
Qed.

Lemma tokenAt_Some_inv (s replacement rest : string) :
  tokenAt tokenTable s = Some (replacement, rest) ->
  replacement ∈ tokenTable.*2.
Proof.
  unfold tokenTable. cbn [tokenAt].
  destruct (stripPrefix "${teamsAppId}" s);
    [intros [= <- _]; cbn; rewrite !elem_of_cons; tauto|].
  destruct (stripPrefix "${localTeamsAppId}" s);
    [intros [= <- _]; cbn; rewrite !elem_of_cons; tauto|].
  destruct (stripPrefix "${localTeamsAppInternalId}" s); [|discriminate].
  intros [= <- _]. cbn. rewrite !elem_of_cons. tauto.
Qed.

Local Ltac skip_replacement :=
  repeat rewrite string_app_cons; rewrite ?string_app_nil_l;
  repeat (rewrite includes_cons; cbn [stripPrefix Ascii.eqb Bool.eqb]);
  reflexivity.

(** A legacy token does not start inside a replacement. *)
Lemma includes_after_replacement (replacement token x : string) :
  replacement ∈ tokenTable.*2 -> token ∈ legacyTokens ->
  includes (replacement +:+ x) token = includes x token.
Proof.
  intros Hr Ht.
  assert (Hrs : replacement = "${dev:teamsAppId}" \/ replacement = "${local:teamsAppId}"
                \/ replacement = "${local:teamsAppInternalId}").
  { unfold tokenTable in Hr. cbn in Hr.
    repeat (apply elem_of_cons in Hr as [->|Hr]; [tauto|]).
    by apply elem_of_nil in Hr. }
  assert (Hts : token = "${teamsAppId}" \/ token = "${localTeamsAppId}"
                \/ token = "${localTeamsAppInternalId}").
  { unfold legacyTokens, tokenTable in Ht. cbn in Ht.
    repeat (apply elem_of_cons in Ht as [->|Ht]; [tauto|]).
    by apply elem_of_nil in Ht. }
  destruct Hrs as [->|[->| ->]]; destruct Hts as [->|[->| ->]]; skip_replacement.
Qed.

Local Ltac legacy_token :=
  unfold legacyTokens, tokenTable; cbn; rewrite !elem_of_cons; tauto.

Lemma rewriteLaunchJson_token (s replacement rest : string) :
  tokenAt tokenTable s = Some (replacement, rest) ->
  rewriteLaunchJson s = replacement +:+ rewriteLaunchJson rest.
Proof.
  intros Htok. rewrite !rewriteLaunchJson_substituteTokens.
  by apply substituteTokens_token.
Qed.

Lemma rewriteLaunchJson_no_token (token : string) (s : string) :
  token ∈ legacyTokens -> includes (rewriteLaunchJson s) token = false.
Proof.
  intros Hin. remember (String.length s) as n eqn:Hn. revert s Hn.
  induction n as [n IH] using lt_wf_ind. intros s ->.
  destruct s as [|c s].
  { unfold legacyTokens, tokenTable in Hin. cbn in Hin.
    repeat (apply elem_of_cons in Hin as [->|Hin]; [reflexivity|]).
    by apply elem_of_nil in Hin. }
  destruct (tokenAt tokenTable (String c s)) as [[r rest]|] eqn:Htok.
  - rewrite (rewriteLaunchJson_token _ _ _ Htok).
    rewrite (includes_after_replacement r token _
               (tokenAt_Some_inv _ _ _ Htok) Hin).
    apply (IH (String.length rest)); [by eapply tokenAt_shorter|reflexivity].
  - rewrite (rewriteLaunchJson_copy _ _ Htok), includes_cons.
    rewrite (legacyToken_not_completed token c s Hin
               (tokenAt_None_inv c s Htok token Hin)).
    apply (IH (String.length s)); [simpl; lia|reflexivity].
Qed.

Lemma rewriteLaunchJson_unchanged (s : string) :
  (forall token, token ∈ legacyTokens -> includes s token = false) ->
  rewriteLaunchJson s = s.
Proof.
  intros Hnone. unfold rewriteLaunchJson.
  rewrite (replaceAll_absent "${teamsAppId}") by (apply Hnone; legacy_token).
  rewrite (replaceAll_absent "${localTeamsAppId}") by (apply Hnone; legacy_token).
  apply replaceAll_absent. apply Hnone. legacy_token.
Qed.

(** X1.  After the three replacements of [updateLaunchJson] none of the
    legacy tokens [${teamsAppId}], [${localTeamsAppId}] and
    [${localTeamsAppInternalId}] occurs in the text, whatever the text was. *)
Theorem rewriteLaunchJson_leaves_no_legacy_token (launchJsonContent : string) :
  includes (rewriteLaunchJson launchJsonContent) "${teamsAppId}" = false /\
  includes (rewriteLaunchJson launchJsonContent) "${localTeamsAppId}" = false /\
  includes (rewriteLaunchJson launchJsonContent) "${localTeamsAppInternalId}" = false.
Proof.
  repeat split; apply rewriteLaunchJson_no_token; legacy_token.
Qed.

(** X2.  A text in which none of the three legacy tokens occurs comes out of
    the three replacements as it went in. *)
Theorem rewriteLaunchJson_without_tokens (launchJsonContent : string) :
  includes launchJsonContent "${teamsAppId}" = false ->
  includes launchJsonContent "${localTeamsAppId}" = false ->
  includes launchJsonContent "${localTeamsAppInternalId}" = false ->
  rewriteLaunchJson launchJsonContent = launchJsonContent.
Proof.
  intros H1 H2 H3. apply rewriteLaunchJson_unchanged. intros token Hin.
  unfold legacyTokens, tokenTable in Hin. cbn in Hin.
  repeat (apply elem_of_cons in Hin as [->|Hin]; [done|]).
  by apply elem_of_nil in Hin.
Qed.

Lemma rewriteLaunchJson_without_tokens_witness :
  rewriteLaunchJson "url: ${dev:teamsAppId} / ${other}"
    = "url: ${dev:teamsAppId} / ${other}".
Proof.
  apply (rewriteLaunchJson_without_tokens "url: ${dev:teamsAppId} / ${other}");
    reflexivity.
Defined.

(** X3.  [updateLaunchJson] is idempotent: the text it writes is a fixed point
    of the three replacements, and on a project with a launch configuration a
    second run of the step succeeds and leaves every file as the first run
    left it. *)
Theorem updateLaunchJson_twice (w : World) (content : string) :
  entryAt w launchJsonPath = Some (File content) ->
  rewriteLaunchJson (rewriteLaunchJson content) = rewriteLaunchJson content /\
  exists w1 w2,
    updateLaunchJson w = (Return tt, w1) /\
    updateLaunchJson w1 = (Return tt, w2) /\
    entryAt w1 launchJsonPath = Some (File (rewriteLaunchJson content)) /\
    files (project w2) = files (project w1).
Proof.
  intros Hentry.
  assert (Hfix : rewriteLaunchJson (rewriteLaunchJson content)
                 = rewriteLaunchJson content).
  { apply rewriteLaunchJson_unchanged. intros token Hin.
    by apply rewriteLaunchJson_no_token. }
  split; [exact Hfix|].
  assert (Hrun : forall w0 text,
    entryAt w0 launchJsonPath = Some (File text) ->
    exists w', updateLaunchJson w0 = (Return tt, w') /\
      files (project w') =
        <[projectPath (project w0) ++ launchJsonPath := File (rewriteLaunchJson text)]>
          (files (project w0)) /\
      projectPath (project w') = projectPath (project w0)).
  { intros w0 text Hw0.
    destruct (backup_Some _ _ _ Hw0) as (wb & Hb & Hf1 & Hp1 & _ & _).
    assert (Hwb : entryAt wb launchJsonPath = Some (File text)).
    { unfold entryAt in *. by rewrite Hf1, Hp1. }
    destruct (fsWriteFile_run launchJsonPath (rewriteLaunchJson text) wb)
      as (w' & Hw & Hf2 & Hp2 & _ & _).
    exists w'. split; [|split].
    - unfold updateLaunchJson.
      rewrite (bind_Return _ _ _ _ _ (pathExists_Some _ _ _ Hw0)).
      rewrite (bind_Return _ _ _ _ _ Hb).
      by rewrite (bind_Return _ _ _ _ _ (readFile_File _ _ _ Hwb)).
    - by rewrite Hf2, Hp1, Hf1.
    - by rewrite Hp2, Hp1. }
  destruct (Hrun w content Hentry) as (w1 & Hrun1 & Hfiles1 & Hpath1).
  assert (Hentry1 : entryAt w1 launchJsonPath
                    = Some (File (rewriteLaunchJson content))).
  { unfold entryAt. by rewrite Hfiles1, Hpath1, lookup_insert_eq. }
  destruct (Hrun w1 _ Hentry1) as (w2 & Hrun2 & Hfiles2 & Hpath2).
  exists w1, w2. repeat split; [done|done|done|].
  rewrite Hfiles2, Hfix. apply insert_id. exact Hentry1.
Qed.

Lemma updateLaunchJson_twice_witness :
  rewriteLaunchJson
    (rewriteLaunchJson "url: ${teamsAppId} / ${localTeamsAppId} / ${other}")
  = rewriteLaunchJson "url: ${teamsAppId} / ${localTeamsAppId} / ${other}".
Proof.
  apply (updateLaunchJson_twice Sample.withLaunchJson
           "url: ${teamsAppId} / ${localTeamsAppId} / ${other}").
  vm_compute. reflexivity.
Defined.

End LaunchJsonAfter.

(** * 25. The names of the state files *)

Section StateFileNames.
Import ProjectMigratorV3 Predicates.

Lemma spanWord_app (env : string) (c : ascii) (rest : string) :
  isWord env = true -> isWordChar c = false ->
  spanWord (env +:+ String c rest) = (env, String c rest).
Proof.
  intros Henv Hc. induction env as [|a env IH].
  - rewrite string_app_nil_l. cbn [spanWord]. by rewrite Hc.
  - cbn [isWord] in Henv. apply andb_true_iff in Henv as [Ha Henv].
    rewrite string_app_cons. cbn [spanWord]. by rewrite Ha, IH.
Qed.

Lemma spanWord_spec (s w rest : string) :
  spanWord s = (w, rest) -> s = w +:+ rest /\ isWord w = true.
Proof.
  revert w rest. induction s as [|a s IH]; intros w rest; cbn [spanWord].
  - by intros [= <- <-].
  - destruct (isWordChar a) eqn:Ha; [|by intros [= <- <-]].
    destruct (spanWord s) as [w' rest'] eqn:Hspan. intros [= <- <-].
    destruct (IH w' rest' eq_refl) as [-> Hw]. split; [done|].
    cbn [isWord]. by rewrite Ha.
Qed.

Lemma matchStateFileAt_name (env post : string) :
  isWord env = true ->
  matchStateFileAt ("state." +:+ env +:+ ".json" +:+ post) = Some env.
Proof.
  intros Henv. unfold matchStateFileAt. rewrite stripPrefix_app.
  rewrite string_app_cons.
  rewrite spanWord_app by done. by rewrite <- string_app_cons, stripPrefix_app.
Qed.

Lemma matchStateFileAt_Some (s env : string) :
  matchStateFileAt s = Some env ->
  isWord env = true /\ exists post, s = "state." +:+ env +:+ ".json" +:+ post.
Proof.
  unfold matchStateFileAt.
  destruct (stripPrefix "state." s) as [afterState|] eqn:Hstate; [|discriminate].
  destruct (spanWord afterState) as [w rest] eqn:Hspan.
  destruct (stripPrefix ".json" rest) as [post|] eqn:Hjson; [|discriminate].
  intros [= <-]. apply spanWord_spec in Hspan as [-> Hw].
  apply stripPrefix_Some in Hstate as ->. apply stripPrefix_Some in Hjson as ->.
  split; [done|]. by exists post.
Qed.

Lemma execStateFileRegex_Some (fileName env : string) :
  execStateFileRegex fileName = Some env ->
  isWord env = true /\
  exists pre post, fileName = pre +:+ "state." +:+ env +:+ ".json" +:+ post.
Proof.
  induction fileName as [|c fileName IH]; cbn [execStateFileRegex].
  - destruct (matchStateFileAt "") eqn:Hm; [|discriminate]. discriminate Hm.
  - destruct (matchStateFileAt (String c fileName)) as [env'|] eqn:Hm.
    + intros [= <-]. apply matchStateFileAt_Some in Hm as [Hw [post ->]].
      split; [done|]. by exists "", post.
    + intros Hrest. destruct (IH Hrest) as [Hw (pre & post & ->)].
      split; [done|]. by exists (String c pre), post.
Qed.

Lemma execStateFileRegex_found (pre env post : string) :
  isWord env = true ->
  is_Some (execStateFileRegex (pre +:+ "state." +:+ env +:+ ".json" +:+ post)).
Proof.
  intros Henv. induction pre as [|c pre IH].
  - rewrite string_app_nil_l.
    pose proof (matchStateFileAt_name env post Henv) as Hm.
    rewrite !string_app_cons in *. cbn [execStateFileRegex]. rewrite Hm.
    by eexists.
  - rewrite string_app_cons. cbn [execStateFileRegex].
    by destruct (matchStateFileAt _).
Qed.

(** X4.  What the file-name expression of [statesMigration] recognises:
    - a name that starts with [state.<env>.json], where [<env>] is a run
      (possibly empty) of letters, digits and underscores, yields [<env>],
      whatever follows the extension;
    - a recognised name contains [state.<env>.json] for the environment it
      yields, and that environment is such a run;
    - a name that is not recognised contains no [state.<env>.json] at all. *)
Theorem execStateFileRegex_recognises :
  (forall env post,
     isWord env = true ->
     execStateFileRegex ("state." +:+ env +:+ ".json" +:+ post) = Some env) /\
  (forall fileName env,
     execStateFileRegex fileName = Some env ->
     isWord env = true /\
     exists pre post, fileName = pre +:+ "state." +:+ env +:+ ".json" +:+ post) /\
  (forall fileName,
     execStateFileRegex fileName = None ->
     forall pre env post,
       isWord env = true ->
       fileName <> pre +:+ "state." +:+ env +:+ ".json" +:+ post).
Proof.
  split; [|split].
  - intros env post Henv.
    pose proof (matchStateFileAt_name env post Henv) as Hm.
    rewrite !string_app_cons in *. cbn [execStateFileRegex]. by rewrite Hm.
  - apply execStateFileRegex_Some.
  - intros fileName Hnone pre env post Henv ->.
    destruct (execStateFileRegex_found pre env post Henv) as [? Hsome].
    congruence.
Qed.

End StateFileNames.

(** * 26. What a computation always does to the world *)

Section AlwaysFacts.
Import Predicates.
Context (R : World -> World -> Prop) `{!PreOrder R}.

Lemma always_ret {A} (a : A) : always R (ret a).
Proof using Type*. intros w. reflexivity. Qed.

Lemma always_throw {A} (e : Thrown) : always R (throw (A := A) e).
Proof using Type*. intros w. reflexivity. Qed.

(** A computation that only looks at the world. *)
Lemma always_reader {A} (f : World -> Outcome A) : always R (fun w => (f w, w)).
Proof using Type*. intros w. reflexivity. Qed.

Lemma always_pathExists (rel : Path) : always R (pathExists rel).
Proof using Type*. intros w. reflexivity. Qed.

Lemma always_readFile (rel : Path) : always R (readFile rel).
Proof using Type*.
  intros w. unfold readFile.
  by destruct (files (project w) !! _) as [[?|]|].
Qed.

Lemma always_fsReadDirSync (rel : Path) : always R (fsReadDirSync rel).
Proof using Type*.
  intros w. unfold fsReadDirSync.
  by destruct (files (project w) !! _) as [[?|]|].
Qed.

Lemma always_bind {A B} (m : Async A) (k : A -> Async B) :
  always R m -> (forall a, always R (k a)) -> always R (bind m k).
Proof using Type*.
  intros Hm Hk w. unfold bind. specialize (Hm w).
  destruct (m w) as [[a|e] w1]; [|exact Hm].
  etrans; [exact Hm|apply Hk].
Qed.

Lemma always_forOf {A} (xs : list A) (body : A -> Async unit) :
  Forall (fun x => always R (body x)) xs -> always R (forOf xs body).
Proof using Type*.
  induction 1 as [|x xs Hx _ IH]; cbn [forOf].
  - apply always_ret.
  - apply always_bind; [exact Hx|intros _; exact IH].
Qed.

End AlwaysFacts.

Section FrameFacts.
Import Predicates.

Lemma changesOnly_weaken (t1 t2 : Path -> Prop) (w w' : World) :
  (forall rel, t1 rel -> t2 rel) -> changesOnly t1 w w' -> changesOnly t2 w w'.
Proof.
  intros Hsub Hc.
  apply (changesOnly_trans t1 (fun _ => False) t2 w w' w');
    [exact Hc|apply changesOnly_refl|exact Hsub|done].
Qed.

#[local] Instance changesOnly_preorder (touched : Path -> Prop) :
  PreOrder (changesOnly touched).
Proof.
  split.
  - intros w. apply changesOnly_refl.
  - intros w1 w2 w3 H12 H23.
    by apply (changesOnly_trans touched touched touched w1 w2 w3).
Qed.

#[local] Instance keepsEntries_preorder : PreOrder keepsEntries.
Proof.
  split.
  - intros w. by split.
  - intros w1 w2 w3 [Hp1 He1] [Hp2 He2]. split; [by rewrite Hp2|].
    intros rel Hrel. by apply He2, He1.
Qed.

Variable touched : Path -> Prop.

Lemma frame_backup (rel : Path) : always (changesOnly touched) (backup rel).
Proof.
  intros w. destruct (backup_run rel w) as (w' & -> & Hc).
  by apply (changesOnly_weaken (fun _ => False)).
Qed.

Lemma frame_fsEnsureDir (rel : Path) :
  touched rel -> always (changesOnly touched) (fsEnsureDir rel).
Proof.
  intros Hrel w. destruct (fsEnsureDir_run rel w) as (w' & -> & Hc & _).
  apply (changesOnly_weaken (eq rel)); [by intros ? <-|done].
Qed.

Lemma frame_fsCreateFile (rel : Path) :
  touched rel -> always (changesOnly touched) (fsCreateFile rel).
Proof.
  intros Hrel w. destruct (fsCreateFile_run rel w) as (w' & -> & Hc & _).
  apply (changesOnly_weaken (eq rel)); [by intros ? <-|done].
Qed.

Lemma frame_fsWriteFile (rel : Path) (content : string) :
  touched rel -> always (changesOnly touched) (fsWriteFile rel content).
Proof.
  intros Hrel w. destruct (fsWriteFile_changes rel content w) as (w' & -> & Hc & _).
  apply (changesOnly_weaken (eq rel)); [by intros ? <-|done].
Qed.

Lemma frame_fsCopy (src dst : Path) :
  (forall rel, below dst rel -> touched rel) ->
  always (changesOnly touched) (fsCopy src dst).
Proof.
  intros Hsub w. destruct (fsCopy_run src dst w) as (w' & -> & Hc).
  by apply (changesOnly_weaken (below dst)).
Qed.

Lemma keeps_fsEnsureDir (rel : Path) : always keepsEntries (fsEnsureDir rel).
Proof.
  intros w. unfold keepsEntries, entryAt. simpl.
  destruct (files (project w) !! (projectPath (project w) ++ rel)); simpl;
    (split; [reflexivity|]); intros r Hr; [done|].
  by apply lookup_insert_is_Some'; right.
Qed.

Lemma keeps_fsCreateFile (rel : Path) : always keepsEntries (fsCreateFile rel).
Proof.
  intros w. unfold keepsEntries, entryAt. simpl.
  destruct (files (project w) !! (projectPath (project w) ++ rel)); simpl;
    (split; [reflexivity|]); intros r Hr; [done|].
  by apply lookup_insert_is_Some'; right.
Qed.

Lemma keeps_fsWriteFile (rel : Path) (content : string) :
  always keepsEntries (fsWriteFile rel content).
Proof.
  intros w. unfold keepsEntries, entryAt. simpl. split; [reflexivity|].
  intros r Hr. by apply lookup_insert_is_Some'; right.
Qed.

End FrameFacts.

#[local] Existing Instance changesOnly_preorder.
#[local] Existing Instance keepsEntries_preorder.

(** * 27. The steps of the pipeline on their own *)

Section StepFacts.
Import ProjectMigratorV3 Predicates.
Context `{Externals}.

Local Ltac step_with Hrun := rewrite (bind_Return _ _ _ _ _ Hrun).

Lemma always_loadProjectSettings (R : World -> World -> Prop) `{!PreOrder R} :
  always R loadProjectSettings.
Proof.
  intros w. unfold loadProjectSettings.
  by destruct (loadProjectSettingsByProjectPathV2 _ _).
Qed.

Lemma always_migrateStateFile (R : World -> World -> Prop) `{!PreOrder R}
  (fileName : string) :
  always R (fsEnsureDir [SettingsFolderName]) ->
  (forall name, always R (fsCreateFile [SettingsFolderName; name])) ->
  (forall name content, always R (fsWriteFile [SettingsFolderName; name] content)) ->
  always R (migrateStateFile fileName).
Proof.
  intros Hensure Hcreate Hwrite. unfold migrateStateFile.
  destruct (execStateFileRegex fileName) as [envName|]; [|by apply always_ret].
  apply always_bind; [done|apply Hensure|]. intros _.
  apply always_bind; [done|apply Hcreate|].
  intros _. apply always_bind; [done|by apply always_reader|].
  intros [stateObject|]; [|by apply always_ret].
  destruct (truthy (Some stateObject)); [|by apply always_ret].
  apply always_bind; [done|by apply always_reader|]. intros bicepContent.
  apply Hwrite.
Qed.

Lemma always_statesMigration (R : World -> World -> Prop) `{!PreOrder R} :
  always R (fsEnsureDir [SettingsFolderName]) ->
  (forall name, always R (fsCreateFile [SettingsFolderName; name])) ->
  (forall name content, always R (fsWriteFile [SettingsFolderName; name] content)) ->
  always R statesMigration.
Proof.
  intros Hensure Hcreate Hwrite. unfold statesMigration, fsPathExists.
  apply always_bind; [done|by apply always_pathExists|].
  intros [|]; [|by apply always_ret].
  apply always_bind; [done|by apply always_fsReadDirSync|].
  intros fileNames. apply always_forOf; [done|]. apply Forall_forall.
  intros fileName _. by apply always_migrateStateFile.
Qed.

Lemma below_settings_file (name : string) :
  below [SettingsFolderName] [SettingsFolderName; name].
Proof. apply (below_app [SettingsFolderName] [name]). Qed.

Lemma frame_statesMigration :
  always (changesOnly (below [SettingsFolderName])) statesMigration.
Proof.
  apply always_statesMigration; [apply _| | |].
  - apply frame_fsEnsureDir, below_refl.
  - intros name. apply frame_fsCreateFile, below_settings_file.
  - intros name content. apply frame_fsWriteFile, below_settings_file.
Qed.

Lemma keeps_statesMigration : always keepsEntries statesMigration.
Proof.
  apply always_statesMigration; [apply _| | |].
  - apply keeps_fsEnsureDir.
  - intros name. apply keeps_fsCreateFile.
  - intros name content. apply keeps_fsWriteFile.
Qed.

Lemma frame_preMigration (touched : Path -> Prop) :
  always (changesOnly touched) preMigration.
Proof.
  unfold preMigration. apply always_bind; [apply _|apply frame_backup|].
  intros _. apply always_ret. apply _.
Qed.

Lemma frame_generateSettingsJson (touched : Path -> Prop) :
  (forall rel, below [SettingsFolderName] rel -> touched rel) ->
  always (changesOnly touched) generateSettingsJson.
Proof.
  intros Hsub. unfold generateSettingsJson.
  apply always_bind; [apply _|apply always_loadProjectSettings; apply _|].
  intros oldProjectSettings.
  apply always_bind; [apply _|apply frame_fsEnsureDir, Hsub, below_refl|].
  intros _. apply frame_fsWriteFile, Hsub, below_settings_file.
Qed.

Lemma frame_generateAppYml (touched : Path -> Prop) :
  (forall rel, below [SettingsFolderName] rel -> touched rel) ->
  always (changesOnly touched) generateAppYml.
Proof.
  intros Hsub. unfold generateAppYml.
  apply always_bind; [apply _|apply always_readFile; apply _|].
  intros bicepContent.
  apply always_bind; [apply _|apply always_loadProjectSettings; apply _|].
  intros oldProjectSettings.
  apply always_bind; [apply _| |].
  { apply (always_reader _ (fun _ => AppYmlGenerator_generateAppYml _ _)). }
  intros appYmlString. apply frame_fsWriteFile, Hsub, below_settings_file.
Qed.

Lemma frame_updateLaunchJson (touched : Path -> Prop) :
  touched launchJsonPath -> always (changesOnly touched) updateLaunchJson.
Proof.
  intros Hlaunch. unfold updateLaunchJson.
  apply always_bind; [apply _|apply always_pathExists; apply _|].
  intros [|]; [|apply always_ret; apply _].
  apply always_bind; [apply _|apply frame_backup|]. intros _.
  apply always_bind; [apply _|apply always_readFile; apply _|].
  intros launchJsonContent. by apply frame_fsWriteFile.
Qed.

Lemma frame_replacePlaceholderForManifests (touched : Path -> Prop) :
  (forall rel, below [AppPackageFolderName] rel -> touched rel) ->
  touched aadManifestPath ->
  always (changesOnly touched) replacePlaceholderForManifests.
Proof.
  intros Hpkg Haad. unfold replacePlaceholderForManifests.
  apply always_bind; [apply _|apply frame_backup|].
  intros [|]; cbn [negb]; [|apply always_throw; apply _].
  apply always_bind; [apply _|apply frame_fsEnsureDir, Hpkg, below_refl|].
  intros _. apply always_bind; [apply _|apply always_pathExists; apply _|].
  intros oldResourceFolderExists. apply always_bind; [apply _| |].
  { destruct oldResourceFolderExists; [|apply always_ret; apply _].
    apply frame_fsCopy. intros rel [rest Hrest]. apply Hpkg.
    unfold below, AppPackageFolderName in *.
    destruct rel as [|a rel]; [done|]. cbn [stripPathPrefix] in *.
    destruct (String.eqb "appPackage" a); [by eexists|done]. }
  intros _. apply always_bind; [apply _|apply always_pathExists; apply _|].
  intros [|]; cbn [negb]; [|apply always_throw; apply _].
  apply always_bind; [apply _|apply always_readFile; apply _|].
  intros bicepContent.
  apply always_bind; [apply _|apply always_pathExists; apply _|].
  intros oldManifestExists. apply always_bind; [apply _| |].
  { destruct oldManifestExists; [|apply always_throw; apply _].
    apply always_bind; [apply _|apply always_readFile; apply _|].
    intros oldManifest. apply frame_fsWriteFile, Hpkg.
    apply (below_app [AppPackageFolderName]). }
  intros _. apply always_bind; [apply _|apply always_pathExists; apply _|].
  intros [|]; [|apply always_ret; apply _].
  apply always_bind; [apply _|apply always_readFile; apply _|].
  intros oldAadManifest. by apply frame_fsWriteFile.
Qed.

(** X5.  What the pipeline can touch.  Whether it returns or throws, and
    whatever the collaborators do, [migrate] leaves a world that differs from
    the one it started in at most below the settings folder, below
    [appPackage], at [aad.manifest.template.json] and at
    [.vscode/launch.json]: every other entry of the project is as it was, no
    other path is recorded as modified, the project root is the same and no
    call is logged.  Of the steps, the backup touches no entry, the settings
    step, the [app.yml] step and the states step stay below the settings
    folder, the manifest step stays below [appPackage] and at
    [aad.manifest.template.json], and the launch step stays at
    [.vscode/launch.json]. *)
Theorem migrate_touches_only :
  always (changesOnly (fun rel =>
            below [SettingsFolderName] rel \/ below [AppPackageFolderName] rel \/
            rel = aadManifestPath \/ rel = launchJsonPath)) migrate /\
  always (changesOnly (fun _ => False)) preMigration /\
  always (changesOnly (below [SettingsFolderName])) generateSettingsJson /\
  always (changesOnly (below [SettingsFolderName])) generateAppYml /\
  always (changesOnly (fun rel =>
            below [AppPackageFolderName] rel \/ rel = aadManifestPath))
    replacePlaceholderForManifests /\
  always (changesOnly (below [SettingsFolderName])) statesMigration /\
  always (changesOnly (eq launchJsonPath)) updateLaunchJson.
Proof.
  split; [|split; [|split; [|split; [|split; [|split]]]]].
  - unfold migrate. apply always_forOf; [apply _|]. unfold subMigrations.
    repeat apply Forall_cons_2; [| | | | | |apply Forall_nil_2].
    + apply frame_preMigration.
    + apply frame_generateSettingsJson. tauto.
    + apply frame_generateAppYml. tauto.
    + apply frame_replacePlaceholderForManifests; tauto.
    + intros w. eapply changesOnly_weaken; [|apply frame_statesMigration]. tauto.
    + apply frame_updateLaunchJson. tauto.
  - apply frame_preMigration.
  - by apply frame_generateSettingsJson.
  - by apply frame_generateAppYml.
  - apply frame_replacePlaceholderForManifests; tauto.
  - apply frame_statesMigration.
  - by apply frame_updateLaunchJson.
Qed.

Lemma childNames_elem (dir : Path) (files : Files) (name : string) (e : Entry) :
  files !! (dir ++ [name]) = Some e -> name ∈ childNames dir files.
Proof.
  intros Hlookup. unfold childNames. apply list_elem_of_omap.
  exists (dir ++ [name], e). split; [by apply elem_of_map_to_list|].
  by rewrite stripPathPrefix_app.
Qed.

(** After its first two statements, the body of the loop of [statesMigration]
    has created the file of the environment; the rest of the body and the
    rounds after it keep it. *)
Lemma migrateStateFile_creates (fileName envName : string) (w : World) :
  execStateFileRegex fileName = Some envName ->
  is_Some (entryAt (migrateStateFile fileName w).2
             [SettingsFolderName; ".env." +:+ envName]).
Proof.
  intros Hexec. unfold migrateStateFile. rewrite Hexec.
  destruct (fsEnsureDir_run [SettingsFolderName] w) as (w1 & Hensure & _ & _).
  destruct (fsCreateFile_run [SettingsFolderName; ".env." +:+ envName] w1)
    as (w2 & Hcreate & _ & Hcreated).
  step_with Hensure. step_with Hcreate.
  assert (Hw2 : is_Some (entryAt w2 [SettingsFolderName; ".env." +:+ envName]))
    by (rewrite Hcreated; by eexists).
  unfold bind at 1.
  destruct (readStateFile (project w2) _) as [[stateObject|]|e]; [|done|done].
  destruct (truthy (Some stateObject)); [|done].
  unfold bind at 1.
  destruct (readBicepContent (project w2)) as [bicepContent|e]; [|done].
  destruct (fsWriteFile_changes [SettingsFolderName; ".env." +:+ envName]
              (jsonObjectNamesConvertV3 stateObject "state." STATE bicepContent) w2)
    as (w3 & Hwrite & _ & Hwritten).
  rewrite Hwrite. cbn [snd]. rewrite Hwritten. by eexists.
Qed.

Lemma keeps_migrateStateFile (fileName : string) :
  always keepsEntries (migrateStateFile fileName).
Proof.
  apply always_migrateStateFile; [apply _| | |].
  - apply keeps_fsEnsureDir.
  - intros name. apply keeps_fsCreateFile.
  - intros name content. apply keeps_fsWriteFile.
Qed.

(** X6.  For every entry of the legacy states folder whose name the
    expression recognises (every [state.<env>.json] in particular), a
    [statesMigration] that returns has left a file [.env.<env>] in the
    settings folder, next to whatever the files of the other environments
    brought. *)
Theorem statesMigration_creates_env_files (w w' : World)
  (fileName envName : string) (e : Entry) :
  entryAt w statesFolder = Some Dir ->
  entryAt w (statesFolder ++ [fileName]) = Some e ->
  execStateFileRegex fileName = Some envName ->
  statesMigration w = (Return tt, w') ->
  is_Some (entryAt w' [SettingsFolderName; ".env." +:+ envName]) /\
  is_Some (entryAt w' [SettingsFolderName]).
Proof.
  intros Hfolder Hfile Hexec Hrun. unfold statesMigration, fsPathExists in Hrun.
  rewrite (bind_Return _ _ _ _ _ (pathExists_Some _ _ _ Hfolder)) in Hrun.
  assert (Hnames : fsReadDirSync statesFolder w =
    (Return (childNames (projectPath (project w) ++ statesFolder) (files (project w))),
     w)).
  { unfold fsReadDirSync. unfold entryAt in Hfolder. by rewrite Hfolder. }
  rewrite (bind_Return _ _ _ _ _ Hnames) in Hrun.
  assert (Hin : fileName ∈ childNames (projectPath (project w) ++ statesFolder)
                             (files (project w))).
  { apply (childNames_elem _ _ _ e). unfold entryAt in Hfile.
    by rewrite <- app_assoc. }
  apply list_elem_of_split in Hin as (pre & post & Hsplit).
  rewrite Hsplit, forOf_split in Hrun.
  destruct (forOf pre migrateStateFile w) as [[[]|e1] w1]; [|discriminate].
  pose proof (migrateStateFile_creates fileName envName w1 Hexec) as Hcreated.
  assert (Hdir : is_Some (entryAt (migrateStateFile fileName w1).2
                            [SettingsFolderName])).
  { unfold migrateStateFile. rewrite Hexec.
    destruct (fsEnsureDir_run [SettingsFolderName] w1) as (w1' & Hensure & _ & Hd).
    step_with Hensure.
    assert (Hrest : always keepsEntries
      (fsCreateFile [SettingsFolderName; ".env." +:+ envName] ;;
       obj <- (fun w => (readStateFile (project w)
                 (statesFolder ++ ["state." +:+ envName +:+ ".json"]), w)) ;;
       match obj with
       | Some stateObject =>
           if truthy obj then
             (bicepContent <- (fun w => (readBicepContent (project w), w)) ;;
              fsWriteFile [SettingsFolderName; ".env." +:+ envName]
                (jsonObjectNamesConvertV3 stateObject "state." STATE bicepContent))
           else ret tt
       | None => ret tt
       end)).
    { apply always_bind; [apply _|apply keeps_fsCreateFile|]. intros _.
      apply always_bind; [apply _|apply always_reader; apply _|].
      intros [stateObject|]; [|apply always_ret; apply _].
      destruct (truthy (Some stateObject)); [|apply always_ret; apply _].
      apply always_bind; [apply _|apply always_reader; apply _|].
      intros bicepContent. apply keeps_fsWriteFile. }
    by apply (Hrest w1'). }
  destruct (migrateStateFile fileName w1) as [[[]|e2] w2]; [|discriminate].
  cbn [snd] in Hcreated, Hdir.
  assert (Hkeeps : keepsEntries w2 w').
  { assert (Hpost : always keepsEntries (forOf post migrateStateFile)).
    { apply always_forOf; [apply _|]. apply Forall_forall. intros x _.
      apply keeps_migrateStateFile. }
    specialize (Hpost w2). by rewrite Hrun in Hpost. }
  destruct Hkeeps as [_ Hkeeps]. split; by apply Hkeeps.
Qed.

(** X7.  [generateSettingsJson]: when the legacy settings cannot be loaded,
    the step throws the loader's error and leaves the world as it was; when
    they can, the step returns, the settings folder exists, the settings file
    holds the serialization of the object with [version] 3.0.0 and the legacy
    project identifier as [trackingId], and nothing but the folder and the
    file has changed. *)
Theorem generateSettingsJson_writes_settings (w : World) :
  match loadProjectSettingsByProjectPathV2 (project w) (projectPath (project w)) with
  | Err error => generateSettingsJson w = (Throw (ThrownFx error), w)
  | Ok oldProjectSettings =>
      exists w',
        generateSettingsJson w = (Return tt, w') /\
        entryAt w' [SettingsFolderName; SettingsFileName] =
          Some (File (JSON_stringify
                  (JObj [ ("version", JStr "3.0.0");
                          ("trackingId", JStr (projectId oldProjectSettings)) ]))) /\
        is_Some (entryAt w' [SettingsFolderName]) /\
        changesOnly (fun rel => rel = [SettingsFolderName] \/
                                rel = [SettingsFolderName; SettingsFileName]) w w'
  end.
Proof.
  unfold generateSettingsJson.
  destruct (loadProjectSettingsByProjectPathV2 _ _) as [settings|error] eqn:Hload.
  - assert (Hsettings : loadProjectSettings w = (Return settings, w))
      by (unfold loadProjectSettings; by rewrite Hload).
    destruct (fsEnsureDir_run [SettingsFolderName] w) as (w1 & Hensure & Hc1 & Hdir).
    destruct (fsWriteFile_changes [SettingsFolderName; SettingsFileName]
                (JSON_stringify
                   (JObj [ ("version", JStr "3.0.0");
                           ("trackingId", JStr (projectId settings)) ])) w1)
      as (w2 & Hwrite & Hc2 & Hwritten).
    exists w2. split; [|split; [done|split]].
    + step_with Hsettings. by step_with Hensure.
    + destruct Hc2 as (_ & _ & He & _). rewrite He; [done|]. by intros [=].
    + apply (changesOnly_trans (eq [SettingsFolderName])
               (eq [SettingsFolderName; SettingsFileName]) _ w w1 w2);
        [done|done|intros ? <-; tauto|intros ? <-; tauto].
  - apply bind_Throw. unfold loadProjectSettings. by rewrite Hload.
Qed.

(** X8.  [generateAppYml] fails before it writes anything: without the
    infrastructure template the read fails, then the loader's error and the
    generator's error are thrown, each time with the world as it was; when all
    three succeed, the step returns, [app.yml] in the settings folder holds
    the generated text, and nothing else has changed. *)
Theorem generateAppYml_writes_app_yml (w : World) :
  match entryAt w provisionBicepPath with
  | None => generateAppYml w = (Throw enoent, w)
  | Some Dir => generateAppYml w = (Throw eisdir, w)
  | Some (File bicepContent) =>
      match loadProjectSettingsByProjectPathV2 (project w) (projectPath (project w)) with
      | Err error => generateAppYml w = (Throw (ThrownFx error), w)
      | Ok oldProjectSettings =>
          match AppYmlGenerator_generateAppYml oldProjectSettings bicepContent with
          | Throw e => generateAppYml w = (Throw e, w)
          | Return appYmlString =>
              exists w',
                generateAppYml w = (Return tt, w') /\
                entryAt w' [SettingsFolderName; appYmlName]
                  = Some (File appYmlString) /\
                changesOnly (eq [SettingsFolderName; appYmlName]) w w'
          end
      end
  end.
Proof.
  unfold generateAppYml.
  destruct (entryAt w provisionBicepPath) as [[bicepContent|]|] eqn:Hbicep.
  - step_with (readFile_File _ _ _ Hbicep).
    destruct (loadProjectSettingsByProjectPathV2 _ _) as [settings|error] eqn:Hload.
    + assert (Hsettings : loadProjectSettings w = (Return settings, w))
        by (unfold loadProjectSettings; by rewrite Hload).
      step_with Hsettings.
      destruct (AppYmlGenerator_generateAppYml settings bicepContent)
        as [appYmlString|e] eqn:Hgenerate.
      * destruct (fsWriteFile_changes [SettingsFolderName; appYmlName]
                    appYmlString w) as (w1 & Hwrite & Hc & Hwritten).
        exists w1. split; [exact Hwrite|done].
      * reflexivity.
    + apply bind_Throw. unfold loadProjectSettings. by rewrite Hload.
  - apply bind_Throw. unfold readFile. unfold entryAt in Hbicep. by rewrite Hbicep.
  - apply bind_Throw. unfold readFile. unfold entryAt in Hbicep. by rewrite Hbicep.
Qed.

(** X9.  When the migration run by [wrapRunMigration] returns, the wrapper
    returns too: it has sent the start event before the migration and sends
    the end event with the telemetry properties of the context after it, and
    it calls none of the clean-up methods, so the project is the one the
    migration left. *)
Theorem wrapRunMigration_returns (exec : Async unit) (w w1 : World) :
  exec (emit (SendTelemetryEvent Component_core ProjectMigratorMigrateStartV3 None) w)
    = (Return tt, w1) ->
  wrapRunMigration exec w =
    (Return tt,
     mkWorld (project w1)
       (log w1 ++
        [ SendTelemetryEvent Component_core ProjectMigratorMigrateV3
            (Some (telemetryProperties (project w1))) ])).
Proof.
  intros Hexec. unfold wrapRunMigration, tryCatch.
  unfold bind at 1. unfold sendTelemetryEvent at 1, modify at 1.
  rewrite (bind_Return _ _ _ _ _ Hexec). reflexivity.
Qed.

(** X10.  [replacePlaceholderForManifests] on a project that has all four
    inputs ([templates/appPackage], the infrastructure template, the
    application manifest and the manifest of the identity application): the
    step returns, [appPackage/manifest.template.json] and
    [aad.manifest.template.json] hold the two manifests with their
    placeholders replaced against the template, the second one is recorded as
    modified, and the three legacy files are still where they were. *)
Theorem replacePlaceholderForManifests_with_aad_manifest (w : World)
  (bicepContent oldManifest oldAadManifest : string) :
  is_Some (entryAt w oldAppPackageFolderPath) ->
  entryAt w oldBicepFilePath = Some (File bicepContent) ->
  entryAt w oldManifestPath = Some (File oldManifest) ->
  entryAt w oldAadManifestPath = Some (File oldAadManifest) ->
  exists w',
    replacePlaceholderForManifests w = (Return tt, w') /\
    entryAt w' manifestPath =
      Some (File (replacePlaceholdersForV3 oldManifest bicepContent)) /\
    entryAt w' aadManifestPath =
      Some (File (replacePlaceholdersForV3 oldAadManifest bicepContent)) /\
    aadManifestPath ∈ modifiedPaths (project w') /\
    entryAt w' oldBicepFilePath = Some (File bicepContent) /\
    entryAt w' oldManifestPath = Some (File oldManifest) /\
    entryAt w' oldAadManifestPath = Some (File oldAadManifest).
Proof.
  intros Happ Hb Hm Ha.
  assert (Hbicep : ~ below [AppPackageFolderName] oldBicepFilePath)
    by (intros [? Hx]; vm_compute in Hx; discriminate Hx).
  assert (Hman : ~ below [AppPackageFolderName] oldManifestPath)
    by (intros [? Hx]; vm_compute in Hx; discriminate Hx).
  assert (Hoaad : ~ below [AppPackageFolderName] oldAadManifestPath)
    by (intros [? Hx]; vm_compute in Hx; discriminate Hx).
  destruct (manifests_resources_copied w Happ) as (w3 & Hc3 & Hk).
  pose proof Hc3 as (_ & _ & He3 & _).
  rewrite <- (He3 _ Hbicep) in Hb. rewrite <- (He3 _ Hman) in Hm.
  rewrite <- (He3 _ Hoaad) in Ha.
  destruct (fsWriteFile_changes manifestPath
              (replacePlaceholdersForV3 oldManifest bicepContent) w3)
    as (w4 & Hw4 & Hc4 & Hwritten4).
  pose proof Hc4 as (_ & _ & He4 & _).
  assert (Ha4 : entryAt w4 oldAadManifestPath = Some (File oldAadManifest))
    by (rewrite He4; [done|by intros [=]]).
  destruct (fsWriteFile_run aadManifestPath
              (replacePlaceholdersForV3 oldAadManifest bicepContent) w4)
    as (w5 & Hw5 & Hf5 & Hp5 & Hm5 & _).
  assert (He5 : forall rel, rel <> aadManifestPath -> entryAt w5 rel = entryAt w4 rel).
  { intros rel Hrel. unfold entryAt. rewrite Hf5, Hp5.
    apply lookup_insert_ne. intros Heq. by apply root_app_inj in Heq. }
  exists w5. split; [|split; [|split; [|split; [|split; [|split]]]]].
  - unfold replacePlaceholderForManifests. rewrite Hk.
    step_with (pathExists_Some _ _ _ Hb). cbn [negb].
    step_with (readFile_File _ _ _ Hb).
    step_with (pathExists_Some _ _ _ Hm).
    assert (Hinner :
      (oldManifest0 <- readFile oldManifestPath ;;
       fsWriteFile manifestPath
         (replacePlaceholdersForV3 oldManifest0 bicepContent)) w3
      = (Return tt, w4)).
    { by step_with (readFile_File _ _ _ Hm). }
    step_with Hinner. step_with (pathExists_Some _ _ _ Ha4).
    by step_with (readFile_File _ _ _ Ha4).
  - rewrite He5 by (by intros [=]). exact Hwritten4.
  - unfold entryAt. by rewrite Hf5, Hp5, lookup_insert_eq.
  - rewrite Hm5. apply elem_of_union_l. by apply elem_of_singleton.
  - rewrite He5 by (by intros [=]). rewrite He4 by (by intros [=]). exact Hb.
  - rewrite He5 by (by intros [=]). rewrite He4 by (by intros [=]). exact Hm.
  - rewrite He5 by (by intros [=]). exact Ha4.
Qed.

End StepFacts.

Section StepInstances.
Import ProjectMigratorV3 Predicates.

Lemma wrapRunMigration_returns_witness :
  wrapRunMigration (H := Sample.externals) (ret tt) (Sample.world []) =
    (Return tt,
     mkWorld (project (Sample.world []))
       [ SendTelemetryEvent "core" ProjectMigratorMigrateStartV3 None;
         SendTelemetryEvent "core" ProjectMigratorMigrateV3 (Some []) ]).
Proof.
  apply (wrapRunMigration_returns (H := Sample.externals) (ret tt) (Sample.world [])
           (emit (SendTelemetryEvent "core" ProjectMigratorMigrateStartV3 None)
              (Sample.world []))).
  reflexivity.
Defined.

Lemma statesMigration_creates_env_files_witness :
  is_Some (entryAt (statesMigration (H := Sample.externals) MoreSamples.withStates).2
             ["teamsfx"; ".env.dev"]).
Proof.
  apply (statesMigration_creates_env_files (H := Sample.externals)
           MoreSamples.withStates
           (statesMigration (H := Sample.externals) MoreSamples.withStates).2
           "state.dev.json" "dev" (File "{}")).
  - vm_compute. reflexivity.
  - vm_compute. reflexivity.
  - vm_compute. reflexivity.
  - vm_compute. reflexivity.
Defined.

Lemma replacePlaceholderForManifests_with_aad_manifest_witness :
  exists w',
    replacePlaceholderForManifests (H := Sample.externals)
      MoreSamples.withAadManifest = (Return tt, w') /\
    entryAt w' manifestPath = Some (File "{ manifest }") /\
    entryAt w' aadManifestPath = Some (File "{ aad }").
Proof.
  destruct (replacePlaceholderForManifests_with_aad_manifest
              (H := Sample.externals) MoreSamples.withAadManifest
              "bicep" "{ manifest }" "{ aad }")
    as (w' & Hrun & Hmanifest & Haad & _).
  - exists Dir. vm_compute. reflexivity.
  - vm_compute. reflexivity.
  - vm_compute. reflexivity.
  - vm_compute. reflexivity.
  - exists w'. split; [exact Hrun|]. split; [exact Hmanifest|exact Haad].
Defined.

End StepInstances.

(** * 28. Relabelling: what stays and what goes *)

Section RelabelMore.
Import TaskMigrations MoreTaskMigrations.

Lemma getLabels_fmap (f : Json -> Json) (tasks : list Json) :
  (forall task, isCommentObject (f task) = isCommentObject task) ->
  (forall task, getProp (f task) "label" = getProp task "label") ->
  getLabels (f <$> tasks) = getLabels tasks.
Proof.
  intros Hobject Hlabel. induction tasks as [|task tasks IH]; [reflexivity|].
  cbn [fmap list_fmap getLabels]. rewrite Hobject, Hlabel.
  change (list_fmap Json Json f tasks) with (f <$> tasks). by rewrite IH.
Qed.

Lemma getLabels_replaceInDependsOn (label : string) (tasks : list Json)
  (replacements : list string) :
  getLabels (replaceInDependsOn label tasks replacements) = getLabels tasks.
Proof.
  apply getLabels_fmap.
  - intros task. apply replaceInTask_isCommentObject.
  - intros task. by apply replaceInTask_getProp_other.
Qed.

(** X11.  Relabelling touches nothing but [dependsOn]: the list keeps its
    length and the labels of its tasks, and the task at every position is
    still an object (or still none) with every other property as it was. *)
Theorem replaceInDependsOn_keeps_everything_else (label : string)
  (tasks : list Json) (replacements : list string) :
  length (replaceInDependsOn label tasks replacements) = length tasks /\
  getLabels (replaceInDependsOn label tasks replacements) = getLabels tasks /\
  forall i task,
    tasks !! i = Some task ->
    exists task',
      replaceInDependsOn label tasks replacements !! i = Some task' /\
      isCommentObject task' = isCommentObject task /\
      forall k, k <> "dependsOn" -> getProp task' k = getProp task k.
Proof.
  split; [unfold replaceInDependsOn; by rewrite length_fmap|].
  split; [apply getLabels_replaceInDependsOn|].
  intros i task Htask. exists (replaceInTask label replacements task).
  split; [by rewrite replaceInDependsOn_lookup, Htask|].
  split; [apply replaceInTask_isCommentObject|].
  intros k Hk. by apply replaceInTask_getProp_other.
Qed.

Lemma replaceInTask_unreferenced (label : string) (replacements : list string)
  (task : Json) :
  dependsOnLabel task label = false ->
  replaceInTask label replacements task = task.
Proof.
  unfold dependsOnLabel, replaceInTask.
  destruct (isCommentObject task); [|done]. cbn [andb].
  destruct (truthy (getProp task "dependsOn")); [|done].
  destruct (getProp task "dependsOn") as [[| | |dependsOn|dependsOn|]|]; try done.
  - by intros ->.
  - intros Hnone. unfold replaceInArray.
    destruct (findIndex (isStr label) dependsOn) as [i|] eqn:Hi; [|done].
    apply findIndex_lookup in Hi as (x & Hx & Hlabel).
    apply list_elem_of_lookup_2 in Hx.
    assert (Hex : existsb (isStr label) dependsOn = true).
    { apply existsb_exists. exists x. split; [by apply list_elem_of_In|done]. }
    congruence.
Qed.

(** X12.  A label that no task depends on (neither as the single string nor
    inside an array) is relabelled without any effect: the task list is
    returned as it is, whatever the replacements. *)
Theorem replaceInDependsOn_unreferenced (label : string) (tasks : list Json)
  (replacements : list string) :
  (forall task, task ∈ tasks -> dependsOnLabel task label = false) ->
  replaceInDependsOn label tasks replacements = tasks.
Proof.
  intros Hnone. unfold replaceInDependsOn.
  induction tasks as [|task tasks IH]; [reflexivity|].
  cbn [fmap list_fmap]. f_equal.
  - apply replaceInTask_unreferenced, Hnone. by left.
  - apply IH. intros t Ht. apply Hnone. by right.
Qed.

Lemma replaceInTask_no_string_reference (label : string)
  (replacements : list string) (task : Json) :
  label <> "" ->
  getProp (replaceInTask label replacements task) "dependsOn" <> Some (JStr label).
Proof.
  intros Hlabel. unfold replaceInTask.
  destruct task as [| | | | |fields]; try done.
  cbn [isCommentObject andb].
  destruct (truthy (getProp (JObj fields) "dependsOn")) eqn:Htruthy.
  2:{ intros Hd. rewrite Hd in Htruthy. cbn in Htruthy.
      by destruct (String.eqb_spec label ""). }
  destruct (getProp (JObj fields) "dependsOn") as [[| | |d|arr|]|] eqn:Hd;
    try (rewrite Hd; done).
  - destruct (String.eqb_spec d label) as [->|Hdl].
    + destruct (0 <? length replacements); cbn [getProp setProp deleteProp].
      * by rewrite assocGet_assocSet.
      * by rewrite assocGet_assocDel.
    + rewrite Hd. by intros [= ->].
  - destruct (replaceInArray label replacements arr); [|by rewrite Hd].
    cbn [getProp setProp]. by rewrite assocGet_assocSet.
Qed.

(** X13.  After the relabelling of a non-empty label,
    - no task depends on the label as a single string any more;
    - an array [dependsOn] of a task object has lost exactly one occurrence
      of the label when the label is not among the replacements: its first
      one, so that an array that held the label once no longer holds it. *)
Theorem replaceInDependsOn_drops_references (label : string) (tasks : list Json)
  (replacements : list string) :
  label <> "" ->
  (forall task',
     task' ∈ replaceInDependsOn label tasks replacements ->
     getProp task' "dependsOn" <> Some (JStr label)) /\
  (forall i fields dependsOn,
     tasks !! i = Some (JObj fields) ->
     assocGet "dependsOn" fields = Some (JArr dependsOn) ->
     label ∉ replacements ->
     exists task' dependsOn',
       replaceInDependsOn label tasks replacements !! i = Some task' /\
       getProp task' "dependsOn" = Some (JArr dependsOn') /\
       occurrences label dependsOn' = occurrences label dependsOn - 1).
Proof.
  intros Hlabel. split.
  - intros task' Hin. unfold replaceInDependsOn in Hin.
    apply list_elem_of_fmap in Hin as (task & -> & _).
    by apply replaceInTask_no_string_reference.
  - intros i fields dependsOn Htask Hd Hnotin.
    exists (replaceInTask label replacements (JObj fields)).
    rewrite replaceInDependsOn_lookup, Htask. cbn [fmap option_fmap option_map].
    rewrite (replaceInTask_array _ _ _ _ Hd). unfold replaceInArray.
    destruct (findIndex (isStr label) dependsOn) as [index|] eqn:Hindex.
    + destruct (findIndex_splice label (JStr <$> replacements) dependsOn index Hindex)
        as (before & after & Harr & Hbefore & Hsplice).
      pose proof (findIndex_withoutFirst _ _ _ Hindex) as Hwithout.
      assert (Hremoved : occurrences label (withoutFirst label dependsOn)
                         = occurrences label dependsOn - 1)
        by apply occurrences_withoutFirst_same.
      assert (Hreplaced : occurrences label (before ++ (JStr <$> replacements) ++ after)
                          = occurrences label dependsOn - 1).
      { rewrite Harr, !occurrences_app, (occurrences_fmap_JStr _ _ Hnotin).
        cbn [occurrences isStr]. rewrite String.eqb_refl. lia. }
      destruct replacements as [|first rest].
      * eexists. split; [done|]. cbn [getProp]. rewrite assocGet_assocSet.
        split; [done|]. by rewrite Hwithout.
      * destruct (negb (existsb (isStr first) dependsOn)).
        -- eexists. split; [done|]. cbn [getProp]. rewrite assocGet_assocSet.
           split; [done|]. by rewrite Hsplice.
        -- eexists. split; [done|]. cbn [getProp]. rewrite assocGet_assocSet.
           split; [done|]. by rewrite Hwithout.
    + exists dependsOn. split; [done|]. split; [done|].
      apply findIndex_None_occurrences in Hindex. lia.
Qed.

End RelabelMore.

(** * 29. The host of an imported manifest: when it cannot be told *)

Section GetHostErrors.
Import OfficeAddinGenerator.

(** X14.  When [getHost] fails and with what.  The error of the manifest
    loader is the error of [getHost]; a manifest that is [null] gives the
    [TypeError] of reading [extensions] of [null].  Otherwise [getHost]
    returns [Outlook] when [extensions] is [undefined] or [null], and when it
    is not, the first element decides: without one [getHost] throws the
    [TypeError] of reading [requirements] of [undefined], with [null] as the
    first element that of reading [requirements] of [null], and with any
    other first element it returns [Outlook]. *)
Theorem getHost_fails_without_first_extension
  (loadFromPath : string -> Outcome Json) (addinManifestPath : string) :
  match loadFromPath addinManifestPath with
  | Throw e => getHost loadFromPath addinManifestPath = Throw e
  | Return JNull =>
      getHost loadFromPath addinManifestPath
        = Throw (ThrownError
                   (mkError "TypeError"
                      "Cannot read properties of null (reading 'extensions')"))
  | Return addinManifest =>
      if nullish (getProp addinManifest "extensions")
      then getHost loadFromPath addinManifestPath = Return "Outlook"
      else
        match first (getProp addinManifest "extensions") with
        | None =>
            getHost loadFromPath addinManifestPath
              = Throw (ThrownError
                         (mkError "TypeError"
                            "Cannot read properties of undefined (reading 'requirements')"))
        | Some JNull =>
            getHost loadFromPath addinManifestPath
              = Throw (ThrownError
                         (mkError "TypeError"
                            "Cannot read properties of null (reading 'requirements')"))
        | Some _ => getHost loadFromPath addinManifestPath = Return "Outlook"
        end
  end.
Proof.
  unfold getHost.
  destruct (loadFromPath addinManifestPath) as [m|e]; [|reflexivity].
  destruct (Json_null_or_not m) as [->|Hnull]; [reflexivity|].
  pose proof (firstScope_cases m Hnull) as Hcases. cbn zeta in Hcases.
  assert (Hgoal :
    if nullish (getProp m "extensions")
    then match firstScope m with
         | Throw e => Throw e
         | Return scope => Return (hostOfScope scope)
         end = Return "Outlook"
    else
      match first (getProp m "extensions") with
      | None =>
          match firstScope m with
          | Throw e => Throw e
          | Return scope => Return (hostOfScope scope)
          end = Throw (typeError Undefined "requirements")
      | Some JNull =>
          match firstScope m with
          | Throw e => Throw e
          | Return scope => Return (hostOfScope scope)
          end = Throw (typeError Null "requirements")
      | Some _ =>
          match firstScope m with
          | Throw e => Throw e
          | Return scope => Return (hostOfScope scope)
          end = Return "Outlook"
      end).
  { destruct (nullish (getProp m "extensions"));
      [by rewrite Hcases, hostOfScope_Outlook|].
    destruct (first (getProp m "extensions")) as [[| | | | |]|].
    1, 7: by rewrite Hcases.
    all: destruct Hcases as [scope ->]; by rewrite hostOfScope_Outlook. }
  destruct m; try done.
Qed.

End GetHostErrors.

(** * 30. The bot set-up and pre-debug-check migrations, continued *)

Section SetUpBotMore.
Import TaskMigrations MoreTaskMigrations Predicates.
Context `{Externals}.

(** X15.  More on the environment that [migrateSetUpBot] hands to
    [updateLocalEnv] for a bot set-up task it handles:
    - a non-empty string [botId] is passed on under [BOT_ID];
    - a [botPassword] of the form [${env:NAME}], with no line terminator in
      [NAME], refers to the environment variable [NAME]: when its value is a
      non-empty text, that value is encrypted and stored under
      [SECRET_BOT_PASSWORD]; when the encryption of the value fails, the
      failure is swallowed and no [SECRET_BOT_PASSWORD] is stored;
    - a text of that form with a line terminator in [NAME] (a line feed, a
      carriage return, [U+2028] or [U+2029]) is no reference: the text itself
      is encrypted and stored;
    - no other key is ever set. *)
Theorem migrateSetUpBot_bot_id_and_referenced_password
  (context : DebugMigrationContext) (j : nat) (task : Json)
  (argFields : list (string * Json)) :
  tasks context !! j = Some task ->
  botSetUpTask task (Some (JObj argFields)) ->
  exists envs before after,
    log (migrationContext (migrateSetUpBot context)) =
      before ++ UpdateLocalEnv envs :: after /\
    (forall botId,
       assocGet "botId" argFields = Some (JStr botId) -> botId <> "" ->
       envGet "BOT_ID" envs = Some botId) /\
    (forall name secret value,
       hasLineTerminator name = false ->
       assocGet "botPassword" argFields = Some (JStr ("${env:" +:+ name +:+ "}")) ->
       processEnv (project (migrationContext context)) !! name = Some secret ->
       secret <> "" ->
       LocalCrypto_encrypt (projectId (oldProjectSettings context)) secret
         = Ok value ->
       envGet "SECRET_BOT_PASSWORD" envs = Some value) /\
    (forall name secret error,
       hasLineTerminator name = false ->
       assocGet "botPassword" argFields = Some (JStr ("${env:" +:+ name +:+ "}")) ->
       processEnv (project (migrationContext context)) !! name = Some secret ->
       LocalCrypto_encrypt (projectId (oldProjectSettings context)) secret
         = Err error ->
       envGet "SECRET_BOT_PASSWORD" envs = None) /\
    (forall name value,
       hasLineTerminator name = true ->
       assocGet "botPassword" argFields = Some (JStr ("${env:" +:+ name +:+ "}")) ->
       LocalCrypto_encrypt (projectId (oldProjectSettings context))
         ("${env:" +:+ name +:+ "}") = Ok value ->
       envGet "SECRET_BOT_PASSWORD" envs = Some value) /\
    (forall key,
       key <> "BOT_ID" -> key <> "SECRET_BOT_PASSWORD" -> envGet key envs = None).
Proof.
  intros Htask Hbot.
  destruct (migrateSetUpBot_loop_emits (length (tasks context)) context 0 j task
              (Some (JObj argFields))) as (before & after & Hlog);
    [lia|lia|done|done|].
  eexists _, before, after. split; [exact Hlog|].
  unfold setUpBotEnvs.
  set (envs1 := match assocGet "botId" argFields with
                | Some (JStr botId) => _
                | _ => []
                end).
  assert (Hsecret1 : envGet "SECRET_BOT_PASSWORD" envs1 = None).
  { subst envs1. destruct (assocGet "botId" argFields) as [[| | |botId| |]|];
      try reflexivity.
    by destruct (truthy (Some (JStr botId))). }
  assert (Hother1 : forall key, key <> "BOT_ID" -> envGet key envs1 = None).
  { intros key Hkey. subst envs1.
    destruct (assocGet "botId" argFields) as [[| | |botId| |]|]; try reflexivity.
    destruct (truthy (Some (JStr botId))); [|reflexivity].
    cbn [envSet envGet]. by destruct (String.eqb_spec "BOT_ID" key). }
  assert (Hid1 : forall botId,
            assocGet "botId" argFields = Some (JStr botId) -> botId <> "" ->
            envGet "BOT_ID" envs1 = Some botId).
  { intros botId Hid Hne. subst envs1. rewrite Hid. cbn [truthy].
    destruct (String.eqb_spec botId ""); [done|]. cbn [negb envSet envGet].
    by rewrite String.eqb_refl. }
  clearbody envs1.
  split; [|split; [|split; [|split]]].
  - intros botId Hid Hne.
    destruct (assocGet "botPassword" argFields) as [[| | |password| |]|];
      try (by apply Hid1).
    destruct (truthy (Some (JStr password))); [|by apply Hid1].
    destruct (match envReference password with
              | Some name => _
              | None => Some password
              end) as [secret|]; [|by apply Hid1].
    destruct (negb (String.eqb secret "")); [|by apply Hid1].
    destruct (LocalCrypto_encrypt _ secret); [|by apply Hid1].
    rewrite envGet_envSet_ne by done. by apply Hid1.
  - intros name secret value Hname Hpassword Henv Hsecret Hencrypt.
    rewrite Hpassword, (envReference_of_name _ Hname), Henv.
    rewrite string_app_cons. cbn [truthy String.eqb negb].
    destruct (String.eqb_spec secret ""); [done|]. cbn [negb].
    rewrite Hencrypt. apply envGet_envSet.
  - intros name secret error Hname Hpassword Henv Hencrypt.
    rewrite Hpassword, (envReference_of_name _ Hname), Henv.
    destruct (truthy _); [|done].
    destruct (negb (String.eqb secret "")); [|done]. by rewrite Hencrypt.
  - intros name value Hname Hpassword Hencrypt.
    assert (Hliteral : envReference ("${env:" +:+ name +:+ "}") = None).
    { unfold envReference. by rewrite stripPrefix_app, stripLast_app, Hname. }
    rewrite Hpassword, Hliteral, Hencrypt.
    rewrite string_app_cons. cbn [truthy String.eqb negb].
    apply envGet_envSet.
  - intros key Hid Hsecret.
    destruct (assocGet "botPassword" argFields) as [[| | |password| |]|];
      try (by apply Hother1).
    destruct (truthy (Some (JStr password))); [|by apply Hother1].
    destruct (match envReference password with
              | Some name => _
              | None => Some password
              end) as [secret|]; [|by apply Hother1].
    destruct (negb (String.eqb secret "")); [|by apply Hother1].
    destruct (LocalCrypto_encrypt _ secret); [|by apply Hother1].
    rewrite envGet_envSet_ne by done. by apply Hother1.
Qed.

Lemma getProp_setProp (o : Json) (k : string) (v : Json) :
  isCommentObject o = true -> getProp (setProp o k v) k = Some v.
Proof. destruct o; try done. intros _. apply assocGet_assocSet. Qed.

Lemma getProp_setProp_ne (o : Json) (k k' : string) (v : Json) :
  k <> k' -> getProp (setProp o k v) k' = getProp o k'.
Proof. intros Hne. destruct o; try done. by apply assocGet_assocSet_ne. Qed.

Lemma isCommentObject_setProp (o : Json) (k : string) (v : Json) :
  isCommentObject (setProp o k v) = isCommentObject o.
Proof. by destruct o. Qed.

Lemma isCommentObject_ensureObject (k : string) (o : Json) :
  isCommentObject (ensureObject k o) = isCommentObject o.
Proof.
  unfold ensureObject. destruct (truthy (getProp o k)); [done|].
  apply isCommentObject_setProp.
Qed.

Lemma getProp_ensureObject_ne (k k' : string) (o : Json) :
  k <> k' -> getProp (ensureObject k o) k' = getProp o k'.
Proof.
  intros Hne. unfold ensureObject. destruct (truthy (getProp o k)); [done|].
  by apply getProp_setProp_ne.
Qed.

Lemma getProp_ensureObject (k : string) (o : Json) :
  isCommentObject o = true -> absentOrObject o k ->
  exists fields, getProp (ensureObject k o) k = Some (JObj fields).
Proof.
  intros Hobject [Habsent|[fields Hfields]]; unfold ensureObject.
  - rewrite Habsent. cbn [truthy]. exists []. by apply getProp_setProp.
  - rewrite Hfields. cbn [truthy]. by exists fields.
Qed.

Lemma setPath_two (k1 k2 : string) (v o inner : Json) :
  getProp o k1 = Some inner ->
  setPath [k1; k2] v o = setProp o k1 (setProp inner k2 v).
Proof. intros Hinner. cbn [setPath]. by rewrite Hinner. Qed.

Lemma setPath_three (k1 k2 k3 : string) (v o inner1 inner2 : Json) :
  getProp o k1 = Some inner1 -> getProp inner1 k2 = Some inner2 ->
  setPath [k1; k2; k3] v o =
  setProp o k1 (setProp inner1 k2 (setProp inner2 k3 v)).
Proof. intros H1 H2. cbn [setPath]. by rewrite H1, H2. Qed.

(** X16.  The messaging endpoint that one bot set-up task leaves in the
    accumulated configuration (an object whose [provision] and [deploy] are
    missing or objects): [provision.bot] is replaced by an object with the
    single property [messagingEndpoint], which is the argument
    [botMessagingEndpoint] itself when that is a string starting with [http],
    the placeholder of the bot endpoint followed by the argument when it is a
    string starting with a slash, and the placeholder followed by
    [/api/messages] in every other case (no arguments, no such argument, not a
    string, another prefix); [deploy.bot] is [true]; the other top-level
    properties are as they were. *)
Theorem setUpBotConfig_messaging_endpoint (mapping : PlaceholderMapping)
  (args : option Json) (fields : list (string * Json)) :
  absentOrObject (JObj fields) "provision" ->
  absentOrObject (JObj fields) "deploy" ->
  let config := setUpBotConfig mapping args (JObj fields) in
  getPath ["deploy"; "bot"] config = Some (JBool true) /\
  (forall k, k <> "provision" -> k <> "deploy" ->
     getProp config k = assocGet k fields) /\
  exists endpoint,
    getPath ["provision"; "bot"] config =
      Some (JObj [("messagingEndpoint", JStr endpoint)]) /\
    endpoint =
      match args with
      | Some (JObj argFields) =>
          match assocGet "botMessagingEndpoint" argFields with
          | Some (JStr given) =>
              if startsWith given "http" then given
              else if startsWith given "/"
                   then "${{" +:+ botEndpoint mapping +:+ "}}" +:+ given
                   else "${{" +:+ botEndpoint mapping +:+ "}}/api/messages"
          | _ => "${{" +:+ botEndpoint mapping +:+ "}}/api/messages"
          end
      | _ => "${{" +:+ botEndpoint mapping +:+ "}}/api/messages"
      end.
Proof.
  intros Hprovision Hdeploy. cbv zeta. unfold setUpBotConfig.
  set (bot := JObj [("messagingEndpoint",
                     JStr (botMessagingEndpoint mapping "/api/messages"))]).
  set (config1 := ensureObject "provision" (JObj fields)).
  destruct (getProp_ensureObject "provision" (JObj fields) eq_refl Hprovision)
    as [provision Hp1]. fold config1 in Hp1.
  assert (Hobject1 : isCommentObject config1 = true)
    by (subst config1; by rewrite isCommentObject_ensureObject).
  rewrite (setPath_two _ _ _ _ _ Hp1).
  set (config2 := setProp config1 "provision" (setProp (JObj provision) "bot" bot)).
  assert (Hobject2 : isCommentObject config2 = true)
    by (subst config2; by rewrite isCommentObject_setProp).
  assert (Hdeploy2 : absentOrObject config2 "deploy").
  { unfold absentOrObject. subst config2 config1.
    rewrite getProp_setProp_ne, getProp_ensureObject_ne by done. exact Hdeploy. }
  set (config3 := ensureObject "deploy" config2).
  destruct (getProp_ensureObject "deploy" config2 Hobject2 Hdeploy2)
    as [deploy Hd3]. fold config3 in Hd3.
  assert (Hobject3 : isCommentObject config3 = true)
    by (subst config3; by rewrite isCommentObject_ensureObject).
  rewrite (setPath_two _ _ _ _ _ Hd3).
  set (config4 := setProp config3 "deploy" (setProp (JObj deploy) "bot" (JBool true))).
  assert (Hobject4 : isCommentObject config4 = true)
    by (subst config4; by rewrite isCommentObject_setProp).
  assert (Hp4 : getProp config4 "provision"
                = Some (setProp (JObj provision) "bot" bot)).
  { subst config4 config3. rewrite getProp_setProp_ne by done.
    rewrite getProp_ensureObject_ne by done. subst config2.
    by apply getProp_setProp. }
  assert (Hd4 : getPath ["deploy"; "bot"] config4 = Some (JBool true)).
  { cbn [getPath]. subst config4. rewrite getProp_setProp by done.
    by rewrite getProp_setProp. }
  assert (Hother4 : forall k, k <> "provision" -> k <> "deploy" ->
            getProp config4 k = assocGet k fields).
  { intros k Hk1 Hk2. subst config4 config3 config2 config1.
    rewrite getProp_setProp_ne, getProp_ensureObject_ne by done.
    by rewrite getProp_setProp_ne, getProp_ensureObject_ne by done. }
  assert (Hbot4 : getPath ["provision"; "bot"] config4 = Some bot).
  { cbn [getPath]. rewrite Hp4. by rewrite getProp_setProp. }
  assert (Hset : forall given,
    getPath ["deploy"; "bot"]
      (setPath ["provision"; "bot"; "messagingEndpoint"] (JStr given) config4)
      = Some (JBool true) /\
    (forall k, k <> "provision" -> k <> "deploy" ->
       getProp (setPath ["provision"; "bot"; "messagingEndpoint"] (JStr given)
                  config4) k = assocGet k fields) /\
    getPath ["provision"; "bot"]
      (setPath ["provision"; "bot"; "messagingEndpoint"] (JStr given) config4)
      = Some (JObj [("messagingEndpoint", JStr given)])).
  { intros given.
    rewrite (setPath_three _ _ _ _ _ _ bot Hp4) by (by apply getProp_setProp).
    split; [|split].
    - cbn [getPath] in *. by rewrite getProp_setProp_ne.
    - intros k Hk1 Hk2. rewrite getProp_setProp_ne by done. by apply Hother4.
    - cbn [getPath]. rewrite getProp_setProp by done.
      by rewrite getProp_setProp. }
  assert (Hkeep :
    getPath ["deploy"; "bot"] config4 = Some (JBool true) /\
    (forall k, k <> "provision" -> k <> "deploy" ->
       getProp config4 k = assocGet k fields) /\
    exists endpoint,
      getPath ["provision"; "bot"] config4 =
        Some (JObj [("messagingEndpoint", JStr endpoint)]) /\
      endpoint = "${{" +:+ botEndpoint mapping +:+ "}}/api/messages").
  { split; [done|]. split; [done|]. eexists. split; [exact Hbot4|done]. }
  destruct args as [[| | | | |argFields]|]; try exact Hkeep.
  destruct (assocGet "botMessagingEndpoint" argFields) as [[| | |given| |]|];
    try exact Hkeep.
  destruct (startsWith given "http") eqn:Hhttp.
  - assert (Htruthy : truthy (Some (JStr given)) = true)
      by (destruct given; [discriminate Hhttp|done]).
    rewrite Htruthy. destruct (Hset given) as (H1 & H2 & H3).
    split; [done|]. split; [done|]. by exists given.
  - destruct (startsWith given "/") eqn:Hslash.
    + assert (Htruthy : truthy (Some (JStr given)) = true)
        by (destruct given; [discriminate Hslash|done]).
      rewrite Htruthy.
      destruct (Hset (botMessagingEndpoint mapping given)) as (H1 & H2 & H3).
      split; [done|]. split; [done|]. by eexists.
    + destruct (truthy (Some (JStr given))); exact Hkeep.
Qed.

Lemma splice_insert_after_two {A} (l : list A) (i : nat) (x a b : A) :
  i < length l ->
  splice (i + 2) 0 [b] (splice (i + 1) 0 [a] (<[i := x]> l)) =
  take i l ++ [x; a; b] ++ drop (S i) l.
Proof.
  intros Hi. rewrite insert_take_drop by done. unfold splice.
  rewrite !Nat.add_0_r.
  assert (Hlen : length (take i l ++ [x]) = i + 1)
    by (rewrite length_app, length_take; simpl; lia).
  change (take i l ++ x :: drop (S i) l) with (take i l ++ [x] ++ drop (S i) l).
  rewrite (app_assoc (take i l) [x]).
  rewrite (take_app_length' (take i l ++ [x])) by done.
  rewrite (drop_app_length' (take i l ++ [x])) by done.
  assert (Hlen' : length ((take i l ++ [x]) ++ [a]) = i + 2)
    by (rewrite length_app, Hlen; simpl; lia).
  rewrite (app_assoc (take i l ++ [x]) [a]).
  rewrite (take_app_length' ((take i l ++ [x]) ++ [a])) by done.
  rewrite (drop_app_length' ((take i l ++ [x]) ++ [a])) by done.
  by rewrite <- !app_assoc.
Qed.

(** X17.  [migratePreDebugCheck] rewrites the first pre-debug-check task of
    the list and nothing else: without such a task the context comes back as
    it was; with one, the task stays at its position, keeps its label and
    every property other than the five the migration sets or deletes
    ([dependsOn] becomes the array of two helper labels, [dependsOrder]
    becomes [sequence], [type], [command] and [presentation] are deleted),
    the two helper tasks follow it directly, and the tasks before and behind
    (a second pre-debug-check task among them) are untouched. *)
Theorem migratePreDebugCheck_rewrites_first_task (context : DebugMigrationContext) :
  match findIndex isPreDebugCheckTask (tasks context) with
  | None => migratePreDebugCheck context = context
  | Some index =>
      exists task task' createResourcesLabel setUpLocalProjectsLabel,
        tasks context !! index = Some task /\
        isPreDebugCheckTask task = true /\
        tasks (migratePreDebugCheck context) =
          take index (tasks context) ++
          [ task'; createResourcesTask createResourcesLabel;
            setUpLocalProjectsTask setUpLocalProjectsLabel ] ++
          drop (S index) (tasks context) /\
        getProp task' "dependsOn" =
          Some (JArr [JStr createResourcesLabel; JStr setUpLocalProjectsLabel]) /\
        getProp task' "dependsOrder" = Some (JStr "sequence") /\
        getProp task' "type" = None /\
        getProp task' "command" = None /\
        getProp task' "presentation" = None /\
        forall k,
          k <> "dependsOn" -> k <> "dependsOrder" -> k <> "type" ->
          k <> "command" -> k <> "presentation" ->
          getProp task' k = getProp task k
  end.
Proof.
  unfold migratePreDebugCheck.
  destruct (findIndex isPreDebugCheckTask (tasks context)) as [index|] eqn:Hindex;
    [|reflexivity].
  destruct (findIndex_lookup _ _ _ Hindex) as (task & Htask & Hcheck).
  rewrite Htask. eexists task, _, _, _. split; [done|]. split; [done|].
  cbn [tasks withTasks]. split.
  { apply splice_insert_after_two. by apply lookup_lt_Some in Htask. }
  assert (Hobject : isCommentObject task = true).
  { unfold isPreDebugCheckTask in Hcheck. by destruct (isCommentObject task). }
  destruct task as [| | | | |fields]; try discriminate Hobject.
  cbn [setProp deleteProp getProp].
  split; [|split; [|split; [|split; [|split]]]].
  - rewrite !assocGet_assocDel_ne by done.
    rewrite assocGet_assocSet_ne by done. apply assocGet_assocSet.
  - rewrite !assocGet_assocDel_ne by done. apply assocGet_assocSet.
  - rewrite !assocGet_assocDel_ne by done. apply assocGet_assocDel.
  - rewrite assocGet_assocDel_ne by done. apply assocGet_assocDel.
  - apply assocGet_assocDel.
  - intros k H1 H2 H3 H4 H5. rewrite !assocGet_assocDel_ne by done.
    by rewrite !assocGet_assocSet_ne by done.
Qed.

End SetUpBotMore.

(** * 31. The loops over the set-up tasks *)

Section SetUpLoops.
Import TaskMigrations MoreTaskMigrations Predicates.
Context `{Externals} `{TaskExternals}.

Lemma migrateSetUpBot_loop_shared (fuel index : nat) (context : DebugMigrationContext) :
  migrateSetUpBot_loop fuel index context =
  localEnvLoop isSetUpBotTask setUpBotEnvs setUpBotConfig fuel index context.
Proof.
  revert index context. induction fuel as [|fuel IH]; intros index context;
    [reflexivity|].
  cbn [migrateSetUpBot_loop localEnvLoop].
  destruct (tasks context !! index) as [task|]; [|reflexivity].
  destruct (negb (isSetUpBotTask task)); [apply IH|].
  destruct (asString (getProp task "label")) as [label|]; [|apply IH].
  destruct (handleProvisionAndDeploy _ index label) as [context3 index'].
  apply IH.
Qed.

Lemma migrateSetUpSSO_loop_shared (fuel index : nat) (context : DebugMigrationContext) :
  migrateSetUpSSO_loop fuel index context =
  localEnvLoop isSetUpSSOTask setUpSSOEnvs (fun _ _ => setUpSSOConfig)
    fuel index context.
Proof.
  revert index context. induction fuel as [|fuel IH]; intros index context;
    [reflexivity|].
  cbn [migrateSetUpSSO_loop localEnvLoop].
  destruct (tasks context !! index) as [task|]; [|reflexivity].
  destruct (negb (isSetUpSSOTask task)); [apply IH|].
  destruct (asString (getProp task "label")) as [label|]; [|apply IH].
  destruct (handleProvisionAndDeploy _ index label) as [context3 index'].
  apply IH.
Qed.

Lemma replaceInTask_isSetUpSSOTask (label : string) (replacements : list string)
  (task : Json) :
  isSetUpSSOTask (replaceInTask label replacements task) = isSetUpSSOTask task.
Proof.
  unfold isSetUpSSOTask, propIs.
  rewrite replaceInTask_isCommentObject.
  by rewrite !replaceInTask_getProp_other.
Qed.

(** What [handleProvisionAndDeploy] puts in the place of the task: nothing,
    or the two helper tasks. *)
Lemma handleProvisionAndDeploy_inserted (context : DebugMigrationContext)
  (index : nat) (label : string) :
  index < length (tasks context) ->
  exists inserted replacements,
    tasks (handleProvisionAndDeploy context index label).1 =
      replaceInTask label replacements <$>
        (take index (tasks context) ++ inserted ++ drop (S index) (tasks context)) /\
    (handleProvisionAndDeploy context index label).2 = index + length inserted /\
    (inserted = [] \/
     exists createResourcesLabel setUpLocalProjectsLabel,
       inserted = [ createResourcesTask createResourcesLabel;
                    setUpLocalProjectsTask setUpLocalProjectsLabel ]) /\
    migrationContext (handleProvisionAndDeploy context index label).1 =
      migrationContext context /\
    oldProjectSettings (handleProvisionAndDeploy context index label).1 =
      oldProjectSettings context.
Proof.
  intros Hindex. unfold handleProvisionAndDeploy.
  destruct (find (fun value => startsWith value "Create resources")
              (generatedLabels context)) as [before|].
  - exists []. eexists. cbn [fst snd length tasks withTasks
      withGeneratedLabels migrationContext oldProjectSettings app].
    split; [|split; [lia|split; [by left|done]]].
    unfold replaceInDependsOn, splice. by rewrite Nat.add_1_r.
  - eexists [_; _]. eexists. cbn [fst snd length tasks withTasks
      withGeneratedLabels migrationContext oldProjectSettings].
    split; [|split; [lia|split; [right; by eexists _, _|done]]].
    unfold replaceInDependsOn. f_equal.
    by apply splice_remove_insert_two.
Qed.

Section Shared.
Variable isTask : Json -> bool.
Variable envsOf :
  gmap string string -> string -> option Json -> list (string * string).
Variable configOf : PlaceholderMapping -> option Json -> Json -> Json.
Hypothesis isTask_relabelled :
  forall label replacements task,
    isTask (replaceInTask label replacements task) = isTask task.

Local Abbreviation handled := (handled isTask).

Lemma handled_relabelled (label : string) (replacements : list string)
  (task : Json) :
  handled (replaceInTask label replacements task) <-> handled task.
Proof using isTask_relabelled.
  unfold MoreTaskMigrations.handled. rewrite isTask_relabelled.
  by rewrite replaceInTask_getProp_other.
Qed.

(** When the helper tasks are not themselves tasks of the kind the loop looks
    for, the loop leaves no task that it would handle. *)
Lemma localEnvLoop_handles_all (fuel : nat) :
  (forall label, isTask (createResourcesTask label) = false) ->
  (forall label, isTask (setUpLocalProjectsTask label) = false) ->
  forall (context : DebugMigrationContext) (index : nat),
    length (tasks context) - index <= fuel ->
    (forall k task, k < index -> tasks context !! k = Some task -> ~ handled task) ->
    forall task,
      task ∈ tasks (localEnvLoop isTask envsOf configOf fuel index context) ->
      ~ handled task.
Proof using isTask_relabelled.
  intros Hcreate Hsetup.
  induction fuel as [|fuel IH]; intros context index Hfuel Hbefore task Hin.
  { cbn [localEnvLoop] in Hin. apply list_elem_of_lookup in Hin as [k Hk].
    apply (Hbefore k); [|done]. apply lookup_lt_Some in Hk. lia. }
  cbn [localEnvLoop] in Hin.
  destruct (tasks context !! index) as [task0|] eqn:Htask0.
  2:{ apply list_elem_of_lookup in Hin as [k Hk]. apply (Hbefore k); [|done].
      apply lookup_ge_None in Htask0. apply lookup_lt_Some in Hk. lia. }
  assert (Hskip : ~ handled task0 ->
    forall k t, k < S index -> tasks context !! k = Some t -> ~ handled t).
  { intros Hnot k t Hk Ht. destruct (decide (k = index)) as [->|Hne].
    - rewrite Htask0 in Ht. by injection Ht as <-.
    - apply (Hbefore k); [lia|done]. }
  destruct (isTask task0) eqn:Hist; cbn [negb] in Hin.
  2:{ apply (IH context (S index)); [lia| |done].
      apply Hskip. intros [Hyes _]. congruence. }
  destruct (asString (getProp task0 "label")) as [label|] eqn:Hlabel0.
  2:{ apply (IH context (S index)); [lia| |done].
      apply Hskip. intros [_ [? Hyes]]. congruence. }
  set (context2 := updateLocalEnv _ _) in Hin.
  assert (Hindex : index < length (tasks context2))
    by (apply lookup_lt_is_Some; by eexists).
  destruct (handleProvisionAndDeploy_inserted context2 index label Hindex)
    as (inserted & replacements & Htasks3 & Hindex' & Hinserted & _ & _).
  destruct (handleProvisionAndDeploy context2 index label) as [context3 index'].
  cbn [fst snd] in *.
  assert (Htasks2 : tasks context2 = tasks context) by reflexivity.
  rewrite Htasks2 in *.
  assert (Hlen : length (take index (tasks context)) = index)
    by (rewrite length_take; lia).
  apply (IH context3 index'); [| |done].
  - rewrite Htasks3, length_fmap, !length_app, length_drop, Hlen. lia.
  - intros k t Hk Ht. rewrite Htasks3, list_lookup_fmap in Ht.
    destruct ((take index (tasks context) ++ inserted
               ++ drop (S index) (tasks context)) !! k) as [t0|] eqn:Ht0;
      [|discriminate]. injection Ht as <-. rewrite handled_relabelled.
    destruct (decide (k < index)) as [Hlt|Hge].
    + rewrite lookup_app_l in Ht0 by lia. rewrite lookup_take_lt in Ht0 by lia.
      by apply (Hbefore k).
    + rewrite lookup_app_r in Ht0 by lia.
      rewrite lookup_app_l in Ht0 by lia.
      destruct Hinserted as [->|(l1 & l2 & ->)]; [simpl in Hindex'; lia|].
      intros [Hyes _].
      destruct (k - length (take index (tasks context))) as [|[|n]];
        cbn in Ht0; [| |discriminate]; injection Ht0 as <-; congruence.
Qed.


Lemma handleProvisionAndDeploy_appYmlConfig (context : DebugMigrationContext)
  (index : nat) (label : string) :
  appYmlConfig (handleProvisionAndDeploy context index label).1
  = appYmlConfig context.
Proof.
  unfold handleProvisionAndDeploy.
  by destruct (find (fun value => startsWith value "Create resources")
                 (generatedLabels context)).
Qed.

(** Without a task to handle the loop leaves the context as it is. *)
Lemma localEnvLoop_idle (fuel index : nat) (context : DebugMigrationContext) :
  Forall (fun task => ~ handled task) (drop index (tasks context)) ->
  localEnvLoop isTask envsOf configOf fuel index context = context.
Proof.
  revert index. induction fuel as [|fuel IH]; intros index Hnone; [reflexivity|].
  cbn [localEnvLoop].
  destruct (tasks context !! index) as [task|] eqn:Htask; [|reflexivity].
  rewrite (drop_S _ _ _ Htask) in Hnone. apply Forall_cons in Hnone as [Hno Hnone].
  destruct (isTask task) eqn:Hist; cbn [negb]; [|by apply IH].
  destruct (asString (getProp task "label")) as [label|] eqn:Hlabel; [|by apply IH].
  destruct Hno. split; [done|]. rewrite Hlabel. by eexists.
Qed.

(** A property of the configuration that every handled task establishes, from
    a configuration of the expected shape or from one that has it already. *)
Lemma localEnvLoop_config (P Q : Json -> Prop) (fuel : nat) :
  (forall mapping args config, P config -> Q (configOf mapping args config)) ->
  (forall config, Q config -> P config) ->
  forall (context : DebugMigrationContext) (index : nat),
    length (tasks context) - index <= fuel ->
    (Q (appYmlConfig context) \/
     (P (appYmlConfig context) /\
      Exists (fun task => handled task) (drop index (tasks context)))) ->
    Q (appYmlConfig (localEnvLoop isTask envsOf configOf fuel index context)).
Proof.
  intros Hestablish Hshape.
  induction fuel as [|fuel IH]; intros context index Hfuel Hconfig.
  { destruct Hconfig as [Hhas|[_ Hexists]]; [done|].
    rewrite drop_ge in Hexists by lia. by apply Exists_nil in Hexists. }
  cbn [localEnvLoop].
  destruct (tasks context !! index) as [task|] eqn:Htask.
  2:{ destruct Hconfig as [Hhas|[_ Hexists]]; [done|].
      apply lookup_ge_None in Htask. rewrite drop_ge in Hexists by lia.
      by apply Exists_nil in Hexists. }
  assert (Hskip : ~ handled task ->
    Q (appYmlConfig (localEnvLoop isTask envsOf configOf fuel (S index) context))).
  { intros Hno. apply IH; [apply lookup_lt_Some in Htask; lia|].
    destruct Hconfig as [Hhas|[HP Hexists]]; [by left|right]. split; [done|].
    rewrite (drop_S _ _ _ Htask) in Hexists.
    by apply Exists_cons in Hexists as [Hyes|Hlater]. }
  destruct (isTask task) eqn:Hist; cbn [negb].
  2:{ apply Hskip. intros [Hyes _]. congruence. }
  destruct (asString (getProp task "label")) as [label|] eqn:Hlabel.
  2:{ apply Hskip. intros [_ [? Hyes]]. congruence. }
  set (context2 := updateLocalEnv _ _).
  assert (Hindex : index < length (tasks context2))
    by (apply lookup_lt_is_Some; by eexists).
  destruct (handleProvisionAndDeploy_inserted context2 index label Hindex)
    as (inserted & replacements & Htasks3 & Hindex' & _ & _ & _).
  pose proof (handleProvisionAndDeploy_appYmlConfig context2 index label) as Hconfig3.
  destruct (handleProvisionAndDeploy context2 index label) as [context3 index'].
  cbn [fst snd] in *. apply IH.
  - rewrite Htasks3, length_fmap, !length_app, length_take, length_drop.
    subst context2. cbn [tasks updateLocalEnv withWorld withAppYmlConfig] in *. lia.
  - left. rewrite Hconfig3. subst context2.
    cbn [appYmlConfig updateLocalEnv withWorld withAppYmlConfig].
    apply Hestablish. destruct Hconfig as [Hhas|[HP _]]; [by apply Hshape|done].
Qed.

End Shared.

(** X18.  [migrateSetUpBot] and [migrateSetUpSSO] leave no task of their
    kind behind: provided the two helper tasks that they insert are not
    themselves set-up tasks of that kind, every task of the list after the
    migration that has the type and the command of a bot (single-sign-on)
    set-up task has no string label, which is the one case that the loop
    skips. *)
Theorem setUp_tasks_all_handled (context : DebugMigrationContext) :
  (forall label,
     isSetUpBotTask (createResourcesTask label) = false /\
     isSetUpBotTask (setUpLocalProjectsTask label) = false /\
     isSetUpSSOTask (createResourcesTask label) = false /\
     isSetUpSSOTask (setUpLocalProjectsTask label) = false) ->
  Forall (fun task =>
            isSetUpBotTask task = true -> asString (getProp task "label") = None)
    (tasks (migrateSetUpBot context)) /\
  Forall (fun task =>
            isSetUpSSOTask task = true -> asString (getProp task "label") = None)
    (tasks (migrateSetUpSSO context)).
Proof.
  intros Hhelpers.
  assert (Hnone : forall isTask task,
            ~ handled isTask task -> isTask task = true ->
            asString (getProp task "label") = None).
  { intros isTask task Hnot Hist.
    destruct (asString (getProp task "label")) eqn:Hlabel; [|done].
    destruct Hnot. split; [done|]. rewrite Hlabel. by eexists. }
  split; apply Forall_forall; intros task Hin; apply Hnone.
  - unfold migrateSetUpBot in Hin. rewrite migrateSetUpBot_loop_shared in Hin.
    revert Hin. apply localEnvLoop_handles_all.
    + apply replaceInTask_isSetUpBotTask.
    + intros label. apply Hhelpers.
    + intros label. apply Hhelpers.
    + lia.
    + intros k t Hk. lia.
  - unfold migrateSetUpSSO in Hin. rewrite migrateSetUpSSO_loop_shared in Hin.
    revert Hin. apply localEnvLoop_handles_all.
    + apply replaceInTask_isSetUpSSOTask.
    + intros label. apply Hhelpers.
    + intros label. apply Hhelpers.
    + lia.
    + intros k t Hk. lia.
Qed.


Lemma hasSSOSwitches_set (config : Json) :
  isCommentObject config = true ->
  absentOrObject config "registerApp" ->
  absentOrObject config "configureApp" ->
  absentOrObject config "deploy" ->
  hasSSOSwitches (setUpSSOConfig config).
Proof.
  intros Hobject Hregister Hconfigure Hdeploy. unfold setUpSSOConfig.
  set (config1 := ensureObject "registerApp" config).
  destruct (getProp_ensureObject "registerApp" config Hobject Hregister)
    as [registerApp Hr1]. fold config1 in Hr1.
  assert (Hobject1 : isCommentObject config1 = true)
    by (subst config1; by rewrite isCommentObject_ensureObject).
  rewrite (setPath_two _ _ _ _ _ Hr1).
  set (config2 := setProp config1 "registerApp" _).
  assert (Hobject2 : isCommentObject config2 = true)
    by (subst config2; by rewrite isCommentObject_setProp).
  assert (Hconfigure2 : absentOrObject config2 "configureApp").
  { unfold absentOrObject. subst config2 config1.
    rewrite getProp_setProp_ne, getProp_ensureObject_ne by done. exact Hconfigure. }
  set (config3 := ensureObject "configureApp" config2).
  destruct (getProp_ensureObject "configureApp" config2 Hobject2 Hconfigure2)
    as [configureApp Hc3]. fold config3 in Hc3.
  assert (Hobject3 : isCommentObject config3 = true)
    by (subst config3; by rewrite isCommentObject_ensureObject).
  rewrite (setPath_two _ _ _ _ _ Hc3).
  set (config4 := setProp config3 "configureApp" _).
  assert (Hobject4 : isCommentObject config4 = true)
    by (subst config4; by rewrite isCommentObject_setProp).
  assert (Hdeploy4 : absentOrObject config4 "deploy").
  { unfold absentOrObject. subst config4 config3 config2 config1.
    rewrite getProp_setProp_ne, getProp_ensureObject_ne by done.
    rewrite getProp_setProp_ne, getProp_ensureObject_ne by done. exact Hdeploy. }
  set (config5 := ensureObject "deploy" config4).
  destruct (getProp_ensureObject "deploy" config4 Hobject4 Hdeploy4)
    as [deploy Hd5]. fold config5 in Hd5.
  assert (Hobject5 : isCommentObject config5 = true)
    by (subst config5; by rewrite isCommentObject_ensureObject).
  rewrite (setPath_two _ _ _ _ _ Hd5).
  unfold hasSSOSwitches. cbn [getPath]. split; [|split].
  - rewrite getProp_setProp_ne by done. subst config5.
    rewrite getProp_ensureObject_ne by done. subst config4.
    rewrite getProp_setProp_ne by done. subst config3.
    rewrite getProp_ensureObject_ne by done. subst config2.
    rewrite getProp_setProp by done. by rewrite getProp_setProp.
  - rewrite getProp_setProp_ne by done. subst config5.
    rewrite getProp_ensureObject_ne by done. subst config4.
    rewrite getProp_setProp by done. by rewrite getProp_setProp.
  - rewrite getProp_setProp by done. by rewrite getProp_setProp.
Qed.

Lemma getPath_two_object (k1 k2 : string) (config v : Json) :
  getPath [k1; k2] config = Some v ->
  isCommentObject config = true /\ absentOrObject config k1.
Proof.
  cbn [getPath]. intros Hhas.
  destruct config as [| | | | |fields]; try discriminate Hhas.
  split; [done|]. right.
  destruct (getProp (JObj fields) k1) as [[| | | | |inner]|];
    try discriminate Hhas.
  by exists inner.
Qed.

(** X20.  The switches of [migrateSetUpSSO].  When the list has no
    single-sign-on set-up task with a string label, the migration returns the
    context as it was.  When it has one, and the accumulated configuration is
    an object whose [registerApp], [configureApp] and [deploy] are missing or
    objects, then afterwards [registerApp.aad], [configureApp.aad] and
    [deploy.sso] are all [true]. *)
Theorem migrateSetUpSSO_switches (context : DebugMigrationContext) :
  (Forall (fun task => ~ handled isSetUpSSOTask task) (tasks context) ->
   migrateSetUpSSO context = context) /\
  (Exists (fun task => handled isSetUpSSOTask task) (tasks context) ->
   isCommentObject (appYmlConfig context) = true ->
   absentOrObject (appYmlConfig context) "registerApp" ->
   absentOrObject (appYmlConfig context) "configureApp" ->
   absentOrObject (appYmlConfig context) "deploy" ->
   getPath ["registerApp"; "aad"] (appYmlConfig (migrateSetUpSSO context))
     = Some (JBool true) /\
   getPath ["configureApp"; "aad"] (appYmlConfig (migrateSetUpSSO context))
     = Some (JBool true) /\
   getPath ["deploy"; "sso"] (appYmlConfig (migrateSetUpSSO context))
     = Some (JBool true)).
Proof.
  unfold migrateSetUpSSO. rewrite migrateSetUpSSO_loop_shared. split.
  - intros Hnone. apply localEnvLoop_idle. by rewrite drop_0.
  - intros Hexists Hobject Hregister Hconfigure Hdeploy.
    apply (localEnvLoop_config isSetUpSSOTask setUpSSOEnvs
             (fun _ _ => setUpSSOConfig)
             (fun config =>
                isCommentObject config = true /\
                absentOrObject config "registerApp" /\
                absentOrObject config "configureApp" /\
                absentOrObject config "deploy")
             hasSSOSwitches (length (tasks context))).
    + intros _ _ config (H1 & H2 & H3 & H4). by apply hasSSOSwitches_set.
    + intros config (H1 & H2 & H3).
      apply getPath_two_object in H1 as [Hobj H1].
      apply getPath_two_object in H2 as [_ H2].
      by apply getPath_two_object in H3 as [_ H3].
    + lia.
    + right. by rewrite drop_0.
Qed.

End SetUpLoops.

(** * 32. The migrations of the backend tasks *)

Section BackendTasks.
Import TaskMigrations MoreTaskMigrations Predicates.
Context `{Externals} `{TaskExternals}.

Lemma replaceInTask_isBackendExtensionsInstallTask (label : string)
  (replacements : list string) (task : Json) :
  isBackendExtensionsInstallTask (replaceInTask label replacements task)
  = isBackendExtensionsInstallTask task.
Proof.
  unfold isBackendExtensionsInstallTask, propIs, commandIncludes.
  rewrite replaceInTask_isCommentObject.
  by rewrite !replaceInTask_getProp_other.
Qed.

Lemma filter_fmap_stable {A} (p : A -> bool) (f : A -> A) (l : list A) :
  (forall x, p (f x) = p x) ->
  List.filter p (f <$> l) = f <$> List.filter p l.
Proof.
  intros Hp. induction l as [|x l IH]; [reflexivity|].
  cbn [fmap list_fmap List.filter]. rewrite Hp.
  change (list_fmap A A f l) with (f <$> l). rewrite IH. by destruct (p x).
Qed.

Lemma length_splice_remove {A} (l : list A) (i : nat) :
  i < length l -> length (splice i 1 [] l) = length l - 1.
Proof.
  intros Hi. unfold splice. rewrite !length_app, length_take, length_drop.
  simpl. lia.
Qed.

Lemma splice_remove_fmap {A} (f : A -> A) (l : list A) (i : nat) :
  splice i 1 [] (f <$> l) = f <$> (take i l ++ drop (S i) l).
Proof.
  unfold splice. cbn [app]. by rewrite Nat.add_1_r, fmap_app, fmap_take, fmap_drop.
Qed.

Lemma relabelRemoved_stable (task other : Json) :
  isBackendExtensionsInstallTask (relabelRemoved task other)
  = isBackendExtensionsInstallTask other.
Proof.
  unfold relabelRemoved. destruct (asString (getProp task "label")); [|done].
  apply replaceInTask_isBackendExtensionsInstallTask.
Qed.

Lemma getLabels_relabelRemoved (task : Json) (tasks : list Json) :
  getLabels (relabelRemoved task <$> tasks) = getLabels tasks.
Proof.
  unfold relabelRemoved. destruct (asString (getProp task "label")) as [label|].
  - apply getLabels_replaceInDependsOn.
  - by rewrite list_fmap_id.
Qed.

Lemma migrateBackendExtensionsInstall_loop_tasks (fuel : nat) :
  forall (context : DebugMigrationContext) (index : nat),
    length (tasks context) - index <= fuel ->
    index <= length (tasks context) ->
    tasks (migrateBackendExtensionsInstall_loop fuel index context) =
    foldl (fun remaining label => replaceInDependsOn label remaining [])
      (take index (tasks context) ++
       List.filter (fun task => negb (isBackendExtensionsInstallTask task))
         (drop index (tasks context)))
      (getLabels (List.filter isBackendExtensionsInstallTask
                    (drop index (tasks context)))).
Proof.
  induction fuel as [|fuel IH]; intros context index Hfuel Hindex.
  { rewrite drop_ge by lia. rewrite take_ge by lia. cbn. by rewrite app_nil_r. }
  cbn [migrateBackendExtensionsInstall_loop].
  destruct (tasks context !! index) as [task|] eqn:Htask.
  2:{ apply lookup_ge_None in Htask. rewrite drop_ge by lia. rewrite take_ge by lia.
      cbn. by rewrite app_nil_r. }
  rewrite (drop_S _ _ _ Htask). cbn [List.filter].
  destruct (isBackendExtensionsInstallTask task) eqn:Hmatch; cbn [negb].
  - (* the task is removed *)
    set (tasks1 := match asString (getProp task "label") with
                   | Some label => replaceInDependsOn label (tasks context) []
                   | None => tasks context
                   end).
    assert (Htasks1 : tasks1 = relabelRemoved task <$> tasks context).
    { subst tasks1. unfold relabelRemoved.
      destruct (asString (getProp task "label")); [done|].
      by rewrite list_fmap_id. }
    apply lookup_lt_Some in Htask as Hlt.
    assert (Hlength : length (splice index 1 [] tasks1) = length (tasks context) - 1).
    { rewrite length_splice_remove; rewrite Htasks1, length_fmap; [done|lia]. }
    rewrite IH by (cbn [tasks withTasks]; lia).
    cbn [tasks withTasks]. rewrite Htasks1, splice_remove_fmap.
    assert (Hlen : length (relabelRemoved task <$> take index (tasks context)) = index).
    { rewrite length_fmap, length_take. lia. }
    rewrite fmap_app.
    rewrite take_app_length' by done. rewrite drop_app_length' by done.
    rewrite !filter_fmap_stable by (intros x; by rewrite relabelRemoved_stable).
    rewrite getLabels_relabelRemoved, <- fmap_app.
    assert (Hobject : isCommentObject task = true).
    { unfold isBackendExtensionsInstallTask in Hmatch.
      by destruct (isCommentObject task). }
    cbn [getLabels]. rewrite Hobject. unfold relabelRemoved.
    destruct (asString (getProp task "label")) as [label|]; [reflexivity|].
    by rewrite list_fmap_id.
  - (* the task stays *)
    rewrite IH by (apply lookup_lt_Some in Htask; lia).
    rewrite (take_S_r _ _ _ Htask), <- app_assoc. reflexivity.
Qed.

Lemma migrateBackendExtensionsInstall_loop_idle (fuel index : nat)
  (context : DebugMigrationContext) :
  Forall (fun task => isBackendExtensionsInstallTask task = false)
    (drop index (tasks context)) ->
  migrateBackendExtensionsInstall_loop fuel index context = context.
Proof.
  revert index. induction fuel as [|fuel IH]; intros index Hnone; [reflexivity|].
  cbn [migrateBackendExtensionsInstall_loop].
  destruct (tasks context !! index) as [task|] eqn:Htask; [|reflexivity].
  rewrite (drop_S _ _ _ Htask) in Hnone. apply Forall_cons in Hnone as [-> Hnone].
  cbn [negb]. by apply IH.
Qed.

Lemma hasDotnetCommand_set (config : Json) :
  isCommentObject config = true ->
  absentOrObject config "deploy" ->
  hasDotnetCommand
    (setPath ["deploy"; "dotnetCommand"] dotnetCommand (ensureObject "deploy" config)).
Proof.
  intros Hobject Hdeploy.
  destruct (getProp_ensureObject "deploy" config Hobject Hdeploy) as [deploy Hd].
  rewrite (setPath_two _ _ _ _ _ Hd). unfold hasDotnetCommand. cbn [getPath].
  rewrite getProp_setProp by (by rewrite isCommentObject_ensureObject).
  by rewrite getProp_setProp.
Qed.

Lemma hasDotnetCommand_object (config : Json) :
  hasDotnetCommand config ->
  isCommentObject config = true /\ absentOrObject config "deploy".
Proof.
  unfold hasDotnetCommand. cbn [getPath]. intros Hhas.
  destruct config as [| | | | |fields]; try discriminate Hhas.
  split; [done|]. right.
  destruct (getProp (JObj fields) "deploy") as [[| | | | |deploy]|];
    try discriminate Hhas.
  by exists deploy.
Qed.

Lemma migrateBackendExtensionsInstall_loop_config (fuel : nat) :
  forall (context : DebugMigrationContext) (index : nat),
    length (tasks context) - index <= fuel ->
    (hasDotnetCommand (appYmlConfig context) \/
     (isCommentObject (appYmlConfig context) = true /\
      absentOrObject (appYmlConfig context) "deploy" /\
      Exists (fun task => isBackendExtensionsInstallTask task = true)
        (drop index (tasks context)))) ->
    hasDotnetCommand
      (appYmlConfig (migrateBackendExtensionsInstall_loop fuel index context)).
Proof.
  induction fuel as [|fuel IH]; intros context index Hfuel Hconfig.
  { destruct Hconfig as [Hhas|(_ & _ & Hexists)]; [done|].
    rewrite drop_ge in Hexists by lia. by apply Exists_nil in Hexists. }
  cbn [migrateBackendExtensionsInstall_loop].
  destruct (tasks context !! index) as [task|] eqn:Htask.
  2:{ destruct Hconfig as [Hhas|(_ & _ & Hexists)]; [done|].
      apply lookup_ge_None in Htask. rewrite drop_ge in Hexists by lia.
      by apply Exists_nil in Hexists. }
  destruct (isBackendExtensionsInstallTask task) eqn:Hmatch; cbn [negb].
  - apply IH.
    + cbn [tasks withTasks]. apply lookup_lt_Some in Htask.
      rewrite length_splice_remove;
        destruct (asString (getProp task "label"));
        unfold replaceInDependsOn; rewrite ?length_fmap; lia.
    + left. cbn [appYmlConfig withTasks withAppYmlConfig].
      destruct Hconfig as [Hhas|(Hobject & Hdeploy & _)].
      * apply hasDotnetCommand_object in Hhas as [Hobject Hdeploy].
        by apply hasDotnetCommand_set.
      * by apply hasDotnetCommand_set.
  - apply IH; [apply lookup_lt_Some in Htask; lia|].
    destruct Hconfig as [Hhas|(Hobject & Hdeploy & Hexists)]; [by left|right].
    split; [done|]. split; [done|].
    rewrite (drop_S _ _ _ Htask) in Hexists.
    apply Exists_cons in Hexists as [Hyes|Hlater]; [congruence|done].
Qed.

(** X21.  [migrateBackendExtensionsInstall] removes every task that runs the
    command for the installation of the backend extensions and keeps the
    others: the task list afterwards is the list of the other tasks in their
    order, relabelled without replacements for the label of each removed task
    in turn (so that references to a removed task disappear), and no task of
    the kind is left.  With no such task the context comes back as it was;
    with one, and with a configuration object whose [deploy] is missing or an
    object, [deploy.dotnetCommand] is the build command of the extensions in
    the function folder. *)
Theorem migrateBackendExtensionsInstall_removes_tasks
  (context : DebugMigrationContext) :
  tasks (migrateBackendExtensionsInstall context) =
    foldl (fun remaining label => replaceInDependsOn label remaining [])
      (List.filter (fun task => negb (isBackendExtensionsInstallTask task))
         (tasks context))
      (getLabels (List.filter isBackendExtensionsInstallTask (tasks context))) /\
  Forall (fun task => isBackendExtensionsInstallTask task = false)
    (tasks (migrateBackendExtensionsInstall context)) /\
  (Forall (fun task => isBackendExtensionsInstallTask task = false) (tasks context) ->
   migrateBackendExtensionsInstall context = context) /\
  (Exists (fun task => isBackendExtensionsInstallTask task = true) (tasks context) ->
   isCommentObject (appYmlConfig context) = true ->
   absentOrObject (appYmlConfig context) "deploy" ->
   getPath ["deploy"; "dotnetCommand"]
     (appYmlConfig (migrateBackendExtensionsInstall context)) =
   Some (JObj [ ("args",
                 JStr "build extensions.csproj -o ./bin --ignore-failed-sources");
                ("workingDirectory", JStr ("./" +:+ FolderName_Function));
                ("execPath", JStr "${{DOTNET_PATH}}") ])).
Proof.
  assert (Htasks :
    tasks (migrateBackendExtensionsInstall context) =
    foldl (fun remaining label => replaceInDependsOn label remaining [])
      (List.filter (fun task => negb (isBackendExtensionsInstallTask task))
         (tasks context))
      (getLabels (List.filter isBackendExtensionsInstallTask (tasks context)))).
  { unfold migrateBackendExtensionsInstall.
    rewrite migrateBackendExtensionsInstall_loop_tasks by lia.
    by rewrite take_0, drop_0. }
  split; [exact Htasks|]. split; [|split].
  - rewrite Htasks.
    assert (Hfold : forall labels remaining,
      Forall (fun task => isBackendExtensionsInstallTask task = false) remaining ->
      Forall (fun task => isBackendExtensionsInstallTask task = false)
        (foldl (fun remaining label => replaceInDependsOn label remaining [])
           remaining labels)).
    { induction labels as [|label labels IH]; intros remaining Hall; [done|].
      cbn [foldl]. apply IH. unfold replaceInDependsOn.
      apply Forall_fmap. eapply Forall_impl; [exact Hall|].
      intros task Htask. cbn.
      by rewrite replaceInTask_isBackendExtensionsInstallTask. }
    apply Hfold. apply Forall_forall. intros task Hin.
    apply list_elem_of_In, filter_In in Hin as [_ Hno].
    by destruct (isBackendExtensionsInstallTask task).
  - intros Hnone. apply migrateBackendExtensionsInstall_loop_idle.
    by rewrite drop_0.
  - intros Hexists Hobject Hdeploy.
    apply migrateBackendExtensionsInstall_loop_config; [lia|].
    right. by rewrite drop_0.
Qed.

Lemma dependsOnLabel_false (task : Json) (label : string) :
  dependsOnLabel task label = false ->
  getProp task "dependsOn" <> Some (JStr label).
Proof.
  unfold dependsOnLabel. destruct task as [| | | | |fields]; try done.
  cbn [isCommentObject andb]. intros Hno Hd. rewrite Hd in Hno.
  by rewrite String.eqb_refl in Hno.
Qed.

Lemma findIndex_None {A} (p : A -> bool) (l : list A) :
  findIndex p l = None -> Forall (fun x => p x = false) l.
Proof.
  induction l as [|x l IH]; cbn [findIndex]; [by constructor|].
  destruct (p x) eqn:Hp; [discriminate|].
  destruct (findIndex p l); [discriminate|]. intros _. by constructor; [|apply IH].
Qed.

(** X22.  [migrateBackendWatch] looks for the first task that depends on the
    legacy task [teamsfx: backend watch].  Without one, the context comes back
    as it was.  With one, a task generated for a new label is inserted
    directly behind it, and then every task of the list (the new one
    included) is relabelled from the legacy task to the new label; the task
    that was found depends, in the single-string case, on the new label alone.
    In both cases no task depends on the legacy task as a single string
    afterwards. *)
Theorem migrateBackendWatch_inserts_after_first_dependent
  (context : DebugMigrationContext) :
  match findIndex (fun task => dependsOnLabel task "teamsfx: backend watch")
          (tasks context) with
  | None => migrateBackendWatch context = context
  | Some index =>
      exists task newLabel,
        tasks context !! index = Some task /\
        newLabel = generateLabel "Watch backend" (getLabels (tasks context)) /\
        tasks (migrateBackendWatch context) =
          replaceInTask "teamsfx: backend watch" [newLabel] <$>
            (take (S index) (tasks context) ++ [watchBackendTask newLabel]
             ++ drop (S index) (tasks context)) /\
        (getProp task "dependsOn" = Some (JStr "teamsfx: backend watch") ->
         exists task',
           tasks (migrateBackendWatch context) !! index = Some task' /\
           getProp task' "dependsOn" = Some (JArr [JStr newLabel]) /\
           getProp task' "label" = getProp task "label")
  end /\
  Forall (fun task => getProp task "dependsOn" <> Some (JStr "teamsfx: backend watch"))
    (tasks (migrateBackendWatch context)).
Proof.
  unfold migrateBackendWatch.
  destruct (findIndex _ (tasks context)) as [index|] eqn:Hindex.
  - destruct (findIndex_lookup _ _ _ Hindex) as (task & Htask & Hdepends).
    cbn [tasks withTasks].
    set (newLabel := generateLabel "Watch backend" (getLabels (tasks context))).
    assert (Hsplice :
      splice (index + 1) 0 [watchBackendTask newLabel] (tasks context) =
      take (S index) (tasks context) ++ [watchBackendTask newLabel]
      ++ drop (S index) (tasks context)).
    { unfold splice. by rewrite Nat.add_0_r, Nat.add_1_r. }
    split.
    + exists task, newLabel. split; [done|]. split; [done|].
      unfold replaceInDependsOn. rewrite Hsplice. split; [done|].
      intros Hstring. exists (replaceInTask "teamsfx: backend watch" [newLabel] task).
      split.
      * rewrite list_lookup_fmap, lookup_app_l.
        2:{ rewrite length_take. apply lookup_lt_Some in Htask. lia. }
        rewrite lookup_take_lt by lia. by rewrite Htask.
      * split; [|by apply replaceInTask_getProp_other].
        unfold dependsOnLabel in Hdepends.
        destruct task as [| | | | |fields]; try discriminate Hdepends.
        unfold replaceInTask. cbn [isCommentObject andb]. rewrite Hstring.
        cbn [truthy String.eqb Ascii.eqb Bool.eqb negb andb length Nat.ltb
             Nat.leb getProp setProp].
        apply assocGet_assocSet.
    + apply Forall_forall. intros task' Hin.
      unfold replaceInDependsOn in Hin.
      apply list_elem_of_fmap in Hin as (t & -> & _).
      by apply replaceInTask_no_string_reference.
  - split; [reflexivity|]. apply findIndex_None in Hindex.
    eapply Forall_impl; [exact Hindex|]. intros task. apply dependsOnLabel_false.
Qed.

End BackendTasks.

(** * 33. The middleware: when the migration runs *)

Section MiddlewareFacts.
Import ProjectMigratorV3 ProjectMigratorMW.
Context `{Externals} `{HookExternals}.

Lemma askUserConfirm_true (s : HookState) :
  showMessage = Some (Return (Ok (Some upgradeButton))) -> upgradeButton <> "" ->
  askUserConfirm s =
    (Return true,
     call (Notification StatusOK) (call ShowMessage (call NotificationStart s))).
Proof.
  intros Hshow Hbutton. unfold askUserConfirm. rewrite Hshow.
  destruct (String.eqb_spec upgradeButton ""); [done|].
  by rewrite String.eqb_refl.
Qed.

Lemma askUserConfirm_cases (s : HookState) :
  (showMessage = Some (Return (Ok (Some upgradeButton))) /\ upgradeButton <> "" /\
   askUserConfirm s =
     (Return true,
      call (Notification StatusOK) (call ShowMessage (call NotificationStart s)))) \/
  (~ (showMessage = Some (Return (Ok (Some upgradeButton))) /\ upgradeButton <> "") /\
   ((exists e, showMessage = Some (Throw e) /\
       askUserConfirm s = (Throw e, call ShowMessage (call NotificationStart s))) \/
    (exists shown,
       (shown = [] \/ shown = [ShowMessage]) /\
       askUserConfirm s =
         (Return false,
          mkHookState (Some (Err UpgradeCanceledError))
            (hookCalls s ++ [NotificationStart] ++ shown ++
             [Notification StatusCancel; OutputCancelMessage])
            (hookWorld s))))).
Proof.
  unfold askUserConfirm.
  destruct showMessage as [[[[text|]|error]|e]|] eqn:Hshow.
  - destruct (String.eqb_spec text "") as [->|Hne]; cbn [orb].
    + right. split; [intros [[= Heq] ?]; congruence|]. right. exists [ShowMessage].
      split; [by right|]. unfold call, setResult. cbn.
      by rewrite <- !app_assoc.
    + destruct (String.eqb_spec text upgradeButton) as [->|Hother]; cbn [negb].
      * by left.
      * right. split; [intros [[= Heq] ?]; congruence|]. right. exists [ShowMessage].
        split; [by right|]. unfold call, setResult. cbn.
        by rewrite <- !app_assoc.
  - right. split; [by intros [[=] ?]|]. right. exists [ShowMessage].
    split; [by right|]. unfold call, setResult. cbn. by rewrite <- !app_assoc.
  - right. split; [by intros [[=] ?]|]. right. exists [ShowMessage].
    split; [by right|]. unfold call, setResult. cbn. by rewrite <- !app_assoc.
  - right. split; [by intros [[=] ?]|]. left. by exists e.
  - right. split; [by intros [[=] ?]|]. right. exists [].
    split; [by left|]. unfold call, setResult. cbn. by rewrite <- !app_assoc.
Qed.

(** X23.  [askUserConfirm] answers [true] exactly when the message box
    returned the (non-empty) label of the upgrade button; the notification is
    then reported with the status OK and [ctx.result] is left alone.  In
    every other case in which the message box did not throw (no tools, an
    error result, no answer, an empty or another answer) it answers [false],
    sets [ctx.result] to the error of a cancelled upgrade, reports the status
    Cancel and prints the cancel message.  An exception of the message box
    is passed on. *)
Theorem askUserConfirm_confirms_only_upgrade (s : HookState) :
  ((askUserConfirm s).1 = Return true <->
   showMessage = Some (Return (Ok (Some upgradeButton))) /\ upgradeButton <> "") /\
  ((askUserConfirm s).1 = Return true ->
   (askUserConfirm s).2 =
     call (Notification StatusOK) (call ShowMessage (call NotificationStart s))) /\
  ((askUserConfirm s).1 = Return false ->
   hookResult (askUserConfirm s).2 = Some (Err UpgradeCanceledError) /\
   exists shown,
     (shown = [] \/ shown = [ShowMessage]) /\
     hookCalls (askUserConfirm s).2 =
       hookCalls s ++ [NotificationStart] ++ shown ++
       [Notification StatusCancel; OutputCancelMessage]) /\
  (forall e,
     (askUserConfirm s).1 = Throw e ->
     showMessage = Some (Throw e) /\
     hookResult (askUserConfirm s).2 = hookResult s) /\
  hookWorld (askUserConfirm s).2 = hookWorld s.
Proof.
  destruct (askUserConfirm_cases s)
    as [(Hshow & Hbutton & ->)|[Hnot [(e & Hshow & ->)|(shown & Hshown & ->)]]];
    cbn [fst snd].
  - split; [done|]. split; [done|]. split; [done|]. by split.
  - split; [split; [done|intros Hyes; by destruct Hnot]|].
    split; [done|]. split; [done|]. split; [|done].
    by intros e' [= <-].
  - split; [split; [done|intros Hyes; by destruct Hnot]|].
    split; [done|]. split; [|by split].
    intros _. split; [done|]. by exists shown.
Qed.

(** X24.  When the migration runs.  The version check of the middleware
    always holds.  Without the method check the middleware only calls the
    next one.  With the method check and without user tasks it sets
    [ctx.result] to ok and does nothing else.  Otherwise it asks the user: the
    world (files, ledger, log of the migration) changes only when the user
    has confirmed with the upgrade button, and then, once the migration
    context is created, the world is the one that [wrapRunMigration migrate]
    leaves; [ctx.result] becomes ok when that returns, and when it throws the
    middleware throws the same error and does not touch [ctx.result].  The
    next middleware is never called on these paths. *)
Theorem ProjectMigratorMWV3_runs_only_when_confirmed (s : HookState) :
  checkVersionForMigration = true /\
  (checkMethod = false -> ProjectMigratorMWV3 s = (Return tt, call Next s)) /\
  (checkMethod = true -> checkUserTasks = false ->
   ProjectMigratorMWV3 s = (Return tt, setResult (Ok tt) s)) /\
  (checkMethod = true ->
   exists calls,
     hookCalls (ProjectMigratorMWV3 s).2 = hookCalls s ++ calls /\ Next ∉ calls) /\
  (hookWorld (ProjectMigratorMWV3 s).2 <> hookWorld s ->
   checkMethod = true /\ checkUserTasks = true /\
   showMessage = Some (Return (Ok (Some upgradeButton))) /\ upgradeButton <> "") /\
  (forall migrationContext,
     checkMethod = true -> checkUserTasks = true ->
     showMessage = Some (Return (Ok (Some upgradeButton))) -> upgradeButton <> "" ->
     MigrationContext_create (hookWorld s) = Return migrationContext ->
     hookWorld (ProjectMigratorMWV3 s).2 =
       (wrapRunMigration migrate migrationContext).2 /\
     match (wrapRunMigration migrate migrationContext).1 with
     | Return _ =>
         (ProjectMigratorMWV3 s).1 = Return tt /\
         hookResult (ProjectMigratorMWV3 s).2 = Some (Ok tt)
     | Throw e =>
         (ProjectMigratorMWV3 s).1 = Throw e /\
         hookResult (ProjectMigratorMWV3 s).2 = hookResult s
     end).
Proof.
  split; [reflexivity|]. unfold ProjectMigratorMWV3.
  change checkVersionForMigration with true. cbn [andb].
  split; [by intros ->|]. split; [by intros -> ->|].
  split; [|split].
  - intros ->. destruct checkUserTasks; cbn [negb];
      [|exists []; split; [by rewrite app_nil_r|apply not_elem_of_nil]].
    destruct (askUserConfirm_cases s)
      as [(Hshow & Hbutton & ->)|[Hnot [(e & Hshow & ->)|(shown & Hshown & ->)]]].
    + exists [NotificationStart; ShowMessage; Notification StatusOK;
              CreateMigrationContext].
      split.
      * destruct (MigrationContext_create _) as [migrationContext|e];
          [destruct (wrapRunMigration migrate migrationContext) as [[[]|e] w]|];
          cbn; by rewrite <- !app_assoc.
      * rewrite !not_elem_of_cons. repeat split; try done. apply not_elem_of_nil.
    + exists [NotificationStart; ShowMessage]. split.
      * cbn. by rewrite <- !app_assoc.
      * rewrite !not_elem_of_cons. repeat split; try done. apply not_elem_of_nil.
    + eexists. split; [reflexivity|].
      rewrite !not_elem_of_app, !not_elem_of_cons.
      repeat split; try done; try apply not_elem_of_nil.
      destruct Hshown as [->| ->]; [apply not_elem_of_nil|].
      rewrite not_elem_of_cons. split; [done|apply not_elem_of_nil].
  - destruct checkMethod; cbn [andb]; [|by intros []].
    destruct checkUserTasks; cbn [negb]; [|by intros []].
    destruct (askUserConfirm_cases s)
      as [(Hshow & Hbutton & ->)|[Hnot [(e & Hshow & ->)|(shown & Hshown & ->)]]].
    + done.
    + by intros [].
    + by intros [].
  - intros migrationContext -> -> Hshow Hbutton Hcreate. cbn [negb].
    rewrite (askUserConfirm_true s Hshow Hbutton).
    change (hookWorld (call CreateMigrationContext
              (call (Notification StatusOK)
                 (call ShowMessage (call NotificationStart s)))))
      with (hookWorld s).
    rewrite Hcreate.
    by destruct (wrapRunMigration migrate migrationContext) as [[[]|e] w].
Qed.

End MiddlewareFacts.

(** * 34. The further statements at concrete inputs *)

Section MoreInstances.
Import ProjectMigratorV3 TaskMigrations MoreTaskMigrations Predicates.

Lemma replaceInDependsOn_unreferenced_witness :
  replaceInDependsOn "A" [Sample.dependentTask (JStr "C")] ["X"]
    = [Sample.dependentTask (JStr "C")].
Proof.
  apply (replaceInDependsOn_unreferenced "A" [Sample.dependentTask (JStr "C")] ["X"]).
  intros task Hin. apply list_elem_of_singleton in Hin as ->. reflexivity.
Defined.

Lemma replaceInDependsOn_drops_references_witness :
  exists task' dependsOn',
    replaceInDependsOn "A" [Sample.dependentTask (JArr [JStr "A"; JStr "C"])] [] !! 0
      = Some task' /\
    getProp task' "dependsOn" = Some (JArr dependsOn') /\
    occurrences "A" dependsOn' = 0.
Proof.
  apply (proj2 (replaceInDependsOn_drops_references "A"
                  [Sample.dependentTask (JArr [JStr "A"; JStr "C"])] []
                  ltac:(discriminate))
           0 [("label", JStr "B"); ("dependsOn", JArr [JStr "A"; JStr "C"])]
           [JStr "A"; JStr "C"]).
  - reflexivity.
  - reflexivity.
  - apply not_elem_of_nil.
Defined.

Lemma migrateSetUpBot_bot_id_and_referenced_password_witness :
  (exists envs before after,
     log (migrationContext
            (migrateSetUpBot (H := Sample.externals)
               (MoreSamples.debugContextWithFoo "from-env"
                  [Sample.botTask "${env:FOO}"])))
       = before ++ UpdateLocalEnv envs :: after /\
     envGet "BOT_ID" envs = Some "bot-id" /\
     envGet "SECRET_BOT_PASSWORD" envs = Some "crypto_from-env") /\
  (exists envs before after,
     log (migrationContext
            (migrateSetUpBot (H := Sample.externals)
               (MoreSamples.debugContextWithFoo "from-env"
                  [Sample.botTask ("${env:FOO" +:+ lineSeparator +:+ "}")])))
       = before ++ UpdateLocalEnv envs :: after /\
     envGet "SECRET_BOT_PASSWORD" envs
       = Some ("crypto_${env:FOO" +:+ lineSeparator +:+ "}")).
Proof.
  split.
  - destruct (migrateSetUpBot_bot_id_and_referenced_password
                (H := Sample.externals)
                (MoreSamples.debugContextWithFoo "from-env"
                   [Sample.botTask "${env:FOO}"])
                0 (Sample.botTask "${env:FOO}")
                [("botId", JStr "bot-id"); ("botPassword", JStr "${env:FOO}")])
      as (envs & before & after & Hlog & Hid & Hresolved & _).
    + reflexivity.
    + split; [reflexivity|]. split; [by eexists|reflexivity].
    + exists envs, before, after. split; [exact Hlog|]. split.
      * apply Hid; [reflexivity|discriminate].
      * apply (Hresolved "FOO" "from-env");
          [reflexivity|reflexivity|reflexivity|discriminate|reflexivity].
  - destruct (migrateSetUpBot_bot_id_and_referenced_password
                (H := Sample.externals)
                (MoreSamples.debugContextWithFoo "from-env"
                   [Sample.botTask ("${env:FOO" +:+ lineSeparator +:+ "}")])
                0 (Sample.botTask ("${env:FOO" +:+ lineSeparator +:+ "}"))
                [("botId", JStr "bot-id");
                 ("botPassword", JStr ("${env:FOO" +:+ lineSeparator +:+ "}"))])
      as (envs & before & after & Hlog & _ & _ & _ & Hliteral & _).
    + reflexivity.
    + split; [reflexivity|]. split; [by eexists|reflexivity].
    + exists envs, before, after. split; [exact Hlog|].
      apply (Hliteral ("FOO" +:+ lineSeparator)); reflexivity.
Defined.

Lemma setUpBotConfig_messaging_endpoint_witness :
  getPath ["deploy"; "bot"]
    (setUpBotConfig (placeholderMapping (Sample.debugContext []))
       (Some (JObj [("botMessagingEndpoint", JStr "/bot")])) (JObj []))
  = Some (JBool true).
Proof.
  apply (setUpBotConfig_messaging_endpoint
           (placeholderMapping (Sample.debugContext []))
           (Some (JObj [("botMessagingEndpoint", JStr "/bot")])) []).
  - left. reflexivity.
  - left. reflexivity.
Defined.

Lemma setUp_tasks_all_handled_witness :
  Forall (fun task =>
            isSetUpBotTask (H := Sample.externals) task = true ->
            asString (getProp task "label") = None)
    (tasks (migrateSetUpBot (H := Sample.externals)
              (Sample.debugContext [Sample.botTask "secret"]))).
Proof.
  apply (setUp_tasks_all_handled (H := Sample.externals)
           (H0 := MoreSamples.taskExternals)
           (Sample.debugContext [Sample.botTask "secret"])).
  intros label. repeat split; reflexivity.
Defined.


End MoreInstances.
